(** * CO2MPAS: the CO2 emission model, its calibration, the model selector
      and the command line, embedded from the Python sources.

    Numbers are IEEE binary64 values ([PrimFloat.float]), as Python floats
    and numpy float64 arrays are; dictionaries are [gmap string _];
    arrays are lists; exceptions are explicit results. *)

From Stdlib Require Import ZArith List String Ascii Bool Floats.
From stdpp Require Import gmap strings list fin_maps sorting.

Set Warnings "-inexact-float".

Open Scope string_scope.
Open Scope list_scope.

(** ** Python and numpy primitives the sources rely on *)
Module Py.

(** A call either returns or raises. *)
Inductive exn : Type :=
  | KeyError (key : string)
  | ZeroDivisionError
  | ValueError
  | TypeError
  | NotImplementedError
  | IndexError
  | CmdException (msg : string)
  | OSError (path : string).

Inductive result (A : Type) : Type :=
  | Ok (a : A)
  | Raise (e : exn).
Arguments Ok {A} a.
Arguments Raise {A} e.

Definition bind {A B} (r : result A) (k : A -> result B) : result B :=
  match r with
  | Ok a => k a
  | Raise e => Raise e
  end.

#[global] Instance result_ret : MRet result := fun _ a => Ok a.
#[global] Instance result_bind : MBind result := fun _ _ k r => bind r k.
#[global] Instance result_fmap : FMap result :=
  fun _ _ f r => bind r (fun a => Ok (f a)).

Definition getitem {V} (d : gmap string V) (k : string) : result V :=
  match d !! k with
  | Some v => Ok v
  | None => Raise (KeyError k)
  end.

(** [str.upper] on ASCII letters. *)
Definition upper_ascii (c : ascii) : ascii :=
  let n := nat_of_ascii c in
  if (97 <=? n)%nat && (n <=? 122)%nat then ascii_of_nat (n - 32) else c.

Fixpoint upper (s : string) : string :=
  match s with
  | EmptyString => EmptyString
  | String c r => String (upper_ascii c) (upper r)
  end.

(** [str.upper] maps every cased character; on a string of ASCII characters
    it is [upper]. *)
Definition is_ascii (s : string) : bool :=
  forallb (fun c => (nat_of_ascii c <? 128)%nat) (list_ascii_of_string s).

(** The builtin [max(a, b)] keeps its first argument unless the second
    compares greater; [min(a, b)] unless the second compares smaller. *)
Definition py_max (a b : float) : float := if PrimFloat.ltb a b then b else a.
Definition py_min (a b : float) : float := if PrimFloat.ltb b a then b else a.

(** [sys.float_info.max] and [sys.float_info.epsilon]. *)
Definition float_max : float := 0x1.fffffffffffffp+1023%float.
Definition float_epsilon : float := 0x1p-52%float.

(** [numpy.nan_to_num] on one element: not-a-number becomes 0, an infinity
    becomes the finite float of largest magnitude with the same sign. *)
Definition nan_to_num (x : float) : float :=
  if PrimFloat.is_nan x then 0%float
  else if PrimFloat.eqb x infinity then float_max
  else if PrimFloat.eqb x neg_infinity then (- float_max)%float
  else x.

(** Python's float division raises on a zero divisor; numpy's does not. *)
Definition py_div (a b : float) : result float :=
  if PrimFloat.eqb b 0 then Raise ZeroDivisionError else Ok (a / b)%float.

(** Boolean-mask indexing [xs[mask]] of a one-dimensional array. *)
Fixpoint select {A} (xs : list A) (mask : list bool) : list A :=
  match xs, mask with
  | x :: xs', b :: mask' => if b then x :: select xs' mask' else select xs' mask'
  | _, _ => []
  end.

Definition mask_index {A} (xs : list A) (mask : list bool) : result (list A) :=
  if (length xs =? length mask)%nat then Ok (select xs mask) else Raise IndexError.

(** An elementwise operation on two one-dimensional arrays: equal
    lengths, or one of length one stretched over the other. *)
Definition broadcast2 {A B C} (f : A -> B -> C) (xs : list A) (ys : list B)
  : result (list C) :=
  if (length xs =? length ys)%nat then Ok (zip_with f xs ys)
  else match xs, ys with
       | [x], _ => Ok (map (f x) ys)
       | _, [y] => Ok (map (fun x => f x y) xs)
       | _, _ => Raise ValueError
       end.

(** [sorted(d.items())]: the items by ascending key. *)
Definition key_le {V} (x y : string * V) : Prop := String.leb x.1 y.1 = true.

#[global] Instance key_le_dec {V} (x y : string * V) : Decision (key_le x y).
Proof. unfold key_le. apply _. Defined.

Definition sorted_items {V} (d : gmap string V) : list (string * V) :=
  merge_sort key_le (map_to_list d).

(** A heap of dictionary objects, to tell an update in place from a copy. *)
Abbreviation loc := nat (only parsing).
Abbreviation store V := (gmap nat (gmap string V)) (only parsing).

(** Code that changes a state [S] and may raise; the state a raise leaves
    behind is kept. *)
Definition ST (S A : Type) : Type := S -> result A * S.

Definition m_ret {S A} (a : A) : ST S A := fun h => (Ok a, h).
Definition m_bind {S A B} (m : ST S A) (k : A -> ST S B) : ST S B :=
  fun h => match m h with
           | (Ok a, h') => k a h'
           | (Raise e, h') => (Raise e, h')
           end.
Definition m_lift {S A} (r : result A) : ST S A := fun h => (r, h).
Definition m_raise {S A} (e : exn) : ST S A := fun h => (Raise e, h).

#[global] Instance M_ret S : MRet (ST S) := fun _ a => m_ret a.
#[global] Instance M_bind S : MBind (ST S) := fun _ _ k m => m_bind m k.

Abbreviation M V := (ST (store V)) (only parsing).

(** [{...}] and [d.copy()] allocate a new object. *)
Definition fresh {V} (h : store V) : loc :=
  S (max_list (elements (dom h))).
Definition dict_new {V} (d : gmap string V) : M V loc :=
  fun h => let l := fresh h in (Ok l, <[l := d]> h).
Definition dict_read {V} (l : loc) : M V (gmap string V) :=
  fun h => match h !! l with
           | Some d => (Ok d, h)
           | None => (Raise TypeError, h)
           end.
Definition dict_write {V} (l : loc) (d : gmap string V) : M V unit :=
  fun h => (Ok tt, <[l := d]> h).
Definition dict_copy {V} (l : loc) : M V loc :=
  d ← dict_read l; dict_new d.
(** [dst.update(src)] rewrites [dst] in place; keys of [src] win. *)
Definition dict_update {V} (dst src : loc) : M V unit :=
  s ← dict_read src; d ← dict_read dst; dict_write dst (s ∪ d).

End Py.

(** ** [co2mpas/model/physical/defaults.py] *)
Module Defaults.

(** Machine error. *)
Definition EPS : float := Py.float_epsilon.

(** [Functions.restrict_bounds.CO2_PARAMS_LIMIT_MULTIPLIERS] *)
Definition CO2_PARAMS_LIMIT_MULTIPLIERS : gmap string (float * float) :=
  list_to_map [("t1", (0.5, 1.5)); ("t2", (0.5, 1.5));
               ("trg", (0.9, 1.1));
               ("a", (0.8, 1.2)); ("b", (0.8, 1.2));
               ("c", (1.2, 0.8)); ("a2", (1.2, 0.8));
               ("l", (1.2, 0.8)); ("l2", (1.2, 0.0))]%float.

(** [Functions.select_phases_integration_times.INTEGRATION_TIMES] *)
Definition INTEGRATION_TIMES : gmap string (list float) :=
  <["WLTP" := [0.0; 590.0; 1023.0; 1478.0; 1800.0]%float]>
  (<["NEDC" := [0.0; 780.0; 1180.0]%float]> ∅).

(** One entry of [CO2_PARAMS]: value, bounds, and the [vary] flag when
    the entry has one. *)
Record co2_param := {
  value : float;
  min : float;
  max : float;
  vary : option bool }.

Definition entry (v lo hi : float) : co2_param :=
  {| value := v; min := lo; max := hi; vary := None |}.

(** [Functions.define_initial_co2_emission_model_params_guess.CO2_PARAMS] *)
Definition CO2_PARAMS : gmap string (gmap string co2_param) :=
  list_to_map [
    ("gasoline turbo",
     list_to_map [
       ("a", entry 0.468678 0.398589 0.538767);
       ("b", entry 0.011859 0.006558 0.01716);
       ("c", entry (-0.00069) (-0.00099) (-0.00038));
       ("a2", entry (-0.00266) (-0.00354) (-0.00179));
       ("b2", {| value := 0; min := -1; max := 1; vary := Some false |});
       ("l", entry (-2.49882) (-3.27698) (-1.72066));
       ("l2", entry (-0.0025) (-0.00796) 0.0);
       ("t0", entry 4.5 0.0 8.0);
       ("t1", entry 3.5 0.0 8.0)]);
    ("gasoline natural aspiration",
     list_to_map [
       ("a", entry 0.4719 0.40065 0.54315);
       ("b", entry 0.01193 (-0.00247) 0.026333);
       ("c", entry (-0.00065) (-0.00138) 0.0000888);
       ("a2", entry (-0.00385) (-0.00663) (-0.00107));
       ("b2", {| value := 0; min := -1; max := 1; vary := Some false |});
       ("l", entry (-2.14063) (-3.17876) (-1.1025));
       ("l2", entry (-0.00286) (-0.00577) 0.0);
       ("t0", entry 4.5 0.0 8.0);
       ("t1", entry 3.5 0.0 8.0)]);
    ("diesel",
     list_to_map [
       ("a", entry 0.391197 0.346548 0.435846);
       ("b", entry 0.028604 0.002519 0.054688);
       ("c", entry (-0.00196) (-0.00386) (-0.000057));
       ("a2", entry (-0.0012) (-0.00233) (-0.000064));
       ("b2", {| value := 0; min := -1; max := 1; vary := Some false |});
       ("l", entry (-1.55291) (-2.2856) (-0.82022));
       ("l2", entry (-0.0076) (-0.01852) 0.0);
       ("t0", entry 4.5 0.0 8.0);
       ("t1", entry 3.5 0.0 8.0)])
  ]%float.

(** [Functions.nedc_time_length.TIME] and [Functions.wltp_time_length.TIME] *)
Definition nedc_time_length_TIME : float := 1180.0.
Definition wltp_time_length_TIME : float := 1800.0.

End Defaults.

(** ** [compas/functions/physical/engine/co2_emission.py] *)
Module Co2Emission.
Import Py.

(** What the module takes from outside the sources: numpy's elementwise
    power, the constants of [compas.functions.physical.constants], the
    mean squared error of scikit-learn and the optimizers of scipy. *)
Class Numpy := { np_power : float -> float -> float }.

Class Constants := { MIN_ENGINE_SPEED : float; EPS : float }.

Class Sklearn := {
  mean_squared_error : list float -> list float -> result float }.

(** The outcome of [scipy.optimize.minimize]: the point found, whether it
    converged, and the points at which it called the objective, in order. *)
Record OptimizeResult := {
  res_x : list float;
  res_success : bool;
  res_evals : list (list float) }.

Class Scipy := {
  minimize : (list float -> result float) -> list float ->
             list (float * float) -> result OptimizeResult;
  (** the grid search of [brute] with [Ns=3]: the points evaluated, in
      order, and the best of them *)
  brute_grid : (list float -> result float) -> list (float * float) ->
               result (list (list float) * list float) }.

Definition calculate_normalized_engine_coolant_temperatures
  (engine_coolant_temperatures : list float) (temperature_target : float)
  : list float :=
  map (fun th =>
         let T := ((th + 273.0) / (temperature_target + 273.0))%float in
         if PrimFloat.ltb 1 T then 1.0%float else T)
      engine_coolant_temperatures.

(** Array operands are numpy arrays, [engine_capacity] is a Python float:
    dividing by it raises when it is zero, the elementwise division by the
    speeds does not. *)
Definition calculate_brake_mean_effective_pressures
  (engine_speeds_out engine_powers_out : list float) (engine_capacity : float)
  : result (list float) :=
  k ← py_div 1200000.0 engine_capacity;
  p ← broadcast2 (fun pw sp => (k * pw / sp)%float)
                 engine_powers_out engine_speeds_out;
  mret (map nan_to_num p).

(** One sample of the series; [x**2] is numpy's square [x*x]. *)
Definition _calculate_fuel_mean_effective_pressure `{Numpy}
  (params : gmap string float) (n_speeds n_powers n_temperatures : float)
  : result (float * float) :=
  let p := params in
  a ← getitem p "a"; b ← getitem p "b"; c ← getitem p "c";
  let B := (a + (b + c * n_speeds) * n_speeds)%float in
  t ← getitem p "t"; l ← getitem p "l"; l2 ← getitem p "l2";
  let C := (np_power n_temperatures (- t)
            * (l + l2 * (n_speeds * n_speeds)))%float in
  let C := (C - n_powers)%float in
  a2 ← getitem p "a2";
  linear ← (if PrimFloat.eqb a2 0
            then b2 ← getitem p "b2"; mret (PrimFloat.eqb b2 0)
            else mret false);
  if (linear : bool) then mret ((- C / B)%float, B)
  else
    a2 ← getitem p "a2"; b2 ← getitem p "b2";
    let A_2 := (2.0 * (a2 + b2 * n_speeds))%float in
    let v := PrimFloat.sqrt (PrimFloat.abs (B * B - 2.0 * A_2 * C))%float in
    mret (((- B + v) / A_2)%float, v).

Definition coefficient_keys : list string :=
  ["a"; "b"; "c"; "a2"; "b2"; "l"; "l2"; "t"; "trg"].

Definition zero_params : gmap string float :=
  list_to_map [("a2", 0.0); ("b2", 0.0); ("a", 0.0); ("b", 0.0); ("c", 0.0);
               ("l", 0.0); ("l2", 0.0); ("t", 0.0); ("trg", 0.0)]%float.

(** One element of the result, for one element of the idle speed array that
    [calculate_co2_emissions] passes; [lhv] is a Python float. *)
Definition calculate_p0 `{Numpy} (params : gmap string float)
  (engine_capacity engine_stroke idle_engine_speed_median
   engine_fuel_lower_heating_value : float) : result float :=
  let p := params ∪ zero_params in
  let engine_cm_idle :=
    (idle_engine_speed_median * engine_stroke / 30000.0)%float in
  let lhv := engine_fuel_lower_heating_value in
  '(engine_wfb_idle, engine_wfa_idle) ←
    _calculate_fuel_mean_effective_pressure p engine_cm_idle 0 1;
  k ← py_div 3600000.0 lhv;
  let engine_wfa_idle := (k / engine_wfa_idle)%float in
  k' ← py_div (3.0 * engine_capacity) lhv;
  let engine_wfb_idle :=
    (engine_wfb_idle * (k' * idle_engine_speed_median))%float in
  mret (- engine_wfb_idle / engine_wfa_idle)%float.

(** The twelve leading arguments of [calculate_co2_emissions], which
    [define_co2_emissions_model] binds. *)
Record cycle_data := {
  engine_speeds_out : list float;
  engine_powers_out : list float;
  mean_piston_speeds : list float;
  brake_mean_effective_pressures : list float;
  engine_coolant_temperatures : list float;
  on_engine : list bool;
  engine_fuel_lower_heating_value : float;
  idle_engine_speed : float * float;
  engine_stroke : float;
  engine_capacity : float;
  engine_idle_fuel_consumption : float;
  fuel_carbon_content : float }.

(** [calculate_co2_emissions] below its parameter merge, on the merged
    dictionary [p]. *)
Definition co2_emissions_of `{Numpy} `{Constants} (d : cycle_data)
  (p : gmap string float) (sub_values : option (list bool))
  : result (list float) :=
  let sub_values :=
    match sub_values with
    | Some b => b
    | None => replicate (length (mean_piston_speeds d)) true
    end in
  n_speeds ← mask_index (mean_piston_speeds d) sub_values;
  n_powers ← mask_index (brake_mean_effective_pressures d) sub_values;
  let lhv := engine_fuel_lower_heating_value d in
  e_speeds ← mask_index (engine_speeds_out d) sub_values;
  e_powers ← mask_index (engine_powers_out d) sub_values;
  e_temp ← mask_index (engine_coolant_temperatures d) sub_values;
  on ← mask_index (on_engine d) sub_values;
  let e_off := map negb on in
  trg ← getitem p "trg";
  let n_temp := calculate_normalized_engine_coolant_temperatures e_temp trg in
  fc ← mapM (fun x : float * float * float =>
               fst <$> _calculate_fuel_mean_effective_pressure
                         p x.1.1 x.1.2 x.2)
            (zip (zip n_speeds n_powers) n_temp);
  k ← py_div (engine_capacity d) (lhv * 1200);
  let fc := zip_with (fun f s => (f * (s * k))%float) fc e_speeds in
  ec_p0 ← mapM (fun s => calculate_p0 p (engine_capacity d)
                                       (engine_stroke d) s lhv) e_speeds;
  let thr := ((idle_engine_speed d).1 + MIN_ENGINE_SPEED)%float in
  let b := map (fun s => PrimFloat.ltb s thr) e_speeds in
  t ← getitem p "t";
  let fc := zip_with (fun (f : float) (bT : bool * float) =>
                        if bT.1
                        then (engine_idle_fuel_consumption d
                              * np_power bT.2 (- t))%float
                        else f) fc (zip b n_temp) in
  let fc := zip_with (fun (f : float) (x : float * float * bool) =>
                        if PrimFloat.leb x.1.1 x.1.2 || x.2
                           || PrimFloat.ltb f 0
                        then 0%float else f)
                     fc (zip (zip e_powers ec_p0) e_off) in
  mret (map (fun f => nan_to_num (f * fuel_carbon_content d)%float) fc).

(** The parameter merge at the head of [calculate_co2_emissions]: a new
    dictionary [p], updated in place from a copy of [default_params] when
    that is a non-empty dictionary, then from [params]. *)
Definition merge_co2_params (params : loc) (default_params : option loc)
  : M float loc :=
  p ← dict_new zero_params;
  _ ← match default_params with
      | Some dl =>
          dv ← dict_read dl;
          if decide (dv = ∅) then mret tt
          else c ← dict_copy dl; dict_update p c
      | None => mret tt
      end;
  _ ← dict_update p params;
  mret p.

(** What [default_params] holds on the heap; nothing when it is [None]. *)
Definition defaults_at (h : store float) (default_params : option loc)
  : gmap string float :=
  match default_params with
  | Some dl => default ∅ (h !! dl)
  | None => ∅
  end.

Definition calculate_co2_emissions `{Numpy} `{Constants} (d : cycle_data)
  (params : loc) (default_params : option loc)
  (sub_values : option (list bool)) : M float (list float) :=
  p ← merge_co2_params params default_params;
  pv ← dict_read p;
  m_lift (co2_emissions_of d pv sub_values).

(** The model closure: [partial(calculate_co2_emissions, ...)] called with
    dictionaries the caller owns, held at 0 and 1 of its heap. *)
Definition caller_heap (params : gmap string float)
  (default_params : option (gmap string float)) : store float :=
  match default_params with
  | Some dv => <[0%nat := params]> {[1%nat := dv]}
  | None => {[0%nat := params]}
  end.

Definition define_co2_emissions_model `{Numpy} `{Constants} (d : cycle_data)
  (params : gmap string float) (default_params : option (gmap string float))
  (sub_values : option (list bool)) : result (list float) :=
  (calculate_co2_emissions d 0%nat
     (match default_params with Some _ => Some 1%nat | None => None end)
     sub_values (caller_heap params default_params)).1.

Definition _integration_times : gmap string (list float) :=
  <["WLTP" := [0.0; 590.0; 1023.0; 1478.0; 1801.0]%float]>
  (<["NEDC" := [0.0; 780.0; 1181.0]%float]> ∅).

Definition select_phases_integration_times (cycle_type : string)
  : result (list float) :=
  getitem _integration_times (upper cycle_type).

(** The engine types' literal coefficients: initial values and bounds. *)
Definition engine_type_params
  : gmap string (gmap string float * gmap string (float * float)) :=
  list_to_map [
    ("gasoline turbo",
     (list_to_map [("a", 0.468678); ("b", 0.011859); ("c", -0.00069);
                   ("a2", -0.00266); ("l", -2.49882); ("l2", -0.0025)],
      list_to_map [("a", (0.398589, 0.538767)); ("b", (0.006558, 0.01716));
                   ("c", (-0.00099, -0.00038)); ("a2", (-0.00354, -0.00179));
                   ("l", (-3.27698, -1.72066)); ("l2", (-0.00796, 0.0))]));
    ("gasoline natural aspiration",
     (list_to_map [("a", 0.4719); ("b", 0.01193); ("c", -0.00065);
                   ("a2", -0.00385); ("l", -2.14063); ("l2", -0.00286)],
      list_to_map [("a", (0.40065, 0.54315)); ("b", (-0.00247, 0.026333));
                   ("c", (-0.00138, 0.0000888)); ("a2", (-0.00663, -0.00107));
                   ("l", (-3.17876, -1.1025)); ("l2", (-0.00577, 0.0))]));
    ("diesel",
     (list_to_map [("a", 0.391197); ("b", 0.028604); ("c", -0.00196);
                   ("a2", -0.0012); ("l", -1.55291); ("l2", -0.0076)],
      list_to_map [("a", (0.346548, 0.435846)); ("b", (0.002519, 0.054688));
                   ("c", (-0.00386, -0.000057)); ("a2", (-0.00233, -0.000064));
                   ("l", (-2.2856, -0.82022)); ("l2", (-0.01852, 0.0))]))
  ]%float.

Definition select_initial_co2_emission_model_params_guess
  (engine_type : string) (engine_normalization_temperature : float)
  (engine_normalization_temperature_window : float * float)
  : result (gmap string float * gmap string (float * float)) :=
  let x0 : gmap string float :=
    list_to_map [("t", 4.5%float);
                 ("trg", engine_normalization_temperature)] in
  let bounds : gmap string (float * float) :=
    list_to_map [("t", (0.0, 8.0)%float);
                 ("trg", engine_normalization_temperature_window)] in
  v ← getitem engine_type_params engine_type;
  mret (v.1 ∪ x0, v.2 ∪ bounds).

(** An error function takes the parameters and the keyword arguments
    [default_params] and [sub_values]. *)
Definition error_function : Type :=
  gmap string float -> option (gmap string float) -> option (list bool)
  -> result float.

Definition define_co2_error_function_on_emissions `{Sklearn}
  (co2_emissions_model : gmap string float -> option (gmap string float)
                         -> option (list bool) -> result (list float))
  (co2_emissions : list float) : error_function :=
  fun params default_params sub_values =>
    x ← match sub_values with
        | None => mret co2_emissions
        | Some b => mask_index co2_emissions b
        end;
    y ← co2_emissions_model params default_params sub_values;
    mean_squared_error x y.

(** The multipliers of [restrict_bounds]. *)
Definition mul : gmap string (float * float) :=
  list_to_map [("t", (0.5, 1.5)); ("trg", (0.9, 1.1));
               ("a", (0.8, 1.2)); ("b", (0.8, 1.2)); ("c", (1.2, 0.8));
               ("a2", (1.2, 0.8));
               ("l", (1.2, 0.8)); ("l2", (1.2, 0.0))]%float.

Definition _limits (co2_params_bounds : gmap string (float * float))
  (k : string) (v : float) : result (float * float) :=
  b ← getitem co2_params_bounds k;
  m ← getitem mul k;
  mret (py_max b.1 (v * m.1)%float, py_min b.2 (v * m.2)%float).

(** The comprehension stops at the first key that [_limits] raises on;
    which of several such keys comes first follows the order of the
    dictionary's items. *)
Definition restrict_bounds (co2_params_bounds : gmap string (float * float))
  (co2_params_initial_guess : gmap string float)
  : result (gmap string (float * float)) :=
  list_to_map <$>
    mapM (fun kv : string * float =>
            l ← _limits co2_params_bounds kv.1 kv.2; mret (kv.1, l))
         (map_to_list co2_params_initial_guess).

(** The dictionary [update_params] leaves for a point of the dimension of
    the bounds. *)
Definition point_params (param_keys : list string) (params_values : list float)
  : gmap string float :=
  list_to_map (zip param_keys params_values).

(** [min_e_and_p] after the objective was called at [points], in order. *)
Fixpoint best_observed (error_func : list float -> result float)
  (best : float * option (list float)) (points : list (list float))
  : result (float * option (list float)) :=
  match points with
  | [] => mret best
  | x :: rest =>
      res ← error_func x;
      best_observed error_func
        (if PrimFloat.ltb res best.1 then (res, Some x) else best) rest
  end.

(** [sum(f(p) for f in error_function)] *)
Definition sum_errors (fs : list (gmap string float -> result float))
  (p : gmap string float) : result float :=
  foldl (fun acc f => a ← acc; e ← f p; mret (a + e)%float) (mret 0%float) fs.

Definition calibrate_model_params `{Constants} `{Scipy}
  (params_bounds : gmap string (float * float))
  (error_function : (gmap string float -> result float)
                    + list (gmap string float -> result float))
  (initial_guess : option (gmap string float))
  : result (gmap string float) :=
  let error_f :=
    match error_function with
    | inl f => f
    | inr fs => sum_errors fs
    end in
  match sorted_items params_bounds with
  | [] => Raise ValueError
  | items =>
      let param_keys := items.*1 in
      let params_bounds :=
        map (fun ij : float * float => (ij.1 - EPS, ij.2 + EPS)%float)
            items.*2 in
      let error_func params_values :=
        error_f (point_params param_keys params_values) in
      let finish (seen : list (list float)) (x0 : list float) :=
        res ← minimize error_func x0 params_bounds;
        if res_success res then mret (Some (res_x res))
        else snd <$> best_observed error_func (infinity, None)
                                   (seen ++ res_evals res) in
      x ← match initial_guess with
          | None =>
              g ← brute_grid error_func params_bounds;
              finish g.1 g.2
          | Some guess =>
              x0 ← mapM (getitem guess) param_keys;
              finish [] x0
          end;
      match x with
      | Some x => mret (point_params param_keys x)
      | None => Raise TypeError
      end
  end.

Definition hot_p : list string := ["a2"; "a"; "b"; "c"; "l"; "l2"].
Definition cold_p : list string := ["t"; "trg"].

(** [{k: v for k, v in d.items() if k in id_p}] *)
Definition restrict_keys {V} (id_p : list string) (d : gmap string V)
  : gmap string V :=
  filter (fun kv => kv.1 ∈ id_p) d.

(** The two shapes of the arguments: one cycle (callable error functions)
    or a tuple of cycles. *)
Inductive calibration_inputs : Type :=
  | OneCycle (engine_coolant_temperatures : list float)
             (co2_error_function_on_emissions : error_function)
             (co2_error_function_on_phases : gmap string float -> result float)
  | ManyCycles (engine_coolant_temperatures : list (list float))
               (co2_error_function_on_emissions : list error_function)
               (co2_error_function_on_phases :
                  list (gmap string float -> result float)).

(** [err_f] of the two branches. *)
Definition err_f_one (f : error_function) (params default_params : gmap string float)
  (sub_values : list bool) : result float :=
  f params (Some default_params) (Some sub_values).

Definition err_f_many (fs : list error_function)
  (params default_params : gmap string float) (sub_values : list (list bool))
  : result float :=
  foldl (fun acc (fb : error_function * list bool) =>
           a ← acc;
           if existsb id fb.2
           then e ← fb.1 params (Some default_params) (Some fb.2);
                mret (a + e)%float
           else mret a)
        (mret 0%float) (zip fs sub_values).

(** The inner [calibrate]: the objective is [partial(err_f, **kwargs)]. *)
Definition calibrate `{Constants} `{Scipy} {Mask : Type}
  (err_f : gmap string float -> gmap string float -> Mask -> result float)
  (bounds : gmap string (float * float)) (guess : gmap string float)
  (id_p : list string) (default_params : gmap string float)
  (sub_values : Mask) : result (gmap string float) :=
  let limits := restrict_keys id_p bounds in
  let initial := restrict_keys id_p guess in
  let f := fun params => err_f params default_params sub_values in
  calibrate_model_params limits (inl f) (Some initial).

Definition calibrate_stages `{Constants} `{Scipy} {Mask : Type}
  (err_f : gmap string float -> gmap string float -> Mask -> result float)
  (cold hot : Mask) (cold_any : bool)
  (co2_error_function_on_phases :
     (gmap string float -> result float)
     + list (gmap string float -> result float))
  (co2_params_bounds : gmap string (float * float))
  (co2_params_initial_guess : gmap string float)
  : result (gmap string float) :=
  let bounds := co2_params_bounds in
  let guess := co2_params_initial_guess in
  p ← calibrate err_f bounds guess hot_p ∅ hot;
  p ← (if cold_any
       then q ← calibrate err_f bounds guess cold_p p cold; mret (q ∪ p)
       else trg ← getitem guess "trg";
            t ← getitem guess "t";
            mret (<["t" := t]> (<["trg" := trg]> p)));
  bounds ← restrict_bounds bounds p;
  calibrate_model_params bounds co2_error_function_on_phases (Some p).

Definition calibrate_co2_params `{Constants} `{Scipy}
  (inputs : calibration_inputs)
  (co2_params_bounds : gmap string (float * float))
  (co2_params_initial_guess : gmap string float)
  : result (gmap string float) :=
  trg ← getitem co2_params_initial_guess "trg";
  match inputs with
  | OneCycle temps on_emissions on_phases =>
      let cold := map (fun T => PrimFloat.ltb T trg) temps in
      let hot := map negb cold in
      calibrate_stages (err_f_one on_emissions) cold hot (existsb id cold)
        (inl on_phases) co2_params_bounds co2_params_initial_guess
  | ManyCycles temps on_emissions on_phases =>
      let cold := map (map (fun T => PrimFloat.ltb T trg)) temps in
      let hot := map (map negb) cold in
      calibrate_stages (err_f_many on_emissions) cold hot
        (existsb (existsb id) cold)
        (inr on_phases) co2_params_bounds co2_params_initial_guess
  end.


(** Sample externals and data, to run the definitions on. *)
Definition sample_numpy : Numpy := {| np_power := fun _ _ => 1%float |}.

Definition sample_constants : Constants :=
  {| MIN_ENGINE_SPEED := 10.0%float; EPS := float_epsilon |}.

Definition sample_sklearn : Sklearn :=
  {| mean_squared_error := fun _ _ => Ok 0%float |}.

Definition sample_scipy : Scipy :=
  {| minimize := fun _ x0 _ =>
       Ok {| res_x := x0; res_success := true; res_evals := [x0] |};
     brute_grid := fun _ bs => Ok ([map fst bs], map fst bs) |}.

Definition sample_cycle : cycle_data :=
  {| engine_speeds_out := [1500.0; 2000.0]%float;
     engine_powers_out := [10.0; 20.0]%float;
     mean_piston_speeds := [4.0; 5.5]%float;
     brake_mean_effective_pressures := [5.0; 7.5]%float;
     engine_coolant_temperatures := [40.0; 95.0]%float;
     on_engine := [true; true];
     engine_fuel_lower_heating_value := 43000.0%float;
     idle_engine_speed := (750.0, 50.0)%float;
     engine_stroke := 80.0%float;
     engine_capacity := 1600.0%float;
     engine_idle_fuel_consumption := 0.2%float;
     fuel_carbon_content := 3.15%float |}.

(** The sample cycle with the engine stopped at its second sample, and with
    a fuel without heating value. *)
Definition sample_cycle_stopped : cycle_data :=
  {| engine_speeds_out := engine_speeds_out sample_cycle;
     engine_powers_out := engine_powers_out sample_cycle;
     mean_piston_speeds := mean_piston_speeds sample_cycle;
     brake_mean_effective_pressures :=
       brake_mean_effective_pressures sample_cycle;
     engine_coolant_temperatures := engine_coolant_temperatures sample_cycle;
     on_engine := [true; false];
     engine_fuel_lower_heating_value :=
       engine_fuel_lower_heating_value sample_cycle;
     idle_engine_speed := idle_engine_speed sample_cycle;
     engine_stroke := engine_stroke sample_cycle;
     engine_capacity := engine_capacity sample_cycle;
     engine_idle_fuel_consumption := engine_idle_fuel_consumption sample_cycle;
     fuel_carbon_content := fuel_carbon_content sample_cycle |}.

Definition sample_cycle_no_heating : cycle_data :=
  {| engine_speeds_out := engine_speeds_out sample_cycle;
     engine_powers_out := engine_powers_out sample_cycle;
     mean_piston_speeds := mean_piston_speeds sample_cycle;
     brake_mean_effective_pressures :=
       brake_mean_effective_pressures sample_cycle;
     engine_coolant_temperatures := engine_coolant_temperatures sample_cycle;
     on_engine := on_engine sample_cycle;
     engine_fuel_lower_heating_value := 0.0%float;
     idle_engine_speed := idle_engine_speed sample_cycle;
     engine_stroke := engine_stroke sample_cycle;
     engine_capacity := engine_capacity sample_cycle;
     engine_idle_fuel_consumption := engine_idle_fuel_consumption sample_cycle;
     fuel_carbon_content := fuel_carbon_content sample_cycle |}.

(** The engine types that have a table of coefficients. *)
Definition engine_types : list string :=
  ["gasoline turbo"; "gasoline natural aspiration"; "diesel"].

(** A float that is neither a NaN nor an infinity. *)
Definition finite (y : float) : Prop :=
  PrimFloat.is_nan y = false /\ PrimFloat.is_infinity y = false.

(** Every sample array has the length of the piston speeds. *)
Definition well_shaped (d : cycle_data) : Prop :=
  length (brake_mean_effective_pressures d) = length (mean_piston_speeds d)
  /\ length (engine_speeds_out d) = length (mean_piston_speeds d)
  /\ length (engine_powers_out d) = length (mean_piston_speeds d)
  /\ length (engine_coolant_temperatures d) = length (mean_piston_speeds d)
  /\ length (on_engine d) = length (mean_piston_speeds d).

(** An optimizer that gives up after trying three points around its
    start. *)
Definition sample_scipy_failing : Scipy :=
  {| minimize := fun _ x0 _ =>
       Ok {| res_x := x0; res_success := false;
             res_evals := [map (fun v => v + 1) x0; x0;
                           map (fun v => v + 2) x0]%float |};
     brute_grid := fun _ bs => Ok ([map fst bs], map fst bs) |}.

(** An error function that tells how it is called: it answers 1 when
    [default_params] is an empty dictionary and [sub_values] is [mask], and
    0 otherwise. *)
Definition recording_error_function (mask : list bool) : error_function :=
  fun _ default_params sub_values =>
    match default_params with
    | Some dv =>
        if bool_decide (dom dv = (∅ : gset string))
           && bool_decide (sub_values = Some mask)
        then Ok 1%float else Ok 0%float
    | None => Ok 0%float
    end.

(** An optimizer that calls the objective once, at its start, and returns
    the error found there as the value of every parameter. *)
Definition probing_scipy : Scipy :=
  {| minimize := fun f x0 _ =>
       e ← f x0;
       Ok {| res_x := map (fun _ => e) x0; res_success := true;
             res_evals := [x0] |};
     brute_grid := fun _ bs => Ok ([map fst bs], map fst bs) |}.

End Co2Emission.

(** ** [compas/functions/physical/__init__.py]: the model selector *)
Module Selector.
Import Py.

(** A candidate's error is either the object [np.nan] itself or a float
    that numpy has just computed. Tuples compare their items by identity
    before equality, so [np.nan] equals itself there, and nothing else. *)
Inductive score : Type :=
  | NanObject
  | Computed (x : float).

Definition score_value (s : score) : float :=
  match s with
  | NanObject => nan
  | Computed x => x
  end.

Definition score_same (s1 s2 : score) : bool :=
  match s1, s2 with
  | NanObject, NanObject => true
  | Computed a, Computed b => PrimFloat.eqb a b
  | _, _ => false
  end.

Definition score_lt (s1 s2 : score) : bool :=
  PrimFloat.ltb (score_value s1) (score_value s2).

(** [heapq.heappush] and its [_siftdown], over any item type whose [<] may
    raise. *)
Section Heapq.
Context {A : Type} (lt : A -> A -> result bool).

Fixpoint _siftdown (fuel : nat) (heap : list A) (startpos pos : nat)
  (newitem : A) : result (list A) :=
  if (startpos <? pos)%nat then
    match fuel with
    | O => Raise IndexError
    | S fuel' =>
        let parentpos := ((pos - 1) / 2)%nat in
        match heap !! parentpos with
        | None => Raise IndexError
        | Some parent =>
            b ← lt newitem parent;
            if (b : bool)
            then _siftdown fuel' (<[pos := parent]> heap) startpos parentpos
                           newitem
            else mret (<[pos := newitem]> heap)
        end
    end
  else mret (<[pos := newitem]> heap).

Definition heappush (heap : list A) (item : A) : result (list A) :=
  _siftdown (length heap) (heap ++ [item]) 0 (length heap) item.

End Heapq.

Section Selection.
(** The values calibration outputs hold: models and measured series. *)
Context {V : Type}.

(** What the selector takes from outside the sources: scikit-learn's mean
    absolute error (it raises on arrays of different shapes), numpy's
    weighted average (it raises when the weights sum to zero) and mean, the
    outputs of [dsp.dispatch(inputs, targets, shrink=True)], the equality
    of model dictionaries, and [heap_flush] of [compas.dispatcher.utils]. *)
Class Externals := {
  mean_absolute_error : V -> V -> result float;
  np_average : list float -> list float -> result float;
  np_mean : list float -> float;
  dispatch : gmap string V -> list string -> gmap string V;
  models_eq : gmap string V -> gmap string V -> bool;
  heap_flush : list (score * nat * string * gmap string V) ->
               list (score * nat * string * gmap string V) }.
Context `{Externals}.

(** A heap item: [(err, len(e_mods), co_i, m)]. *)
Definition entry : Type := score * nat * string * gmap string V.

Definition entry_score (e : entry) : score := e.1.1.1.
Definition entry_size (e : entry) : nat := e.1.1.2.
Definition entry_origin (e : entry) : string := e.1.2.
Definition entry_models (e : entry) : gmap string V := e.2.

(** The order of the tuples: the first item that differs decides; model
    dictionaries that differ cannot be ordered. *)
Definition entry_lt (x y : entry) : result bool :=
  if score_same (entry_score x) (entry_score y) then
    if (entry_size x =? entry_size y)%nat then
      if String.eqb (entry_origin x) (entry_origin y) then
        if models_eq (entry_models x) (entry_models y) then mret false
        else Raise TypeError
      else mret (String.ltb (entry_origin x) (entry_origin y))
    else mret (entry_size x <? entry_size y)%nat
  else mret (score_lt (entry_score x) (entry_score y)).

(** [zip_longest(target_ids, sample_weight, fillvalue=1)], for the targets. *)
Fixpoint zip_longest (target_ids : list string) (sample_weight : list float)
  : list (string * float) :=
  match target_ids, sample_weight with
  | [], _ => []
  | t :: ts, [] => (t, 1%float) :: zip_longest ts []
  | t :: ts, w :: ws => (t, w) :: zip_longest ts ws
  end.

(** The targets held by both dictionaries, each with its two series and
    its weight. *)
Definition shared_targets (target_ids : list string)
  (model_results target_results : gmap string V) (sample_weight : list float)
  : list (V * V * float) :=
  omap (fun tw : string * float =>
          match model_results !! tw.1, target_results !! tw.1 with
          | Some y, Some x => Some (x, y, tw.2)
          | _, _ => None
          end)
       (zip_longest target_ids sample_weight).

Definition compare_result (target_ids : list string)
  (model_results target_results : gmap string V) (sample_weight : list float)
  : result score :=
  let yw := shared_targets target_ids model_results target_results
              sample_weight in
  err ← mapM (fun xyw : V * V * float =>
                mean_absolute_error xyw.1.1 xyw.1.2) yw;
  match err with
  | [] => mret NanObject
  | _ => Computed <$> np_average err yw.*2
  end.

(** One family of interchangeable models. *)
Record family := {
  models : list string;
  targets : list string;
  get_inputs_of : option (gmap string V -> gmap string V ->
                          result (gmap string V));
  post_processing : option (gmap string V -> gmap string string ->
                            list (gmap string V) ->
                            result (option (gmap string V))) }.

Definition get_inputs (extracted_models outputs : gmap string V)
  (mods trgs : list string) : result (gmap string V) :=
  let inputs := filter (fun kv => kv.1 ∉ trgs) outputs in
  ms ← mapM (fun m => v ← getitem extracted_models m; mret (m, v)) mods;
  mret (list_to_map ms ∪ inputs).

Definition get_i (d : family) (e_mods t : gmap string V)
  : result (gmap string V) :=
  match get_inputs_of d with
  | Some f => f e_mods t
  | None => get_inputs e_mods t (models d) (targets d)
  end.

Definition has_key (t : gmap string V) (k : string) : bool :=
  bool_decide (is_Some (t !! k)).

(** The loop of [error_fun] over the held-out records. *)
Fixpoint held_out_errors (d : family) (e_mods : gmap string V)
  (res_t : list (gmap string V)) : result (list score) :=
  match res_t with
  | [] => mret []
  | t :: rest =>
      if forallb (fun k => negb (has_key t k)) (targets d)
      then held_out_errors d e_mods rest
      else
        inputs ← get_i d e_mods t;
        let pred := dispatch inputs (targets d) in
        e ← compare_result (targets d) pred t [];
        errs ← held_out_errors d e_mods rest;
        mret (e :: errs)
  end.

Definition candidate_score (err : list score) : score :=
  match err with
  | [] => NanObject
  | _ => Computed (np_mean (map score_value err))
  end.

Definition error_fun (d : family) (heap : list entry)
  (e_mods : gmap string V) (res_t : list (gmap string V)) (co_i : string)
  : result (list entry) :=
  if existsb (fun m => negb (has_key e_mods m)) (models d) then mret heap
  else
    err ← held_out_errors d e_mods res_t;
    let m := filter (fun kv => kv.1 ∈ models d) e_mods in
    heappush entry_lt heap (candidate_score err, size e_mods, co_i, m).

(** The body of the loop of [model_selector] over the families, from the
    candidates [em_rt] on: evaluate every candidate, then the
    post-processed one, and take the root of the heap. *)
Definition evaluate_candidates (d : family)
  (em_rt : list (gmap string V * list (gmap string V) * string))
  : result (list entry) :=
  foldl (fun acc v => heap ← acc; error_fun d heap v.1.1 v.1.2 v.2)
        (mret []) em_rt.

Definition select_family (d : family)
  (selected : gmap string V * gmap string string)
  (em_rt : list (gmap string V * list (gmap string V) * string))
  (co : list (gmap string V))
  : result (gmap string V * gmap string string) :=
  let '(selected_models, origin) := selected in
  heap ← evaluate_candidates d em_rt;
  e_mods ← match post_processing d with
           | Some post => post selected_models origin co
           | None => mret None
           end;
  heap ← match e_mods with
         | Some e_mods =>
             if decide (e_mods = ∅) then mret heap
             else error_fun d heap e_mods co "ALL"
         | None => mret heap
         end;
  match heap with
  | [] => mret (selected_models, origin)
  | top :: _ =>
      match heap_flush heap with
      | [] => Raise IndexError
      | first :: _ =>
          mret (entry_models top ∪ selected_models,
                list_to_map (map (fun m => (m, entry_origin first)) (models d))
                ∪ origin)
      end
  end.

Definition model_selector_families (families : list family)
  (em_rt : list (gmap string V * list (gmap string V) * string))
  (co : list (gmap string V))
  : result (gmap string V * gmap string string) :=
  foldl (fun acc d => selected ← acc; select_family d selected em_rt co)
        (mret (∅, ∅)) families.

(** The families of [comparison_model]; the two functions it defines are
    taken as given. *)
Definition comparison_model_targets
  (calibrate_co2_params_with_all_calibration_cycles :
     gmap string V -> gmap string string -> list (gmap string V) ->
     result (option (gmap string V)))
  (AT_get_inputs : gmap string V -> gmap string V -> result (gmap string V))
  : list family :=
  [ {| models := ["max_gear"]; targets := [];
       get_inputs_of := None; post_processing := None |};
    {| models := ["engine_temperature_regression_model"];
       targets := ["engine_temperatures"];
       get_inputs_of := None; post_processing := None |};
    {| models := ["start_stop_model"]; targets := ["on_engine"];
       get_inputs_of := None; post_processing := None |};
    {| models := ["cold_start_speed_model"; "idle_engine_speed";
                  "engine_thermostat_temperature"];
       targets := ["engine_speeds_out"];
       get_inputs_of := None; post_processing := None |};
    {| models := ["co2_params"]; targets := ["co2_emissions"];
       get_inputs_of := None; post_processing := None |};
    {| models := ["co2_params"]; targets := ["co2_emissions"];
       get_inputs_of := None;
       post_processing :=
         Some calibrate_co2_params_with_all_calibration_cycles |};
    {| models := ["alternator_charging_currents"; "start_demand";
                  "max_battery_charging_current"; "electric_load";
                  "alternator_status_model"];
       targets := ["alternator_currents"; "battery_currents"];
       get_inputs_of := None; post_processing := None |};
    {| models := ["AT_gear_shifting_model"; "correct_gear";
                  "upper_bound_engine_speed"];
       targets := ["gears"];
       get_inputs_of := Some AT_get_inputs; post_processing := None |} ].

End Selection.

Arguments Externals V : clear implicits.
Arguments family V : clear implicits.

(** A sample selection: values are numbers, every error is 0.5, and the
    graph predicts [y]. *)
Definition sample_externals : Externals nat :=
  {| mean_absolute_error := fun _ _ => Ok 0.5%float;
     np_average := fun err _ => Ok (hd 0%float err);
     np_mean := fun err => hd 0%float err;
     dispatch := fun _ _ => {["y" := 0%nat]};
     models_eq := fun a b => bool_decide (a = b);
     heap_flush := fun heap => heap |}.

(** The same, with a weighted average that raises as [np.average] does
    when the weights are all zero, and a mean absolute error that raises as
    the metric does on series that are not alike (here: not equal). *)
Definition strict_externals : Externals nat :=
  {| mean_absolute_error := fun x y =>
       if bool_decide (x = y) then Ok 0%float else Raise ValueError;
     np_average := fun err w =>
       if forallb (fun x => PrimFloat.eqb x 0%float) w
       then Raise ZeroDivisionError else Ok (hd 0%float err);
     np_mean := fun err => hd 0%float err;
     dispatch := fun _ _ => {["y" := 0%nat]};
     models_eq := fun a b => bool_decide (a = b);
     heap_flush := fun heap => heap |}.

Definition sample_family : family nat :=
  {| models := ["m"]; targets := ["y"];
     get_inputs_of := None; post_processing := None |}.

(** Cycle A measured [y], cycle B did not; both calibrated [m]. *)
Definition sample_A : gmap string nat := <["m" := 1%nat]> {["y" := 7%nat]}.
Definition sample_B : gmap string nat := {["m" := 2%nat]}.

Definition sample_em_rt
  : list (gmap string nat * list (gmap string nat) * string) :=
  [ ({["m" := 1%nat]}, [sample_B], "A");
    ({["m" := 2%nat]}, [sample_A], "B") ].

End Selector.

(** ** [compas/__main__.py]: the command line *)
Module Cli.
Import Py.

(** The file system: what a path names. *)
Inductive node : Type :=
  | File (content : string)
  | Dir.

(** The world a command acts on: the files and what was printed on the
    standard error stream. *)
Record world := {
  fs : gmap string node;
  stderr : list string }.

(** What the commands take from the platform and the package: path
    handling, whether [open(path, 'wb')] and the copy into the file both
    succeed, what a failing write leaves behind ([None] when [open] itself
    fails, the number of bytes copied when the copy fails after [open] has
    truncated the file), the bundled template and demo files, and the
    batch run with its folder dialogs. *)
Class Platform := {
  abspath : string -> string;
  path_join : string -> string -> string;
  writable : gmap string node -> string -> bool;
  copied_before_failure : gmap string node -> string -> string -> option nat;
  template_content : string;
  demo_input : gmap string string;
  run_simulation : string -> string -> bool -> bool -> bool -> ST world unit }.

(** The options docopt has parsed. *)
Record options := {
  opt_template : bool;
  opt_example : bool;
  opt_ipynb : bool;
  opt_force : bool;
  opt_excel_file_path : list string;
  opt_folder : string;
  opt_I : string;
  opt_O : string;
  opt_more_output : bool;
  opt_no_warn_gui : bool;
  opt_plot_workflow : bool }.

Definition endswith (s suffix : string) : bool :=
  (String.length suffix <=? String.length s)%nat
  && String.eqb (substring (String.length s - String.length suffix)
                           (String.length suffix) s) suffix.

Definition exists_ (path : string) : ST world bool :=
  fun w => (Ok (bool_decide (is_Some (fs w !! path))), w).

Definition isdir (path : string) : ST world bool :=
  fun w => (Ok match fs w !! path with Some Dir => true | _ => false end, w).

Definition print_stderr (msg : string) : ST world unit :=
  fun w => (Ok tt, {| fs := fs w; stderr := stderr w ++ [msg] |}).

(** [with open(path, 'wb') as fd: shutil.copyfileobj(stream, fd, 16 * 1024)]:
    [open] fails on a directory and leaves everything as it is when it
    fails; once it has succeeded the file exists, emptied, and a copy that
    fails part-way leaves the bytes copied until then. *)
Definition failed_write `{Platform} (files : gmap string node)
  (path content : string) : gmap string node :=
  match copied_before_failure files path content with
  | None => files
  | Some n => <[path := File (substring 0 n content)]> files
  end.

Definition write_file `{Platform} (path content : string) : ST world unit :=
  fun w =>
    match fs w !! path with
    | Some Dir => (Raise (OSError path), w)
    | _ =>
        if writable (fs w) path
        then (Ok tt, {| fs := <[path := File content]> (fs w);
                        stderr := stderr w |})
        else (Raise (OSError path),
              {| fs := failed_write (fs w) path content;
                 stderr := stderr w |})
    end.

Definition _cmd_ipynb (opts : options) : ST world unit :=
  m_raise NotImplementedError.

Definition template_fpath `{Platform} (fpath : string) : string :=
  let fpath := abspath fpath in
  if endswith fpath ".xlsx" then fpath else fpath +:+ ".xlsx".

Definition already_exists_message (fpath : string) : string :=
  "File '" +:+ fpath +:+ "' already exists! Use '-f' to overwrite it.".

Fixpoint _cmd_template_paths `{Platform} (force : bool)
  (dst_fpaths : list string) : ST world unit :=
  match dst_fpaths with
  | [] => mret tt
  | fpath :: rest =>
      let fpath := template_fpath fpath in
      present ← exists_ fpath;
      if (present : bool) && negb force
      then m_raise (CmdException (already_exists_message fpath))
      else
        d ← isdir fpath;
        if (d : bool)
        then m_raise (CmdException
                        ("Expecting a file-name instead of directory '"
                         +:+ fpath +:+ "'!"))
        else
          _ ← print_stderr ("Creating co2mpas TEMPLATE input-file '"
                            +:+ fpath +:+ "'...");
          _ ← write_file fpath template_content;
          _cmd_template_paths force rest
  end.

Definition _cmd_template `{Platform} (opts : options) : ST world unit :=
  _cmd_template_paths (opt_force opts) (opt_excel_file_path opts).

Fixpoint _cmd_example_files `{Platform} (force : bool) (dst_folder : string)
  (files : list (string * string)) : ST world unit :=
  match files with
  | [] => mret tt
  | (src_fname, stream) :: rest =>
      let dst_fpath := path_join dst_folder src_fname in
      present ← exists_ dst_fpath;
      _ ← (if (present : bool) && negb force
           then print_stderr ("Skipping file '" +:+ dst_fpath
                              +:+ "', already exists! Use '-f' to overwrite it.")
           else
             _ ← print_stderr ("Creating co2mpas EXAMPLE input-file '"
                               +:+ dst_fpath +:+ "'...");
             write_file dst_fpath stream);
      _cmd_example_files force dst_folder rest
  end.

Definition _cmd_example `{Platform} (opts : options) : ST world unit :=
  let dst_folder := abspath (opt_folder opts) in
  present ← exists_ dst_folder;
  if negb present
  then m_raise (CmdException ("Destination folder '" +:+ dst_folder
                              +:+ "' does not exist!"))
  else
    d ← isdir dst_folder;
    if negb d
    then m_raise (CmdException ("Destination '" +:+ dst_folder
                                +:+ "' is not a <folder>!"))
    else _cmd_example_files (opt_force opts) dst_folder
           (sorted_items demo_input).

Definition _run_simulation `{Platform} (opts : options) : ST world unit :=
  run_simulation (opt_I opts) (opt_O opts) (opt_plot_workflow opts)
                 (opt_no_warn_gui opts) (opt_more_output opts).

Definition _main `{Platform} (opts : options) : ST world unit :=
  if opt_template opts then _cmd_template opts
  else if opt_example opts then _cmd_example opts
  else if opt_ipynb opts then _cmd_ipynb opts
  else _run_simulation opts.

(** How the process ends: [main] returns, [exit(message)] prints the
    message and stops, or an exception leaves [main] and the interpreter
    prints its traceback. *)
Inductive outcome : Type :=
  | Returned
  | SystemExit (msg : string)
  | Uncaught (e : exn).

Definition exit_status (o : outcome) : nat :=
  match o with
  | Returned => 0
  | SystemExit _ => 1
  | Uncaught _ => 1
  end.

Definition shows_traceback (o : outcome) : bool :=
  match o with
  | Uncaught _ => true
  | _ => false
  end.

Definition main `{Platform} (opts : options) (w : world) : outcome * world :=
  match _main opts w with
  | (Ok _, w') => (Returned, w')
  | (Raise (CmdException msg), w') => (SystemExit msg, w')
  | (Raise e, w') => (Uncaught e, w')
  end.

(** A sample platform: paths are absolute already and every path can be
    written. *)
Definition sample_platform : Platform :=
  {| abspath := fun p => p;
     path_join := fun d f => d +:+ "/" +:+ f;
     writable := fun _ _ => true;
     copied_before_failure := fun _ _ _ => None;
     template_content := "template";
     demo_input := {["demo.xlsx" := "demo"]};
     run_simulation := fun _ _ _ _ _ => mret tt |}.

(** A platform on which every copy fails after three bytes. *)
Definition failing_platform : Platform :=
  {| abspath := fun p => p;
     path_join := fun d f => d +:+ "/" +:+ f;
     writable := fun _ _ => false;
     copied_before_failure := fun _ _ _ => Some 3%nat;
     template_content := "template";
     demo_input := {["demo.xlsx" := "demo"]};
     run_simulation := fun _ _ _ _ _ => mret tt |}.

Definition sample_options : options :=
  {| opt_template := false; opt_example := false; opt_ipynb := false;
     opt_force := false; opt_excel_file_path := []; opt_folder := "";
     opt_I := "./input"; opt_O := "./output"; opt_more_output := false;
     opt_no_warn_gui := false; opt_plot_workflow := false |}.

Definition template_options (force : bool) (paths : list string) : options :=
  {| opt_template := true; opt_example := false; opt_ipynb := false;
     opt_force := force; opt_excel_file_path := paths; opt_folder := "";
     opt_I := "./input"; opt_O := "./output"; opt_more_output := false;
     opt_no_warn_gui := false; opt_plot_workflow := false |}.

Definition ipynb_options (force : bool) (folder : string) : options :=
  {| opt_template := false; opt_example := false; opt_ipynb := true;
     opt_force := force; opt_excel_file_path := []; opt_folder := folder;
     opt_I := "./input"; opt_O := "./output"; opt_more_output := false;
     opt_no_warn_gui := false; opt_plot_workflow := false |}.

Definition empty_world : world := {| fs := {["/work" := Dir]}; stderr := [] |}.





End Cli.

(** ** [tests/test_docs.py]: the version in the README *)
Module Docs.

(** How a test ends. *)
Inductive outcome : Type :=
  | Passed
  | AssertionError (msg : string).

Definition header_len : nat := 20.

(** [ver in l] *)
Definition contains (ver l : string) : bool :=
  match String.index 0 ver l with
  | Some _ => true
  | None => false
  end.

Definition not_found_message (ver : string) : string :=
  "Version(" +:+ ver +:+ ") not found in README 20 header-lines!".

(** The loop over [enumerate(fd)], from the line of index [i] on. *)
Fixpoint scan_lines (ver : string) (i : nat) (fd : list string) : outcome :=
  match fd with
  | [] => Passed
  | l :: rest =>
      if contains ver l then Passed
      else if (header_len <=? i)%nat
           then AssertionError (not_found_message ver)
           else scan_lines ver (S i) rest
  end.

Definition test_README_version_opening (ver : string) (readme : list string)
  : outcome :=
  scan_lines ver 0 readme.

End Docs.

(** ** Facts about binary64 arithmetic and the Python primitives *)
Module PyFacts.
Import Py.

Lemma is_nan_SF x :
  PrimFloat.is_nan x = match Prim2SF x with S754_nan => true | _ => false end.
Proof.
  unfold PrimFloat.is_nan. rewrite FloatAxioms.eqb_spec.
  destruct (Prim2SF x) as [s | s | | s m e]; try destruct s; try reflexivity.
  all: unfold SFeqb, SFcompare;
    rewrite Z.compare_refl, Pos.compare_cont_refl; reflexivity.
Qed.

Lemma eqb_zero_SF x :
  PrimFloat.eqb x 0 = match Prim2SF x with S754_zero _ => true | _ => false end.
Proof.
  rewrite FloatAxioms.eqb_spec. change (Prim2SF 0) with (S754_zero false).
  destruct (Prim2SF x) as [s | s | | s m e]; try destruct s; reflexivity.
Qed.

Lemma ltb_zero_SF x :
  PrimFloat.ltb 0 x = match Prim2SF x with
                      | S754_infinity false | S754_finite false _ _ => true
                      | _ => false
                      end.
Proof.
  rewrite FloatAxioms.ltb_spec. change (Prim2SF 0) with (S754_zero false).
  destruct (Prim2SF x) as [s | s | | s m e]; try destruct s; reflexivity.
Qed.

(** IEEE division by +0: 0/0 and NaN/0 are NaN, anything else an infinity. *)
Lemma div_by_zero x :
  (x / 0)%float = if PrimFloat.is_nan x || PrimFloat.eqb x 0 then nan
                  else if PrimFloat.ltb 0 x then infinity else neg_infinity.
Proof.
  rewrite is_nan_SF, eqb_zero_SF, ltb_zero_SF.
  rewrite <- (SF2Prim_Prim2SF (x / 0)), div_spec.
  change (Prim2SF 0) with (S754_zero false).
  destruct (Prim2SF x) as [s | s | | s m e]; try destruct s; reflexivity.
Qed.

Lemma nan_to_num_div_by_zero x :
  nan_to_num (x / 0) =
    if PrimFloat.is_nan x || PrimFloat.eqb x 0 then 0%float
    else if PrimFloat.ltb 0 x then float_max else (- float_max)%float.
Proof.
  rewrite div_by_zero.
  destruct (_ || _); [reflexivity |]. destruct (PrimFloat.ltb 0 x); reflexivity.
Qed.

(** Two floats whose comparison fails are different values, unless the
    value is a NaN. *)
Lemma eqb_false_neq (x y : float) :
  PrimFloat.eqb x y = false -> PrimFloat.is_nan x = false -> x <> y.
Proof.
  intros E N ->. unfold PrimFloat.is_nan in N. rewrite E in N. discriminate.
Qed.

Lemma zip_with_replicate_r {A B C} (f : A -> B -> C) (l : list A) (y : B) :
  zip_with f l (replicate (length l) y) = map (fun x => f x y) l.
Proof. induction l as [| x l IH]; simpl; [reflexivity | now rewrite IH]. Qed.

Lemma mapM_Ok {A B} (f : A -> result B) (l : list A) (k : list B) :
  mapM f l = Ok k <-> Forall2 (fun x y => f x = Ok y) l k.
Proof.
  revert k. induction l as [| x l IH]; intros k; simpl.
  - split.
    + intros E. injection E as <-. constructor.
    + intros E. inversion E. reflexivity.
  - split.
    + intros E. destruct (f x) as [y |] eqn:Fx; simpl in E; [| discriminate].
      change (bind (mapM f l) (fun k0 => Ok (y :: k0)) = Ok k) in E.
      destruct (mapM f l) as [k' |] eqn:Ml; simpl in E; [| discriminate].
      injection E as <-. constructor; [assumption |]. now apply IH.
    + intros E. inversion E as [| ? y ? k' Fx Fl]; subst.
      apply IH in Fl. rewrite Fx. simpl.
      change (bind (mapM f l) (fun k0 => Ok (y :: k0)) = Ok (y :: k')).
      now rewrite Fl.
Qed.

Lemma fresh_unused {V} (h : store V) : h !! fresh h = None.
Proof.
  apply (proj1 (not_elem_of_dom (D := gset nat) h (fresh h))). intros Hin.
  apply elem_of_elements in Hin. apply max_list_elem_of_le in Hin.
  exact (Nat.nle_succ_diag_l _ Hin).
Qed.

End PyFacts.

Module Co2EmissionFacts.
Import Py PyFacts Co2Emission.

(** C5: [select_phases_integration_times] gives (0, 590, 1023, 1478, 1801)
    for WLTP and (0, 780, 1181) for NEDC, the defaults registry holds
    (0, 590, 1023, 1478, 1800) and (0, 780, 1180), and the two copies agree
    everywhere but in their last element, which differs by one second. *)
Theorem phases_integration_times_two_copies :
  select_phases_integration_times "WLTP"
    = Ok [0.0; 590.0; 1023.0; 1478.0; 1801.0]%float
  /\ select_phases_integration_times "NEDC" = Ok [0.0; 780.0; 1181.0]%float
  /\ Defaults.INTEGRATION_TIMES !! "WLTP"
       = Some [0.0; 590.0; 1023.0; 1478.0; 1800.0]%float
  /\ Defaults.INTEGRATION_TIMES !! "NEDC" = Some [0.0; 780.0; 1180.0]%float
  /\ (forall c, c = "WLTP" \/ c = "NEDC" ->
        exists init a b,
          select_phases_integration_times c = Ok (init ++ [a])
          /\ Defaults.INTEGRATION_TIMES !! c = Some (init ++ [b])
          /\ (a - b)%float = 1%float).
Proof.
  repeat split; try reflexivity.
  intros c [-> | ->].
  - exists [0.0; 590.0; 1023.0; 1478.0]%float, 1801.0%float, 1800.0%float.
    repeat split; reflexivity.
  - exists [0.0; 780.0]%float, 1181.0%float, 1180.0%float.
    repeat split; reflexivity.
Qed.

Section FuelMeanEffectivePressure.
Context `{Numpy}.

(** C2: with B = a + (b + c*n_speed)*n_speed and
    C = n_temp^(-t)*(l + l2*n_speed^2) - n_power, the fuel mean effective
    pressure is -C/B when a2 and b2 both compare equal to zero, and
    otherwise (-B + sqrt(|B^2 - 2*A2*C|)) / A2 with A2 = 2*(a2 + b2*n_speed). *)
Theorem fuel_mean_effective_pressure_formula
  (p : gmap string float) (n_speed n_power n_temp : float)
  (a b c a2 b2 l l2 t : float) :
  p !! "a" = Some a -> p !! "b" = Some b -> p !! "c" = Some c ->
  p !! "a2" = Some a2 -> p !! "b2" = Some b2 ->
  p !! "l" = Some l -> p !! "l2" = Some l2 -> p !! "t" = Some t ->
  let B := (a + (b + c * n_speed) * n_speed)%float in
  let C := (np_power n_temp (- t) * (l + l2 * (n_speed * n_speed))
            - n_power)%float in
  let A2 := (2.0 * (a2 + b2 * n_speed))%float in
  fst <$> _calculate_fuel_mean_effective_pressure p n_speed n_power n_temp
  = Ok (if PrimFloat.eqb a2 0 && PrimFloat.eqb b2 0
        then (- C / B)%float
        else ((- B + PrimFloat.sqrt (PrimFloat.abs (B * B - 2.0 * A2 * C)))
              / A2)%float).
Proof.
  intros Ha Hb Hc Ha2 Hb2 Hl Hl2 Ht B C A2.
  unfold _calculate_fuel_mean_effective_pressure, getitem.
  rewrite Ha, Hb, Hc, Ht, Hl, Hl2, Ha2, Hb2. simpl.
  destruct (PrimFloat.eqb a2 0); destruct (PrimFloat.eqb b2 0); reflexivity.
Qed.

End FuelMeanEffectivePressure.

(** The formula at a2 = -0.0012, n_speed = 2, n_power = 1, with a power
    function that is constantly 1. *)
Lemma fuel_mean_effective_pressure_formula_witness :
  fst <$> _calculate_fuel_mean_effective_pressure
            (H := {| np_power := fun _ _ => 1%float |})
            (<["a2" := (-0.0012)%float]> (<["a" := 0.5%float]> zero_params))
            2 1 1
  = Ok (let B := (0.5 + (0 + 0 * 2) * 2)%float in
        let C := (1 * (0 + 0 * (2 * 2)) - 1)%float in
        let A2 := (2.0 * (-0.0012 + 0 * 2))%float in
        ((- B + PrimFloat.sqrt (PrimFloat.abs (B * B - 2.0 * A2 * C))) / A2)%float).
Proof.
  exact (fuel_mean_effective_pressure_formula
           (H := {| np_power := fun _ _ => 1%float |})
           (<["a2" := (-0.0012)%float]> (<["a" := 0.5%float]> zero_params))
           2 1 1 0.5 0 0 (-0.0012) 0 0 0 0
           eq_refl eq_refl eq_refl eq_refl eq_refl eq_refl eq_refl eq_refl).
Defined.

(** C3 as stated fails: with a nonzero power the quotient by a zero speed is
    an infinity, which [nan_to_num] turns into the largest finite float. *)
Lemma bmep_zero_speed_nonzero_power :
  calculate_brake_mean_effective_pressures [0%float] [1%float] 1000
    = Ok [float_max]
  /\ Ok [float_max] <> Ok [0%float].
Proof.
  split; [reflexivity |].
  intros E.
  apply (f_equal (fun r => match r with
                           | Ok [x] => Prim2SF x
                           | _ => S754_nan
                           end)) in E.
  vm_compute in E. discriminate.
Qed.

(** C3, amended: on arrays, with every speed zero (an array of zeros, or a
    single zero stretched over the powers), the call raises only for a zero
    capacity; each element is 0 where the scaled power
    (1200000/capacity)*power is zero or not a number, and the largest finite
    float with the sign of the scaled power elsewhere. *)
Theorem bmep_zero_speed (engine_capacity : float)
  (engine_powers_out : list float) :
  let expected :=
    if PrimFloat.eqb engine_capacity 0 then Raise ZeroDivisionError
    else Ok (map (fun pw =>
                    let x := (1200000.0 / engine_capacity * pw)%float in
                    if PrimFloat.is_nan x || PrimFloat.eqb x 0 then 0%float
                    else if PrimFloat.ltb 0 x then float_max
                         else (- float_max)%float)
                 engine_powers_out) in
  calculate_brake_mean_effective_pressures
    (replicate (length engine_powers_out) 0%float)
    engine_powers_out engine_capacity = expected
  /\ calculate_brake_mean_effective_pressures
       [0%float] engine_powers_out engine_capacity = expected.
Proof.
  cbv zeta. unfold calculate_brake_mean_effective_pressures, py_div.
  destruct (PrimFloat.eqb engine_capacity 0); [split; reflexivity |].
  cbn [mbind result_bind bind].
  assert (Hstretch :
            forall speeds,
              speeds = replicate (length engine_powers_out) 0%float
              \/ speeds = [0%float] ->
              broadcast2 (fun pw sp => (1200000.0 / engine_capacity * pw / sp)%float)
                engine_powers_out speeds
              = Ok (map (fun pw => (1200000.0 / engine_capacity * pw / 0)%float)
                        engine_powers_out)).
  { intros speeds [-> | ->]; unfold broadcast2.
    - rewrite length_replicate, Nat.eqb_refl. f_equal.
      apply zip_with_replicate_r.
    - destruct engine_powers_out as [| pw [| pw' rest]]; reflexivity. }
  split; (rewrite Hstretch by auto);
    cbn [mbind result_bind bind mret result_ret]; f_equal;
    rewrite map_map; apply map_ext; intros pw; apply nan_to_num_div_by_zero.
Qed.

Lemma mapM_total {A B} (f : A -> result B) (l : list A) :
  (forall x, x ∈ l -> exists y, f x = Ok y) -> exists k, mapM f l = Ok k.
Proof.
  induction l as [| x l IH]; intros Hf.
  - exists []. reflexivity.
  - destruct (Hf x) as [y Hy]; [left |].
    destruct IH as [k Hk]; [intros z Hz; apply Hf; now right |].
    exists (y :: k). apply mapM_Ok. constructor; [assumption |].
    now apply mapM_Ok.
Qed.

Lemma limits_item bounds (x : string * float) (y : string * (float * float)) :
  (l ← _limits bounds x.1 x.2; mret (x.1, l)) = Ok y ->
  exists lo hi ml mh,
    bounds !! x.1 = Some (lo, hi) /\ mul !! x.1 = Some (ml, mh)
    /\ y = (x.1, (py_max lo (x.2 * ml), py_min hi (x.2 * mh))).
Proof.
  unfold _limits, getitem.
  destruct (bounds !! x.1) as [[lo hi] |]; [| discriminate].
  destruct (mul !! x.1) as [[ml mh] |]; [| discriminate].
  intros E. exists lo, hi, ml, mh. repeat split.
  cbn in E. now inversion E.
Qed.

Lemma limits_items_keys bounds (l : list (string * float)) ys :
  Forall2 (fun x y => (l ← _limits bounds x.1 x.2; mret (x.1, l)) = Ok y) l ys ->
  ys.*1 = l.*1.
Proof.
  induction 1 as [| x y l ys Hxy _ IH]; [reflexivity |].
  apply limits_item in Hxy as (lo & hi & ml & mh & _ & _ & ->).
  cbn. now rewrite IH.
Qed.

(** C4: for every coefficient of the initial guess, [restrict_bounds] gives
    (max(min_k, v*low_mult_k), min(max_k, v*high_mult_k)); it returns
    whenever every coefficient of the guess has bounds and multipliers; its
    multipliers are the registry's for every coefficient but t; and for l2
    at -0.003 within (-0.01, 0.0) the interval is (-0.0036, 0.0). *)
Theorem restrict_bounds_max_min :
  (forall bounds guess r,
     restrict_bounds bounds guess = Ok r ->
     forall k v, guess !! k = Some v ->
       exists lo hi ml mh,
         bounds !! k = Some (lo, hi) /\ mul !! k = Some (ml, mh)
         /\ r !! k = Some (py_max lo (v * ml), py_min hi (v * mh)))
  /\ (forall bounds guess,
        (forall k, is_Some (guess !! k) ->
                   is_Some (bounds !! k) /\ is_Some (mul !! k)) ->
        exists r, restrict_bounds bounds guess = Ok r)
  /\ (forall k, k ∈ ["trg"; "a"; "b"; "c"; "a2"; "l"; "l2"] ->
        is_Some (mul !! k)
        /\ mul !! k = Defaults.CO2_PARAMS_LIMIT_MULTIPLIERS !! k)
  /\ restrict_bounds {["l2" := (-0.01, 0.0)%float]} {["l2" := (-0.003)%float]}
     = Ok {["l2" := (-0.0036, 0.0)%float]}
  /\ py_max (-0.01) (-0.003 * 1.2) = (-0.0036)%float
  /\ py_min 0.0 (-0.003 * 0.0) = 0.0%float.
Proof.
  split; [| split; [| split; [| repeat split; reflexivity]]].
  - intros bounds guess r Hr k v Hk. unfold restrict_bounds in Hr.
    destruct (mapM _ (map_to_list guess)) as [ys |] eqn:Hys; [| discriminate].
    cbn in Hr. injection Hr as <-.
    apply mapM_Ok in Hys.
    pose proof (limits_items_keys _ _ _ Hys) as Hkeys.
    apply elem_of_map_to_list in Hk.
    apply list_elem_of_lookup in Hk as [i Hi].
    destruct (Forall2_lookup_l _ _ _ _ _ Hys Hi) as (y & Hy & Hxy).
    apply limits_item in Hxy as (lo & hi & ml & mh & Hb & Hm & ->).
    exists lo, hi, ml, mh. repeat split; try assumption.
    apply elem_of_list_to_map_1.
    + rewrite Hkeys. apply NoDup_fst_map_to_list.
    + apply list_elem_of_lookup. now exists i.
  - intros bounds guess Hdom. unfold restrict_bounds.
    destruct (mapM_total
                (fun kv : string * float =>
                   l ← _limits bounds kv.1 kv.2; mret (kv.1, l))
                (map_to_list guess)) as [ys Hys].
    + intros [k v] Hin. apply elem_of_map_to_list in Hin.
      destruct (Hdom k) as [[[lo hi] Hb] [[ml mh] Hm]]; [now exists v |].
      unfold _limits, getitem. cbn [fst snd]. rewrite Hb.
      cbn [mbind result_bind bind]. rewrite Hm.
      cbn [mbind result_bind bind mret result_ret]. eauto.
    + rewrite Hys. cbn. eauto.
  - intros k Hk.
    repeat (apply elem_of_cons in Hk as [-> | Hk];
            [split; [eexists |]; reflexivity |]).
    now apply elem_of_nil in Hk.
Qed.

(** The merge leaves a new dictionary, [params] over [default_params] over
    zeros, and every object the heap already held as it was. *)
Lemma merge_co2_params_spec (h : store float) (lp : loc) (pv : gmap string float)
  (ld : option loc) :
  h !! lp = Some pv ->
  (forall l, ld = Some l -> is_Some (h !! l)) ->
  exists p h',
    merge_co2_params lp ld h = (Ok p, h')
    /\ h !! p = None
    /\ h' !! p = Some (pv ∪ (defaults_at h ld ∪ zero_params))
    /\ (forall l, is_Some (h !! l) -> h' !! l = h !! l).
Proof.
  intros Hlp Hld.
  pose proof (fresh_unused h) as Hp.
  unfold merge_co2_params, mbind, M_bind, m_bind, dict_new, mret, M_ret, m_ret.
  remember (fresh h) as p eqn:Ep. clear Ep.
  assert (Hne : p <> lp) by (intros E; rewrite E, Hlp in Hp; discriminate).
  destruct ld as [dl |].
  - destruct (Hld dl eq_refl) as [dv Hdv].
    assert (Hnd : p <> dl) by (intros E; rewrite E, Hdv in Hp; discriminate).
    unfold dict_read at 1. rewrite lookup_insert_ne, Hdv by assumption.
    unfold defaults_at. rewrite Hdv. unfold default, from_option, id.
    destruct (decide (dv = ∅)) as [-> | Hnonempty].
    + unfold dict_update, dict_read, dict_write, mbind, M_bind, m_bind.
      rewrite lookup_insert_ne, Hlp by assumption. rewrite lookup_insert_eq.
      exists p. eexists. split; [reflexivity |]. split; [assumption |]. split.
      * rewrite lookup_insert_eq. now rewrite (map_empty_union zero_params).
      * intros l [x Hl]. rewrite !lookup_insert_ne; [reflexivity | |];
          intros <-; rewrite Hl in Hp; discriminate.
    + pose proof (fresh_unused (<[p := zero_params]> h)) as Hc.
      unfold dict_copy, dict_update, dict_read, dict_write, dict_new,
        mbind, M_bind, m_bind.
      rewrite (lookup_insert_ne h p dl) by assumption. rewrite Hdv.
      remember (fresh (<[p := zero_params]> h)) as c eqn:Ec. clear Ec.
      assert (Hcp : c <> p)
        by (intros E; rewrite E, lookup_insert_eq in Hc; discriminate).
      rewrite lookup_insert_ne in Hc by congruence.
      assert (Hcl : c <> lp) by (intros E; rewrite E, Hlp in Hc; discriminate).
      rewrite lookup_insert_eq.
      rewrite (lookup_insert_ne _ c p) by assumption.
      rewrite lookup_insert_eq.
      rewrite (lookup_insert_ne _ p lp) by assumption.
      rewrite (lookup_insert_ne _ c lp) by assumption.
      rewrite (lookup_insert_ne _ p lp) by assumption. rewrite Hlp.
      rewrite lookup_insert_eq.
      exists p. eexists. split; [reflexivity |]. split; [assumption |]. split.
      * now rewrite lookup_insert_eq.
      * intros l [x Hl].
        assert (p <> l) by (intros <-; rewrite Hl in Hp; discriminate).
        assert (c <> l) by (intros <-; rewrite Hl in Hc; discriminate).
        now rewrite !lookup_insert_ne by assumption.
  - unfold dict_update, dict_read, dict_write, mbind, M_bind, m_bind.
    rewrite lookup_insert_ne, Hlp by assumption. rewrite lookup_insert_eq.
    exists p. eexists. split; [reflexivity |]. split; [assumption |]. split.
    + rewrite lookup_insert_eq. unfold defaults_at.
      now rewrite (map_empty_union zero_params).
    + intros l [x Hl]. rewrite !lookup_insert_ne; [reflexivity | |];
        intros <-; rewrite Hl in Hp; discriminate.
Qed.

Lemma calculate_co2_emissions_spec `{Numpy} `{Constants} (d : cycle_data)
  (sub_values : option (list bool)) (h : store float) (lp : loc)
  (pv : gmap string float) (ld : option loc) :
  h !! lp = Some pv ->
  (forall l, ld = Some l -> is_Some (h !! l)) ->
  exists h',
    calculate_co2_emissions d lp ld sub_values h
    = (co2_emissions_of d (pv ∪ (defaults_at h ld ∪ zero_params)) sub_values, h')
    /\ (forall l, is_Some (h !! l) -> h' !! l = h !! l).
Proof.
  intros Hlp Hld.
  destruct (merge_co2_params_spec h lp pv ld Hlp Hld)
    as (p & h' & Hrun & _ & Hp & Hframe).
  exists h'. split; [| assumption].
  unfold calculate_co2_emissions, mbind, M_bind, m_bind.
  rewrite Hrun. unfold dict_read. rewrite Hp.
  reflexivity.
Qed.

Lemma merged_lookup (pv dv : gmap string float) (k : string) :
  k ∈ coefficient_keys ->
  (pv ∪ (dv ∪ zero_params)) !! k
  = Some (match pv !! k with
          | Some v => v
          | None => match dv !! k with
                    | Some v => v
                    | None => 0%float
                    end
          end).
Proof.
  intros Hk. destruct (pv !! k) as [v |] eqn:Ep.
  - now apply lookup_union_Some_l.
  - rewrite lookup_union_r by assumption.
    destruct (dv !! k) as [v |] eqn:Ed.
    + now apply lookup_union_Some_l.
    + rewrite lookup_union_r by assumption.
      unfold coefficient_keys in Hk.
      repeat (apply elem_of_cons in Hk as [-> | Hk]; [reflexivity |]).
      now apply elem_of_nil in Hk.
Qed.

(** C9: the model runs on a new dictionary that holds, for each of the nine
    coefficients, [params[k]] when [params] has [k], else [default_params[k]]
    when [default_params] is given, is not empty and has [k], else 0.0; the
    call leaves [params], [default_params] and every other object of the
    caller as they were, whether it returns or raises. *)
Theorem calculate_co2_emissions_effective_params `{Numpy} `{Constants}
  (d : cycle_data) (sub_values : option (list bool)) (h : store float)
  (params : loc) (pv : gmap string float) (default_params : option loc) :
  h !! params = Some pv ->
  (forall l, default_params = Some l -> is_Some (h !! l)) ->
  exists (p : gmap string float) (h' : store float),
    calculate_co2_emissions d params default_params sub_values h
    = (co2_emissions_of d p sub_values, h')
    /\ (forall k, k ∈ coefficient_keys ->
          p !! k = Some (match pv !! k with
                         | Some v => v
                         | None =>
                             match defaults_at h default_params !! k with
                             | Some v => v
                             | None => 0%float
                             end
                         end))
    /\ (defaults_at h default_params = ∅ -> p = pv ∪ zero_params)
    /\ h' !! params = Some pv
    /\ (forall l, default_params = Some l -> h' !! l = h !! l)
    /\ (forall l, is_Some (h !! l) -> h' !! l = h !! l).
Proof.
  intros Hp Hd.
  destruct (calculate_co2_emissions_spec d sub_values h params pv
              default_params Hp Hd) as (h' & Hrun & Hframe).
  exists (pv ∪ (defaults_at h default_params ∪ zero_params)), h'.
  split; [assumption |]. split; [| split; [| split; [| split]]].
  - intros k Hk. now apply merged_lookup.
  - intros ->. now rewrite (map_empty_union zero_params).
  - rewrite <- Hp. apply Hframe. now exists pv.
  - intros l Hl. apply Hframe. now apply Hd.
  - assumption.
Qed.

(** The merge at [params = {a: 0.5}] and [default_params = {t: 4.5}]. *)
Lemma calculate_co2_emissions_effective_params_witness :
  let h := caller_heap {["a" := 0.5%float]} (Some {["t" := 4.5%float]}) in
  exists (p : gmap string float) (h' : gmap nat (gmap string float)),
    calculate_co2_emissions (H := sample_numpy) (H0 := sample_constants)
      sample_cycle 0%nat (Some 1%nat) None h
    = (co2_emissions_of (H := sample_numpy) (H0 := sample_constants)
         sample_cycle p None, h')
    /\ p !! "a" = Some 0.5%float /\ p !! "t" = Some 4.5%float
    /\ p !! "b2" = Some 0%float
    /\ h' !! 0%nat = Some {["a" := 0.5%float]}
    /\ h' !! 1%nat = Some {["t" := 4.5%float]}.
Proof.
  intros h.
  destruct (calculate_co2_emissions_effective_params
              (H := sample_numpy) (H0 := sample_constants)
              sample_cycle None h 0%nat {["a" := 0.5%float]} (Some 1%nat))
    as (p & h' & Hrun & Hk & _ & Hp & Hd & _).
  - reflexivity.
  - intros l E. injection E as <-. eexists. reflexivity.
  - exists p, h'. split; [exact Hrun |].
    split; [apply (Hk "a"); repeat constructor |].
    split; [apply (Hk "t"); repeat constructor |].
    split; [apply (Hk "b2"); repeat constructor |].
    split; [exact Hp |]. exact (Hd 1%nat eq_refl).
Defined.

(** C10: for each of the three engine types the initial guess and the
    bounds both have exactly the keys a, b, c, a2, l, l2, t, trg; b2 is in
    neither, and the emission model run on the guess uses b2 = 0. *)
Theorem initial_guess_key_sets `{Numpy} `{Constants}
  (engine_type : string) (engine_normalization_temperature : float)
  (engine_normalization_temperature_window : float * float) :
  engine_type ∈ ["gasoline turbo"; "gasoline natural aspiration"; "diesel"] ->
  exists x0 bounds,
    select_initial_co2_emission_model_params_guess engine_type
      engine_normalization_temperature engine_normalization_temperature_window
    = Ok (x0, bounds)
    /\ dom x0 = list_to_set ["a"; "b"; "c"; "a2"; "l"; "l2"; "t"; "trg"]
    /\ dom bounds = list_to_set ["a"; "b"; "c"; "a2"; "l"; "l2"; "t"; "trg"]
    /\ x0 !! "b2" = None /\ bounds !! "b2" = None
    /\ forall d sub_values, exists p h',
         calculate_co2_emissions d 0%nat None sub_values (caller_heap x0 None)
         = (co2_emissions_of d p sub_values, h')
         /\ p !! "b2" = Some 0%float.
Proof.
  intros Het.
  assert (Hmodel : forall x0 : gmap string float, x0 !! "b2" = None ->
            forall d sub_values, exists p h',
              calculate_co2_emissions d 0%nat None sub_values
                (caller_heap x0 None)
              = (co2_emissions_of d p sub_values, h')
              /\ p !! "b2" = Some 0%float).
  { intros x0 Hb2 d sub_values.
    destruct (calculate_co2_emissions_spec d sub_values (caller_heap x0 None)
                0%nat x0 None) as (h' & Hrun & _).
    - apply lookup_singleton_eq.
    - discriminate.
    - eexists _, h'. split; [exact Hrun |].
      rewrite merged_lookup by (repeat constructor). now rewrite Hb2. }
  repeat (apply elem_of_cons in Het as [-> | Het]);
    [| | | now apply elem_of_nil in Het].
  all: eexists _, _; split; [vm_compute; reflexivity |].
  all: split; [vm_compute; reflexivity |].
  all: split; [vm_compute; reflexivity |].
  all: split; [vm_compute; reflexivity |].
  all: split; [vm_compute; reflexivity |].
  all: apply Hmodel; vm_compute; reflexivity.
Qed.

(** The diesel guess at 90 degrees within (85, 95). *)
Lemma initial_guess_key_sets_witness :
  exists x0 bounds,
    select_initial_co2_emission_model_params_guess "diesel" 90 (85, 95)%float
    = Ok (x0, bounds)
    /\ dom x0 = list_to_set ["a"; "b"; "c"; "a2"; "l"; "l2"; "t"; "trg"]
    /\ dom bounds = list_to_set ["a"; "b"; "c"; "a2"; "l"; "l2"; "t"; "trg"]
    /\ x0 !! "b2" = None /\ bounds !! "b2" = None.
Proof.
  destruct (initial_guess_key_sets (H := sample_numpy) (H0 := sample_constants)
              "diesel" 90 (85, 95)%float)
    as (x0 & bounds & H1 & H2 & H3 & H4 & H5 & _).
  - right. right. left.
  - exists x0, bounds. repeat split; assumption.
Defined.

(** The points the optimizer is given name only coefficients of [id_p]. *)
Lemma point_params_keys {V} (bounds : gmap string V) (id_p : list string)
  (xs : list float) (k : string) (v : float) :
  point_params (sorted_items (restrict_keys id_p bounds)).*1 xs !! k = Some v ->
  k ∈ id_p.
Proof.
  unfold point_params, sorted_items. intros Hk.
  apply elem_of_list_to_map_2, elem_of_zip_l in Hk.
  apply list_elem_of_fmap in Hk as ([k' b] & -> & Hin).
  rewrite merge_sort_Permutation in Hin.
  apply elem_of_map_to_list in Hin.
  unfold restrict_keys in Hin. apply map_lookup_filter_Some in Hin.
  exact (proj2 Hin).
Qed.

(** The emissions error function called with an empty [default_params]:
    the model runs on the point's values for a2, a, b, c, l, l2 and on 0.0
    for t, trg and b2. *)
Lemma emissions_error_with_empty_defaults `{Numpy} `{Constants} `{Sklearn}
  (d : cycle_data) (co2_emissions : list float) (mask : list bool)
  (params : gmap string float) :
  (forall k v, params !! k = Some v -> k ∈ hot_p) ->
  exists p : gmap string float,
    define_co2_error_function_on_emissions (define_co2_emissions_model d)
      co2_emissions params (Some ∅) (Some mask)
    = (x ← mask_index co2_emissions mask;
       y ← co2_emissions_of d p (Some mask);
       mean_squared_error x y)
    /\ p !! "t" = Some 0%float /\ p !! "trg" = Some 0%float
    /\ p !! "b2" = Some 0%float
    /\ (forall k, k ∈ hot_p -> p !! k = Some (default 0%float (params !! k))).
Proof.
  intros Hkeys.
  assert (Hnot : forall k, k ∉ hot_p -> params !! k = None).
  { intros k Hk. destruct (params !! k) as [v |] eqn:E; [| reflexivity].
    exfalso. apply Hk. now apply (Hkeys k v). }
  assert (Hout : forall k, k ∈ ["t"; "trg"; "b2"] -> k ∉ hot_p).
  { intros k Hk Hin. unfold hot_p in Hin.
    repeat (apply elem_of_cons in Hk as [-> | Hk];
            [repeat (apply elem_of_cons in Hin as [Hin | Hin];
                     [discriminate |]);
             now apply elem_of_nil in Hin |]).
    now apply elem_of_nil in Hk. }
  exists (params ∪ (∅ ∪ zero_params)).
  split; [| split; [| split; [| split]]].
  - unfold define_co2_error_function_on_emissions, define_co2_emissions_model.
    destruct (calculate_co2_emissions_spec d (Some mask)
                (caller_heap params (Some ∅)) 0%nat params (Some 1%nat))
      as (h' & Hrun & _).
    + apply lookup_insert_eq.
    + intros l E. injection E as <-. exists ∅. reflexivity.
    + rewrite Hrun. reflexivity.
  - rewrite merged_lookup by (repeat constructor).
    rewrite Hnot; [reflexivity |]. apply Hout. repeat constructor.
  - rewrite merged_lookup by (repeat constructor).
    rewrite Hnot; [reflexivity |]. apply Hout. repeat constructor.
  - rewrite merged_lookup by (repeat constructor).
    rewrite Hnot; [reflexivity |]. apply Hout. repeat constructor.
  - intros k Hk. rewrite merged_lookup.
    + destruct (params !! k); [reflexivity |].
      rewrite lookup_empty. reflexivity.
    + unfold hot_p in Hk. unfold coefficient_keys.
      repeat (apply elem_of_cons in Hk as [-> | Hk];
              [repeat constructor |]).
      now apply elem_of_nil in Hk.
Qed.

(** The tuple's objective, cycle by cycle. *)
Lemma err_f_many_snoc (fs : list error_function) (masks : list (list bool))
  (f : error_function) (b : list bool)
  (params default_params : gmap string float) :
  length fs = length masks ->
  err_f_many (fs ++ [f]) params default_params (masks ++ [b])
  = (a ← err_f_many fs params default_params masks;
     if existsb id b
     then e ← f params (Some default_params) (Some b); mret (a + e)%float
     else mret a).
Proof.
  intros Hlen. unfold err_f_many.
  rewrite zip_with_app by exact Hlen. rewrite foldl_app. reflexivity.
Qed.

(** C1 as stated fails. The hot fit calls the error function with an
    empty [default_params] and the hot samples: with an error function that
    answers 1 to exactly that call, an optimizer that returns the error it
    finds and a last objective that reads a, the calibration of a cycle
    with one cold and one hot sample from the diesel guess returns 1 for
    every parameter. With an empty [default_params] the model's parameters
    hold t = 0 and trg = 0, not the 4.5 and 90 of the initial guess. *)
Lemma hot_phase_fit_not_at_initial_guess :
  let guess : gmap string float :=
    list_to_map [("a", 0.391197); ("b", 0.028604); ("c", -0.00196);
                 ("a2", -0.0012); ("l", -1.55291); ("l2", -0.0076);
                 ("t", 4.5); ("trg", 90.0)]%float in
  let bounds : gmap string (float * float) :=
    list_to_map [("a", (0.346548, 0.435846)); ("b", (0.002519, 0.054688));
                 ("c", (-0.00386, -0.000057)); ("a2", (-0.00233, -0.000064));
                 ("l", (-2.2856, -0.82022)); ("l2", (-0.01852, 0.0));
                 ("t", (0.0, 8.0)); ("trg", (85.0, 95.0))]%float in
  let params := restrict_keys hot_p guess in
  select_initial_co2_emission_model_params_guess "diesel" 90 (85, 95)%float
  = Ok (guess, bounds)
  /\ calibrate_co2_params (H := sample_constants) (H0 := probing_scipy)
       (OneCycle [40.0; 95.0]%float
          (recording_error_function [false; true])
          (fun p => Ok (default 0%float (p !! "a"))))
       bounds guess
     = Ok (list_to_map [("a", 1); ("a2", 1); ("b", 1); ("c", 1); ("l", 1);
                        ("l2", 1); ("t", 1); ("trg", 1)]%float)
  /\ exists p h',
       merge_co2_params 0%nat (Some 1%nat) (caller_heap params (Some ∅))
       = (Ok p, h')
       /\ h' !! p = Some (params ∪ zero_params)
       /\ (params ∪ zero_params) !! "t" = Some 0%float
       /\ (params ∪ zero_params) !! "trg" = Some 0%float
       /\ guess !! "t" = Some 4.5%float
       /\ guess !! "trg" = Some 90.0%float
       /\ (params ∪ zero_params) !! "t" <> guess !! "t"
       /\ (params ∪ zero_params) !! "trg" <> guess !! "trg".
Proof.
  intros guess bounds params. split; [reflexivity |].
  split; [reflexivity |].
  eexists _, _. split; [reflexivity |].
  split; [reflexivity |].
  split; [reflexivity |].
  split; [reflexivity |].
  split; [reflexivity |].
  split; [reflexivity |].
  split; intros E;
    apply (f_equal (fun o => match o with
                             | Some x => Prim2SF x
                             | None => S754_nan
                             end)) in E;
    vm_compute in E; discriminate.
Qed.

(** C1, amended: for one cycle and for a tuple of cycles the calibration
    starts with the fit of a2, a, b, c, l, l2 whose objective calls the
    emissions error function with an empty [default_params] and the hot
    samples (those whose temperature is not below the initial guess of
    trg; for a tuple, the sum over the cycles that have a hot sample); with
    the error function built on the emissions model this is the mean
    squared error between the hot samples of the measured emissions and
    the model run on the hot samples only, with the point's values for a2,
    a, b, c, l, l2 and with t, trg and b2 at 0.0, the model's built-in
    defaults. *)
Theorem hot_phase_fit_objective `{Numpy} `{Constants} `{Sklearn} `{Scipy}
  (bounds : gmap string (float * float)) (guess : gmap string float)
  (trg : float) :
  guess !! "trg" = Some trg ->
  let is_cold := fun T => PrimFloat.ltb T trg in
  let later_stages {Mask : Type}
        (err_f : gmap string float -> gmap string float -> Mask
                 -> result float)
        (cold : Mask) (cold_any : bool)
        (on_phases : (gmap string float -> result float)
                     + list (gmap string float -> result float))
        (p_hot : gmap string float) : result (gmap string float) :=
    p ← (if cold_any
         then q ← calibrate err_f bounds guess cold_p p_hot cold;
              mret (q ∪ p_hot)
         else trg ← getitem guess "trg";
              t ← getitem guess "t";
              mret (<["t" := t]> (<["trg" := trg]> p_hot)));
    restricted ← restrict_bounds bounds p;
    calibrate_model_params restricted on_phases (Some p) in
  (forall temps on_emissions on_phases,
     let cold := map is_cold temps in
     let hot := map negb cold in
     calibrate_co2_params (OneCycle temps on_emissions on_phases) bounds guess
     = (p_hot ← calibrate_model_params (restrict_keys hot_p bounds)
                  (inl (fun params => on_emissions params (Some ∅) (Some hot)))
                  (Some (restrict_keys hot_p guess));
        later_stages (err_f_one on_emissions) cold (existsb id cold)
          (inl on_phases) p_hot))
  /\ (forall temps on_emissions on_phases,
        let cold := map (map is_cold) temps in
        let hot := map (map negb) cold in
        calibrate_co2_params (ManyCycles temps on_emissions on_phases)
          bounds guess
        = (p_hot ← calibrate_model_params (restrict_keys hot_p bounds)
                     (inl (fun params => err_f_many on_emissions params ∅ hot))
                     (Some (restrict_keys hot_p guess));
           later_stages (err_f_many on_emissions) cold
             (existsb (existsb id) cold) (inr on_phases) p_hot))
  /\ (forall params, err_f_many [] params ∅ [] = Ok 0%float)
  /\ (forall fs masks f b params,
        length fs = length masks ->
        err_f_many (fs ++ [f]) params ∅ (masks ++ [b])
        = (a ← err_f_many fs params ∅ masks;
           if existsb id b
           then e ← f params (Some ∅) (Some b); mret (a + e)%float
           else mret a))
  /\ (forall temps i T,
        temps !! i = Some T ->
        map negb (map is_cold temps) !! i
        = Some (negb (PrimFloat.ltb T trg)))
  /\ (forall (d : cycle_data) (co2_emissions : list float)
             (mask : list bool) (xs : list float),
        let params :=
          point_params (sorted_items (restrict_keys hot_p bounds)).*1 xs in
        exists p : gmap string float,
          define_co2_error_function_on_emissions
            (define_co2_emissions_model d) co2_emissions
            params (Some ∅) (Some mask)
          = (x ← mask_index co2_emissions mask;
             y ← co2_emissions_of d p (Some mask);
             mean_squared_error x y)
          /\ p !! "t" = Some 0%float /\ p !! "trg" = Some 0%float
          /\ p !! "b2" = Some 0%float
          /\ (forall k, k ∈ hot_p ->
                p !! k = Some (default 0%float (params !! k)))
          /\ (forall k v, params !! k = Some v -> k ∈ hot_p)).
Proof.
  intros Htrg is_cold later_stages.
  split; [| split; [| split; [| split; [| split]]]].
  - intros temps on_emissions on_phases cold hot.
    unfold calibrate_co2_params, getitem. rewrite Htrg. reflexivity.
  - intros temps on_emissions on_phases cold hot.
    unfold calibrate_co2_params, getitem. rewrite Htrg. reflexivity.
  - reflexivity.
  - intros fs masks f b params Hlen. now apply err_f_many_snoc.
  - intros temps i T Hi. rewrite !list_lookup_fmap, Hi. reflexivity.
  - intros d co2_emissions mask xs params.
    assert (Hkeys : forall k v, params !! k = Some v -> k ∈ hot_p)
      by (intros k v; apply point_params_keys).
    destruct (emissions_error_with_empty_defaults d co2_emissions mask
                params Hkeys) as (p & Hobj & Ht & Htrg' & Hb2 & Hhot).
    exists p. repeat split; assumption.
Qed.

(** The hot fit of the sample cycle from the diesel guess at 90 degrees:
    the second sample is hot, and the model runs with t = 0 and trg = 0. *)
Lemma hot_phase_fit_objective_witness :
  let guess : gmap string float :=
    list_to_map [("a", 0.391197); ("a2", -0.0012); ("t", 4.5); ("trg", 90.0)]%float in
  let bounds : gmap string (float * float) :=
    list_to_map [("a", (0.346548, 0.435846)); ("a2", (-0.00233, -0.000064));
                 ("t", (0.0, 8.0)); ("trg", (85.0, 95.0))]%float in
  let on_emissions :=
    define_co2_error_function_on_emissions (H := sample_sklearn)
      (define_co2_emissions_model (H := sample_numpy) (H0 := sample_constants)
         sample_cycle) [1.0; 2.0]%float in
  let hot := [false; true] in
  let params := point_params ["a"; "a2"] [0.4; -0.001]%float in
  guess !! "trg" = Some 90.0%float
  /\ map negb (map (fun T => PrimFloat.ltb T 90.0)
                 (engine_coolant_temperatures sample_cycle)) = hot
  /\ exists p : gmap string float,
       on_emissions params (Some ∅) (Some hot)
       = (x ← mask_index [1.0; 2.0]%float hot;
          y ← co2_emissions_of (H := sample_numpy) (H0 := sample_constants)
                sample_cycle p (Some hot);
          mean_squared_error (Sklearn := sample_sklearn) x y)
       /\ p !! "t" = Some 0%float /\ p !! "trg" = Some 0%float.
Proof.
  intros guess bounds on_emissions hot params.
  split; [reflexivity |]. split; [reflexivity |].
  destruct (hot_phase_fit_objective (H := sample_numpy) (H0 := sample_constants)
              (H1 := sample_sklearn) (H2 := sample_scipy)
              bounds guess 90.0%float eq_refl)
    as (_ & _ & _ & _ & _ & Hmodel).
  destruct (Hmodel sample_cycle [1.0; 2.0]%float hot [0.4; -0.001]%float)
    as (p & Hobj & Ht & Htrg & _).
  exists p. split; [exact Hobj |]. split; assumption.
Defined.

End Co2EmissionFacts.

Module SelectorFacts.
Import Py PyFacts Selector.

Lemma cons_insert_perm {A} (l : list A) (j : nat) (a b : A) :
  l !! j = Some b -> b :: <[j := a]> l ≡ₚ a :: l.
Proof.
  revert j. induction l as [| y t IH]; intros [| j] Hj; try discriminate.
  - cbn in Hj. injection Hj as ->. cbn. apply perm_swap.
  - cbn in Hj. cbn. rewrite perm_swap, (IH j Hj). apply perm_swap.
Qed.

Lemma insert_cons_perm {A} (l : list A) (i : nat) (a b : A) :
  i < length l -> a :: <[i := b]> l ≡ₚ b :: <[i := a]> l.
Proof.
  revert i. induction l as [| y t IH]; intros [| i] Hi; cbn in Hi; try lia.
  - cbn. apply perm_swap.
  - cbn. rewrite perm_swap, (IH i) by lia. apply perm_swap.
Qed.

(** Moving the parent down and the item up swaps two slots. *)
Lemma insert_swap_perm {A} (l : list A) (i j : nat) (a b : A) :
  l !! j = Some b -> i <> j -> i < length l ->
  <[j := a]> (<[i := b]> l) ≡ₚ <[i := a]> l.
Proof.
  revert i j. induction l as [| y t IH]; intros [| i] [| j] Hj Hne Hi;
    cbn in *; try lia; try discriminate.
  - now apply cons_insert_perm.
  - injection Hj as ->. apply insert_cons_perm. lia.
  - f_equiv. apply IH; [assumption | lia | lia].
Qed.

Section Heapq.
Context {A : Type} (lt : A -> A -> result bool).

(** The loop of [_siftdown] ends before its counter does. *)
Lemma _siftdown_fuel (f1 f2 : nat) :
  forall (heap : list A) (pos : nat) (item : A),
    pos <= f1 -> pos <= f2 ->
    _siftdown lt f1 heap 0 pos item = _siftdown lt f2 heap 0 pos item.
Proof.
  revert f2. induction f1 as [| f1 IH]; intros f2 heap pos item H1 H2.
  - assert (pos = 0) as -> by lia. destruct f2; reflexivity.
  - destruct f2 as [| f2].
    + assert (pos = 0) as -> by lia. reflexivity.
    + cbn [_siftdown]. destruct (0 <? pos)%nat eqn:Hpos; [| reflexivity].
      apply Nat.ltb_lt in Hpos.
      destruct (heap !! ((pos - 1) / 2)%nat) as [parent |]; [| reflexivity].
      destruct (lt item parent) as [[|] |]; try reflexivity.
      assert (Hhalf : ((pos - 1) / 2 <= pos - 1)%nat)
        by (apply Nat.Div0.div_le_upper_bound; lia).
      cbn [mbind result_bind bind]. apply IH; lia.
Qed.

(** An item that does not compare below the root never replaces it. *)
Lemma _siftdown_root_kept (fuel : nat) :
  forall (heap heap' : list A) (pos : nat) (item r : A),
    heap !! 0%nat = Some r -> lt item r = Ok false -> (0 < pos)%nat ->
    _siftdown lt fuel heap 0 pos item = Ok heap' ->
    heap' !! 0%nat = Some r.
Proof.
  induction fuel as [| fuel IH]; intros heap heap' pos item r Hr Hlt Hpos Hrun.
  - cbn [_siftdown] in Hrun. apply Nat.ltb_lt in Hpos.
    rewrite Hpos in Hrun. discriminate.
  - cbn [_siftdown] in Hrun. pose proof Hpos as Hpos'.
    apply Nat.ltb_lt in Hpos'. rewrite Hpos' in Hrun.
    destruct (heap !! ((pos - 1) / 2)%nat) as [parent |] eqn:Hparent;
      [| discriminate].
    destruct (lt item parent) as [[|] |] eqn:Hcmp;
      cbn [mbind result_bind bind mret result_ret] in Hrun;
      [| | discriminate].
    + assert (Hhalf : ((pos - 1) / 2 <= pos - 1)%nat)
        by (apply Nat.Div0.div_le_upper_bound; lia).
      destruct (decide ((pos - 1) / 2 = 0)%nat) as [Hz | Hnz].
      * rewrite Hz, Hr in Hparent. injection Hparent as <-. congruence.
      * apply (IH _ _ _ item r) in Hrun; [assumption | | assumption | lia].
        rewrite list_lookup_insert_ne by lia. assumption.
    + injection Hrun as <-. rewrite list_lookup_insert_ne by lia. assumption.
Qed.

Lemma heappush_empty (item : A) : heappush lt [] item = Ok [item].
Proof. reflexivity. Qed.

Lemma heappush_root_kept (heap heap' : list A) (item r : A) :
  heap !! 0%nat = Some r -> lt item r = Ok false ->
  heappush lt heap item = Ok heap' -> heap' !! 0%nat = Some r.
Proof.
  intros Hr Hlt Hrun. unfold heappush in Hrun.
  apply (_siftdown_root_kept _ _ _ _ item r) in Hrun; try assumption.
  - rewrite lookup_app_l; [assumption |]. now apply lookup_lt_Some in Hr.
  - apply lookup_lt_Some in Hr. lia.
Qed.


Lemma _siftdown_perm (fuel : nat) :
  forall (heap heap' : list A) (pos : nat) (item : A),
    pos < length heap ->
    _siftdown lt fuel heap 0 pos item = Ok heap' ->
    heap' ≡ₚ <[pos := item]> heap.
Proof.
  induction fuel as [| fuel IH]; intros heap heap' pos item Hpos Hrun;
    cbn [_siftdown] in Hrun;
    destruct (0 <? pos)%nat eqn:Hp;
    try (injection Hrun as <-; reflexivity); try discriminate.
  apply Nat.ltb_lt in Hp.
  assert (Hhalf : ((pos - 1) / 2 <= pos - 1)%nat)
    by (apply Nat.Div0.div_le_upper_bound; lia).
  destruct (heap !! ((pos - 1) / 2)%nat) as [parent |] eqn:Hparent;
    [| discriminate].
  destruct (lt item parent) as [[|] |];
    cbn [mbind result_bind bind mret result_ret] in Hrun; [| | discriminate].
  - apply IH in Hrun; [| rewrite length_insert; lia].
    rewrite Hrun. apply insert_swap_perm; [assumption | lia | lia].
  - now injection Hrun as <-.
Qed.

(** [heappush] adds the item and keeps every other one. *)
Lemma heappush_perm (heap heap' : list A) (item : A) :
  heappush lt heap item = Ok heap' -> heap' ≡ₚ item :: heap.
Proof.
  unfold heappush. intros Hrun. apply _siftdown_perm in Hrun.
  - rewrite Hrun.
    rewrite insert_app_r_alt, Nat.sub_diag by lia. cbn.
    symmetry. apply Permutation_cons_append.
  - rewrite length_app. cbn. lia.
Qed.

End Heapq.

Section Selection.
Context {V : Type} `{Externals V}.

Lemma entry_lt_computed_nan (item r : entry) (x : float) :
  entry_score r = NanObject -> entry_score item = Computed x ->
  entry_lt item r = Ok false.
Proof.
  intros Hr Hi. unfold entry_lt. rewrite Hr, Hi. cbn.
  unfold score_lt. cbn. f_equal.
  rewrite FloatAxioms.ltb_spec. change (Prim2SF nan) with S754_nan.
  destruct (Prim2SF x) as [s | s | | s m e]; try destruct s; reflexivity.
Qed.

Lemma held_out_errors_skip (d : family V) (e_mods t : gmap string V)
  (rest : list (gmap string V)) :
  (forall k, k ∈ targets d -> t !! k = None) ->
  held_out_errors d e_mods (t :: rest) = held_out_errors d e_mods rest.
Proof.
  intros Hno. cbn [held_out_errors].
  assert (forallb (fun k => negb (has_key t k)) (targets d) = true) as ->;
    [| reflexivity].
  apply forallb_forall. intros k Hk. apply list_elem_of_In in Hk.
  unfold has_key. rewrite (Hno k Hk). reflexivity.
Qed.

Lemma held_out_errors_none (d : family V) (e_mods : gmap string V)
  (res_t : list (gmap string V)) :
  (forall t k, t ∈ res_t -> k ∈ targets d -> t !! k = None) ->
  held_out_errors d e_mods res_t = Ok [].
Proof.
  induction res_t as [| t rest IH]; intros Hno; [reflexivity |].
  rewrite held_out_errors_skip.
  - apply IH. intros t' k Ht'. apply Hno. now right.
  - intros k. apply Hno. now left.
Qed.

Lemma all_models_present (d : family V) (e_mods : gmap string V) :
  (forall m, m ∈ models d -> is_Some (e_mods !! m)) ->
  existsb (fun m => negb (has_key e_mods m)) (models d) = false.
Proof.
  intros Hall. apply not_true_is_false. intros Hex.
  apply existsb_exists in Hex as (m & Hm & Hneg).
  apply list_elem_of_In, Hall in Hm. unfold has_key in Hneg.
  rewrite bool_decide_eq_true_2 in Hneg by assumption. discriminate.
Qed.

(** The first family of [comparison_model] has no target: every candidate
    that holds max_gear is pushed with the score [np.nan]. *)
Lemma max_gear_candidates_score_nan post at_inputs (heap : list entry)
  (e_mods : gmap string V) (res_t : list (gmap string V)) (co_i : string) :
  is_Some (e_mods !! "max_gear") ->
  exists d rest,
    comparison_model_targets post at_inputs = d :: rest
    /\ error_fun d heap e_mods res_t co_i
       = heappush entry_lt heap
           (NanObject, size e_mods, co_i,
            filter (fun kv => kv.1 ∈ ["max_gear"]) e_mods).
Proof.
  intros Hmax. eexists _, _. split; [reflexivity |].
  unfold error_fun. rewrite all_models_present.
  - rewrite held_out_errors_none; [reflexivity |].
    intros t k _ Hk. now apply elem_of_nil in Hk.
  - intros m Hm. apply list_elem_of_singleton in Hm as ->. assumption.
Qed.

Lemma bind_returns {A B} (m : result A) (k : A -> result B) (r : B) :
  (m ≫= k) = Ok r -> exists a, m = Ok a /\ k a = Ok r.
Proof.
  destruct m as [a | e]; [| discriminate]. intros E. now exists a.
Qed.

(** What [select_family] takes and returns, step by step. *)
Lemma select_family_inv (d : family V)
  (selected : gmap string V) (origin : gmap string string)
  (em_rt : list (gmap string V * list (gmap string V) * string))
  (co : list (gmap string V)) (r : gmap string V * gmap string string) :
  select_family d (selected, origin) em_rt co = Ok r ->
  exists (heap0 : list entry) (e_mods : option (gmap string V))
         (heap : list entry),
    evaluate_candidates d em_rt = Ok heap0
    /\ match post_processing d with
       | Some post => post selected origin co
       | None => Ok None
       end = Ok e_mods
    /\ match e_mods with
       | Some e_mods =>
           if decide (e_mods = ∅) then Ok heap0
           else error_fun d heap0 e_mods co "ALL"
       | None => Ok heap0
       end = Ok heap
    /\ match heap with
       | [] => r = (selected, origin)
       | top :: _ =>
           exists first,
             head (heap_flush heap) = Some first
             /\ r = (entry_models top ∪ selected,
                     list_to_map (map (fun m => (m, entry_origin first))
                                    (models d)) ∪ origin)
       end.
Proof.
  unfold select_family. intros Hrun.
  apply bind_returns in Hrun as (heap0 & H0 & Hrun).
  apply bind_returns in Hrun as (e_mods & Hpost & Hrun).
  apply bind_returns in Hrun as (heap & Hheap & Hrun).
  exists heap0, e_mods, heap. split; [exact H0 |].
  split; [exact Hpost |]. split; [exact Hheap |].
  destruct heap as [| top rest].
  { change (Ok (selected, origin) = Ok r) in Hrun. now injection Hrun as <-. }
  destruct (heap_flush (top :: rest)) as [| first more] eqn:Hflush;
    [discriminate |].
  change (Ok (entry_models top ∪ selected,
              list_to_map (map (fun m => (m, entry_origin first)) (models d))
              ∪ origin) = Ok r) in Hrun.
  injection Hrun as <-. exists first. split; reflexivity.
Qed.

(** C6, amended: held-out records without any target key are skipped; a
    candidate that has all the family's models and no comparable held-out
    record gets the score [np.nan] and is pushed onto the heap like any
    other: the push adds it and removes nothing; the models selected for
    the family are those of the root of the heap after every candidate,
    and the post-processed one when there is one, has been pushed; so the
    only candidate of a family, scored [np.nan], is the one selected. *)
Theorem nan_scored_candidate_is_ranked (d : family V) :
  (forall e_mods t rest,
     (forall k, k ∈ targets d -> t !! k = None) ->
     held_out_errors d e_mods (t :: rest) = held_out_errors d e_mods rest)
  /\ (forall heap e_mods res_t co_i,
        (forall m, m ∈ models d -> is_Some (e_mods !! m)) ->
        (forall t k, t ∈ res_t -> k ∈ targets d -> t !! k = None) ->
        error_fun d heap e_mods res_t co_i
        = heappush entry_lt heap
            (NanObject, size e_mods, co_i,
             filter (fun kv => kv.1 ∈ models d) e_mods))
  /\ (forall (heap heap' : list entry) (item : entry),
        heappush entry_lt heap item = Ok heap' -> heap' ≡ₚ item :: heap)
  /\ (forall item : entry, heappush entry_lt [] item = Ok [item])
  /\ (forall selected origin em_rt co r,
        select_family d (selected, origin) em_rt co = Ok r ->
        exists (heap0 : list entry) (e_mods : option (gmap string V))
               (heap : list entry),
          evaluate_candidates d em_rt = Ok heap0
          /\ match post_processing d with
             | Some post => post selected origin co
             | None => Ok None
             end = Ok e_mods
          /\ match e_mods with
             | Some e_mods =>
                 if decide (e_mods = ∅) then Ok heap0
                 else error_fun d heap0 e_mods co "ALL"
             | None => Ok heap0
             end = Ok heap
          /\ match heap with
             | [] => r = (selected, origin)
             | top :: _ => r.1 = entry_models top ∪ selected
             end)
  /\ (forall selected origin e_mods res_t co_i co,
        post_processing d = None ->
        (forall m, m ∈ models d -> is_Some (e_mods !! m)) ->
        (forall t k, t ∈ res_t -> k ∈ targets d -> t !! k = None) ->
        let item : entry :=
          (NanObject, size e_mods, co_i,
           filter (fun kv => kv.1 ∈ models d) e_mods) in
        evaluate_candidates d [(e_mods, res_t, co_i)] = Ok [item]
        /\ select_family d (selected, origin) [(e_mods, res_t, co_i)] co
           = match heap_flush [item] with
             | [] => Raise IndexError
             | first :: _ =>
                 Ok (filter (fun kv => kv.1 ∈ models d) e_mods ∪ selected,
                     list_to_map (map (fun m => (m, entry_origin first))
                                    (models d)) ∪ origin)
             end).
Proof.
  split; [| split; [| split; [| split; [| split]]]].
  - intros e_mods t rest. apply held_out_errors_skip.
  - intros heap e_mods res_t co_i Hall Hno. unfold error_fun.
    rewrite all_models_present by assumption.
    rewrite held_out_errors_none by assumption. reflexivity.
  - intros heap heap' item. apply heappush_perm.
  - intros item. apply heappush_empty.
  - intros selected origin em_rt co r Hrun.
    apply select_family_inv in Hrun
      as (heap0 & e_mods & heap & H0 & Hpost & Hheap & Hr).
    exists heap0, e_mods, heap. repeat (split; [assumption |]).
    destruct heap as [| top rest]; [exact Hr |].
    destruct Hr as (first & _ & ->). reflexivity.
  - intros selected origin e_mods res_t co_i co Hpost Hall Hno item.
    assert (Hheap : evaluate_candidates d [(e_mods, res_t, co_i)]
                    = Ok [item]).
    { unfold evaluate_candidates. cbn [foldl fst snd].
      change (error_fun d [] e_mods res_t co_i = Ok [item]).
      unfold error_fun. rewrite all_models_present by assumption.
      rewrite held_out_errors_none by assumption.
      apply heappush_empty. }
    split; [exact Hheap |].
    unfold select_family. rewrite Hheap, Hpost. reflexivity.
Qed.

End Selection.

(** C6 as stated fails. The family max_gear has no targets: every
    held-out record is skipped, the candidate of the only cycle scores
    [np.nan], is pushed, and its model is the one selected. And with
    cycles A and B of which only A measured the target, A's candidate has
    no comparable held-out record and scores [np.nan], B's scores 0.5; A's
    is on the heap, at its root, and A's model is the one selected. *)
Lemma nan_scored_candidate_selected :
  let max_gear : family nat :=
    {| models := ["max_gear"]; targets := [];
       get_inputs_of := None; post_processing := None |} in
  (forall post at_inputs,
     head (comparison_model_targets post at_inputs) = Some max_gear)
  /\ evaluate_candidates (H := sample_externals) max_gear
       [({["max_gear" := 5%nat]}, [], "A")]
     = Ok [ (NanObject, 1%nat, "A", {["max_gear" := 5%nat]}) ]
  /\ select_family (H := sample_externals) max_gear (∅, ∅)
       [({["max_gear" := 5%nat]}, [], "A")]
       [<["max_gear" := 5%nat]> {["y" := 7%nat]}]
     = Ok ({["max_gear" := 5%nat]}, {["max_gear" := "A"]})
  /\ evaluate_candidates (H := sample_externals) sample_family sample_em_rt
     = Ok [ (NanObject, 1%nat, "A", {["m" := 1%nat]});
            (Computed 0.5, 1%nat, "B", {["m" := 2%nat]}) ]
  /\ select_family (H := sample_externals) sample_family (∅, ∅) sample_em_rt
       [sample_A; sample_B]
     = Ok ({["m" := 1%nat]}, {["m" := "A"]}).
Proof. repeat split; reflexivity. Qed.

End SelectorFacts.

Module CliFacts.
Import Py Cli.

Section Commands.
Context `{Platform}.

Lemma exists_absent (path : string) (w : world) :
  fs w !! path = None -> exists_ path w = (Ok false, w).
Proof. intros E. unfold exists_. now rewrite E. Qed.

Lemma exists_present (path : string) (n : node) (w : world) :
  fs w !! path = Some n -> exists_ path w = (Ok true, w).
Proof. intros E. unfold exists_. now rewrite E. Qed.

Lemma main_template (force : bool) (paths : list string) (w : world) :
  main (template_options force paths) w
  = match _cmd_template (template_options force paths) w with
    | (Ok _, w') => (Returned, w')
    | (Raise (CmdException msg), w') => (SystemExit msg, w')
    | (Raise e, w') => (Uncaught e, w')
    end.
Proof. reflexivity. Qed.

(** Writing the template where no directory is, on a path that may be
    written. *)
Lemma template_written (force : bool) (path : string) (w : world) :
  let fpath := template_fpath path in
  (force = true \/ fs w !! fpath = None) ->
  fs w !! fpath <> Some Dir ->
  writable (fs w) fpath = true ->
  _cmd_template (template_options force [path]) w
  = (Ok tt,
     {| fs := <[fpath := File template_content]> (fs w);
        stderr := stderr w ++ ["Creating co2mpas TEMPLATE input-file '"
                               +:+ fpath +:+ "'..."] |}).
Proof.
  intros fpath Hgo Hnodir Hw.
  unfold _cmd_template, template_options.
  cbn [opt_force opt_excel_file_path _cmd_template_paths].
  fold fpath. unfold mbind, M_bind, m_bind.
  assert (Hguard : exists b, exists_ fpath w = (Ok b, w) /\ b && negb force = false).
  { destruct Hgo as [-> | Hnone].
    - exists (bool_decide (is_Some (fs w !! fpath))). split; [reflexivity |].
      apply andb_false_r.
    - exists false. split; [now apply exists_absent | reflexivity]. }
  destruct Hguard as (b & -> & ->).
  unfold isdir.
  assert (match fs w !! fpath with Some Dir => true | _ => false end = false)
    as ->.
  { destruct (fs w !! fpath) as [[c |] |]; try reflexivity. congruence. }
  unfold print_stderr, write_file. cbn [fs stderr].
  destruct (fs w !! fpath) as [[c |] |] eqn:E; try congruence;
    rewrite Hw; reflexivity.
Qed.

(** C7: on a destination that does not exist yet and may be written, the
    first [template] call without --force creates the file; a second call
    without --force fails with the CmdException that names the file and
    leaves the world as it is; with --force the call succeeds and puts the
    template in place of whatever the file held. *)
Theorem template_twice (path : string) (w : world) :
  let fpath := template_fpath path in
  fs w !! fpath = None ->
  writable (fs w) fpath = true ->
  exists w1,
    main (template_options false [path]) w = (Returned, w1)
    /\ fs w1 = <[fpath := File template_content]> (fs w)
    /\ _cmd_template (template_options false [path]) w1
       = (Raise (CmdException (already_exists_message fpath)), w1)
    /\ main (template_options false [path]) w1
       = (SystemExit ("File '" +:+ fpath
                      +:+ "' already exists! Use '-f' to overwrite it."), w1)
    /\ (forall (c : string) (w' : world),
          fs w' !! fpath = Some (File c) ->
          writable (fs w') fpath = true ->
          exists w2,
            main (template_options true [path]) w' = (Returned, w2)
            /\ fs w2 = <[fpath := File template_content]> (fs w')
            /\ fs w2 !! fpath = Some (File template_content)).
Proof.
  intros fpath Hnone Hw.
  pose proof (template_written false path w (or_intror Hnone)) as Hfirst.
  cbv zeta in Hfirst. fold fpath in Hfirst.
  specialize (Hfirst ltac:(fold fpath; congruence) Hw).
  set (w1 := {| fs := <[fpath := File template_content]> (fs w);
                stderr := stderr w ++ ["Creating co2mpas TEMPLATE input-file '"
                                       +:+ fpath +:+ "'..."] |}) in *.
  assert (Hsecond : _cmd_template (template_options false [path]) w1
                    = (Raise (CmdException (already_exists_message fpath)), w1)).
  { unfold _cmd_template, template_options.
    cbn [opt_force opt_excel_file_path _cmd_template_paths].
    fold fpath. unfold mbind, M_bind, m_bind.
    rewrite (exists_present fpath (File template_content))
      by (subst w1; cbn [fs]; apply lookup_insert_eq).
    reflexivity. }
  exists w1. split; [| split; [| split; [| split]]].
  - rewrite main_template, Hfirst. reflexivity.
  - reflexivity.
  - apply Hsecond.
  - rewrite main_template, Hsecond. reflexivity.
  - intros c w' Hfile Hw'.
    pose proof (template_written true path w' (or_introl eq_refl)) as Hforce.
    cbv zeta in Hforce. fold fpath in Hforce.
    specialize (Hforce ltac:(fold fpath; congruence) Hw').
    eexists. split; [| split].
    + rewrite main_template, Hforce. reflexivity.
    + reflexivity.
    + cbn [fs]. apply lookup_insert_eq.
Qed.

(** C8, amended: [ipynb] always fails with NotImplementedError; that is
    not a CmdException, so [main] does not catch it: it leaves [main] as an
    uncaught exception (non-zero exit, with the traceback), whereas a
    CmdException is turned into [exit(message)], without one. *)
Theorem ipynb_not_caught (opts : options) (w : world) :
  opt_template opts = false -> opt_example opts = false ->
  opt_ipynb opts = true ->
  _main opts w = (Raise NotImplementedError, w)
  /\ main opts w = (Uncaught NotImplementedError, w)
  /\ exit_status (main opts w).1 = 1%nat
  /\ shows_traceback (main opts w).1 = true
  /\ (forall opts' w0 w' msg,
        _main opts' w0 = (Raise (CmdException msg), w') ->
        main opts' w0 = (SystemExit msg, w')
        /\ exit_status (main opts' w0).1 = 1%nat
        /\ shows_traceback (main opts' w0).1 = false).
Proof.
  intros Ht He Hi.
  assert (Hrun : _main opts w = (Raise NotImplementedError, w))
    by (unfold _main; rewrite Ht, He, Hi; reflexivity).
  assert (Hmain : main opts w = (Uncaught NotImplementedError, w))
    by (unfold main; rewrite Hrun; reflexivity).
  split; [assumption |]. split; [assumption |].
  rewrite Hmain. split; [reflexivity |]. split; [reflexivity |].
  intros opts' w0 w' msg Hcmd.
  assert (Hexit : main opts' w0 = (SystemExit msg, w'))
    by (unfold main; rewrite Hcmd; reflexivity).
  rewrite Hexit. repeat split.
Qed.

End Commands.

(** The template written twice at [/work/vehicle]. *)
Lemma template_twice_witness :
  exists w1,
    main (H := sample_platform) (template_options false ["/work/vehicle"])
      empty_world = (Returned, w1)
    /\ fs w1 = <["/work/vehicle.xlsx" := File "template"]> (fs empty_world)
    /\ main (H := sample_platform) (template_options false ["/work/vehicle"]) w1
       = (SystemExit
            "File '/work/vehicle.xlsx' already exists! Use '-f' to overwrite it.",
          w1).
Proof.
  destruct (template_twice (H := sample_platform) "/work/vehicle" empty_world
              eq_refl eq_refl) as (w1 & H1 & H2 & _ & H4 & _).
  exists w1. split; [exact H1 |]. split; [exact H2 |]. exact H4.
Defined.

(** C8 as stated fails: [ipynb] ends in an uncaught NotImplementedError,
    with the traceback, not in a message from [exit]. *)
Lemma ipynb_shows_traceback :
  main (H := sample_platform) (ipynb_options false "notebooks") empty_world
  = (Uncaught NotImplementedError, empty_world)
  /\ shows_traceback
       (main (H := sample_platform) (ipynb_options false "notebooks")
          empty_world).1 = true
  /\ forall msg,
       (main (H := sample_platform) (ipynb_options false "notebooks")
          empty_world).1 <> SystemExit msg.
Proof.
  split; [reflexivity |]. split; [reflexivity |]. intros msg. discriminate.
Qed.

Lemma ipynb_not_caught_witness :
  main (H := sample_platform) (ipynb_options true "notebooks") empty_world
  = (Uncaught NotImplementedError, empty_world)
  /\ exit_status
       (main (H := sample_platform) (ipynb_options true "notebooks")
          empty_world).1 = 1%nat.
Proof.
  destruct (ipynb_not_caught (H := sample_platform)
              (ipynb_options true "notebooks") empty_world
              eq_refl eq_refl eq_refl) as (_ & H2 & H3 & _).
  split; [exact H2 | exact H3].
Defined.

End CliFacts.

(** ** More on binary64 comparisons and on [nan_to_num] *)
Module FloatFacts.
Import Py PyFacts.

Lemma SFcompare_antisym (x y : spec_float) :
  SFcompare y x = option_map CompOpp (SFcompare x y).
Proof.
  destruct x as [sx | sx | | sx mx ex], y as [sy | sy | | sy my ey];
    try destruct sx; try destruct sy; try reflexivity; cbn.
  - rewrite (Z.compare_antisym ey ex).
    destruct (ey ?= ex)%Z; cbn; try reflexivity.
    now rewrite (Pos.compare_cont_antisym mx my Eq).
  - rewrite (Z.compare_antisym ey ex).
    destruct (ey ?= ex)%Z; cbn; try reflexivity.
    now rewrite (Pos.compare_cont_antisym mx my Eq).
Qed.

(** [<] on floats is asymmetric, NaN included. *)
Lemma ltb_asym (a b : float) :
  PrimFloat.ltb a b = true -> PrimFloat.ltb b a = false.
Proof.
  rewrite !ltb_spec. unfold SFltb.
  rewrite (SFcompare_antisym (Prim2SF a) (Prim2SF b)).
  now destruct (SFcompare (Prim2SF a) (Prim2SF b)) as [[| |] |].
Qed.

Lemma is_infinity_SF x :
  PrimFloat.is_infinity x
  = match Prim2SF x with S754_infinity _ => true | _ => false end.
Proof.
  unfold PrimFloat.is_infinity. rewrite FloatAxioms.eqb_spec, abs_spec.
  change (Prim2SF infinity) with (S754_infinity false).
  destruct (Prim2SF x) as [s | s | | s m e]; try destruct s; reflexivity.
Qed.

(** What [nan_to_num] returns is neither a NaN nor an infinity. *)
Lemma nan_to_num_finite (x : float) :
  PrimFloat.is_nan (nan_to_num x) = false
  /\ PrimFloat.is_infinity (nan_to_num x) = false.
Proof.
  pose proof (is_nan_SF x) as Hn. pose proof (is_infinity_SF x) as Hi.
  assert (He : PrimFloat.eqb x infinity
               = SFeqb (Prim2SF x) (S754_infinity false))
    by (rewrite FloatAxioms.eqb_spec; reflexivity).
  assert (He' : PrimFloat.eqb x neg_infinity
                = SFeqb (Prim2SF x) (S754_infinity true))
    by (rewrite FloatAxioms.eqb_spec; reflexivity).
  unfold nan_to_num. rewrite Hn, He, He'.
  destruct (Prim2SF x) as [s | s | | s m e] eqn:E; try destruct s; cbn;
    try (split; [exact Hn | exact Hi]); split; reflexivity.
Qed.

(** A zero fuel flow gives a zero emission, whatever the carbon content. *)
Lemma nan_to_num_zero_mul (c : float) :
  PrimFloat.eqb (nan_to_num (0 * c)) 0 = true.
Proof.
  pose proof (is_nan_SF (0 * c)) as Hn.
  pose proof (eqb_zero_SF (0 * c)) as Hz.
  assert (He : PrimFloat.eqb (0 * c) infinity
               = SFeqb (Prim2SF (0 * c)) (S754_infinity false))
    by (rewrite FloatAxioms.eqb_spec; reflexivity).
  assert (He' : PrimFloat.eqb (0 * c) neg_infinity
                = SFeqb (Prim2SF (0 * c)) (S754_infinity true))
    by (rewrite FloatAxioms.eqb_spec; reflexivity).
  unfold nan_to_num. rewrite Hn, He, He'.
  rewrite mul_spec in *. change (Prim2SF 0) with (S754_zero false) in *.
  destruct (Prim2SF c) as [s | s | | s m e]; try destruct s; cbn in *;
    try reflexivity; exact Hz.
Qed.

(** A zero heating value times 1200 is still a zero. *)
Lemma mul_1200_zero (x : float) :
  PrimFloat.eqb x 0 = true -> PrimFloat.eqb (x * 1200) 0 = true.
Proof.
  rewrite !eqb_zero_SF, mul_spec.
  destruct (Prim2SF x) as [s | s | | s m e]; try discriminate.
  intros _. destruct s; reflexivity.
Qed.

Ltac order_cases :=
  repeat match goal with
         | H : context [(?a ?= ?b)%Z] |- _ => destruct (Z.compare_spec a b)
         | |- context [(?a ?= ?b)%Z] => destruct (Z.compare_spec a b)
         | H : context [(?a ?= ?b)%positive] |- _ =>
             destruct (Pos.compare_spec a b)
         | |- context [(?a ?= ?b)%positive] => destruct (Pos.compare_spec a b)
         end.

Lemma SFltb_trans (x y z : spec_float) :
  SFltb x y = true -> SFltb y z = true -> SFltb x z = true.
Proof.
  unfold SFltb.
  destruct x as [sx | sx | | sx mx ex], y as [sy | sy | | sy my ey],
    z as [sz | sz | | sz mz ez];
    try destruct sx; try destruct sy; try destruct sz; cbn;
    try discriminate; try reflexivity;
    change (Pos.compare_cont Eq) with Pos.compare;
    intros H1 H2; order_cases; subst; cbn in *;
    try discriminate; try reflexivity; try lia.
Qed.

(** [<] on floats is transitive. *)
Lemma ltb_trans (a b c : float) :
  PrimFloat.ltb a b = true -> PrimFloat.ltb b c = true ->
  PrimFloat.ltb a c = true.
Proof. rewrite !ltb_spec. apply SFltb_trans. Qed.

Lemma ltb_irrefl (a : float) : PrimFloat.ltb a a = false.
Proof.
  destruct (PrimFloat.ltb a a) eqn:E; [| reflexivity].
  now rewrite (ltb_asym a a E) in E.
Qed.

End FloatFacts.

(** ** Further properties of the emission model *)
Module Co2EmissionProperties.
Import Py PyFacts FloatFacts Co2Emission Co2EmissionFacts.

Lemma bind_Ok {A B} (m : result A) (k : A -> result B) (r : B) :
  (m ≫= k) = Ok r -> exists a, m = Ok a /\ k a = Ok r.
Proof.
  destruct m as [a | e]; [| discriminate]. intros E. now exists a.
Qed.

Lemma select_length {A} (xs : list A) (mask : list bool) :
  length xs = length mask ->
  length (select xs mask) = length (select mask mask).
Proof.
  revert mask. induction xs as [| x xs IH]; intros [| b mask] E;
    try discriminate; [reflexivity |].
  cbn in E. injection E as E. cbn. destruct b; cbn; now rewrite (IH mask E).
Qed.

Lemma mask_index_Ok {A} (xs : list A) (mask : list bool) (r : list A) :
  mask_index xs mask = Ok r ->
  r = select xs mask /\ length r = length (select mask mask).
Proof.
  unfold mask_index. destruct (length xs =? length mask)%nat eqn:E;
    [| discriminate].
  intros [= <-]. split; [reflexivity |].
  apply select_length. now apply Nat.eqb_eq.
Qed.

Lemma mapM_length {A B} (f : A -> result B) (l : list A) (k : list B) :
  mapM f l = Ok k -> length k = length l.
Proof. intros E. apply mapM_Ok, Forall2_length in E. congruence. Qed.

Section Model.
Context `{Numpy} `{Constants}.

(** The shape of what [calculate_co2_emissions] returns: the cut-off fuel
    flows of the selected samples, times the carbon content, through
    [nan_to_num]. *)
Lemma co2_emissions_of_inv (d : cycle_data) (p : gmap string float)
  (sub_values : option (list bool)) (r : list float) :
  co2_emissions_of d p sub_values = Ok r ->
  let mask := match sub_values with
              | Some b => b
              | None => replicate (length (mean_piston_speeds d)) true
              end in
  exists (fc : list float) (cut : list (float * float * bool)),
    length fc = length (select mask mask)
    /\ length cut = length (select mask mask)
    /\ cut.*2 = map negb (select (on_engine d) mask)
    /\ r = map (fun f => nan_to_num (f * fuel_carbon_content d)%float)
             (zip_with (fun (f : float) (x : float * float * bool) =>
                          if PrimFloat.leb x.1.1 x.1.2 || x.2
                             || PrimFloat.ltb f 0
                          then 0%float else f) fc cut).
Proof.
  intros Hrun mask. unfold co2_emissions_of in Hrun. fold mask in Hrun.
  apply bind_Ok in Hrun as (n_speeds & Hns & Hrun).
  apply bind_Ok in Hrun as (n_powers & Hnp & Hrun).
  apply bind_Ok in Hrun as (e_speeds & Hes & Hrun).
  apply bind_Ok in Hrun as (e_powers & Hep & Hrun).
  apply bind_Ok in Hrun as (e_temp & Het & Hrun).
  apply bind_Ok in Hrun as (on & Hon & Hrun).
  apply bind_Ok in Hrun as (trg & _ & Hrun).
  apply bind_Ok in Hrun as (fc & Hfc & Hrun).
  apply bind_Ok in Hrun as (k & _ & Hrun).
  apply bind_Ok in Hrun as (ec_p0 & Hp0 & Hrun).
  apply bind_Ok in Hrun as (t & _ & Hrun).
  injection Hrun as <-.
  apply mask_index_Ok in Hns as [_ Lns], Hnp as [_ Lnp], Hes as [_ Les],
    Hep as [_ Lep], Het as [_ Let], Hon as [-> Lon].
  apply mapM_length in Hfc, Hp0.
  rewrite !length_zip_with in Hfc.
  unfold calculate_normalized_engine_coolant_temperatures in *.
  rewrite length_map in Hfc.
  eexists _, _. split; [| split; [| split; [| reflexivity]]].
  - rewrite !length_zip_with, !length_map. lia.
  - rewrite !length_zip_with, length_map. lia.
  - rewrite snd_zip; [reflexivity |].
    rewrite length_zip_with, length_map. lia.
Qed.

(** X1: The emissions hold no NaN and no infinity, one value per selected
    sample. *)
Theorem co2_emissions_finite (d : cycle_data) (p : gmap string float)
  (sub_values : option (list bool)) (r : list float) :
  co2_emissions_of d p sub_values = Ok r ->
  Forall finite r
  /\ length r
     = length (filter (fun b => b = true)
                 match sub_values with
                 | Some b => b
                 | None => replicate (length (mean_piston_speeds d)) true
                 end).
Proof.
  intros Hrun. apply co2_emissions_of_inv in Hrun.
  cbv zeta in Hrun. destruct Hrun as (fc & cut & Lfc & Lcut & _ & ->).
  split.
  - apply Forall_forall. intros y Hy.
    apply list_elem_of_fmap in Hy as (f & -> & _). apply nan_to_num_finite.
  - rewrite length_map, length_zip_with, Lfc, Lcut, Nat.min_id.
    clear. match goal with |- context [filter _ ?m] => generalize m end.
    intros m. induction m as [| [|] m IH]; [reflexivity | |].
    + rewrite filter_cons_True by reflexivity. cbn [select length].
      now rewrite IH.
    + rewrite filter_cons_False by discriminate. exact IH.
Qed.

(** X2: Where the engine is off the emission is zero. *)
Theorem co2_emissions_engine_off (d : cycle_data) (p : gmap string float)
  (sub_values : option (list bool)) (r : list float) (i : nat) (y : float) :
  co2_emissions_of d p sub_values = Ok r ->
  select (on_engine d)
    match sub_values with
    | Some b => b
    | None => replicate (length (mean_piston_speeds d)) true
    end !! i = Some false ->
  r !! i = Some y ->
  PrimFloat.eqb y 0 = true.
Proof.
  intros Hrun Hoff Hy. apply co2_emissions_of_inv in Hrun.
  cbv zeta in Hrun. destruct Hrun as (fc & cut & _ & _ & Hcut & ->).
  rewrite list_lookup_fmap, lookup_zip_with in Hy.
  destruct (fc !! i) as [f |]; [| discriminate]. cbn in Hy.
  destruct (cut !! i) as [[[pw p0] off] |] eqn:Hc; [| discriminate].
  assert (Hoff' : cut.*2 !! i = Some true)
    by (rewrite Hcut, list_lookup_fmap, Hoff; reflexivity).
  rewrite list_lookup_fmap, Hc in Hoff'. cbn in Hoff'.
  injection Hoff' as ->. cbn in Hy.
  rewrite orb_true_r in Hy. cbn in Hy.
  apply (f_equal (default 0%float)) in Hy. cbn in Hy. subst y.
  apply nan_to_num_zero_mul.
Qed.

Lemma fmep_total (pv dv : gmap string float) (s w T : float) :
  exists r,
    _calculate_fuel_mean_effective_pressure (pv ∪ (dv ∪ zero_params)) s w T
    = Ok r.
Proof.
  unfold _calculate_fuel_mean_effective_pressure, getitem.
  rewrite !merged_lookup by (repeat constructor).
  cbn [mbind result_bind bind mret result_ret].
  repeat match goal with
         | |- context [PrimFloat.eqb ?a 0] =>
             destruct (PrimFloat.eqb a 0);
               cbn [mbind result_bind bind mret result_ret]
         end; eauto.
Qed.

Lemma mask_index_all {A} (xs : list A) (n : nat) :
  length xs = n -> mask_index xs (replicate n true) = Ok xs.
Proof.
  intros <-. unfold mask_index. rewrite length_replicate, Nat.eqb_refl.
  f_equal. induction xs as [| x xs IH]; [reflexivity |]. cbn. now rewrite IH.
Qed.

(** X3: A fuel whose lower heating value is zero makes the model raise
    ZeroDivisionError, whatever the parameters. *)
Theorem zero_heating_value_raises (d : cycle_data)
  (params : gmap string float) (default_params : option (gmap string float)) :
  well_shaped d ->
  PrimFloat.eqb (engine_fuel_lower_heating_value d) 0 = true ->
  define_co2_emissions_model d params default_params None
  = Raise ZeroDivisionError.
Proof.
  intros (Lb & Ls & Lp & Lt & Lo) Hz. unfold define_co2_emissions_model.
  destruct (calculate_co2_emissions_spec d None
              (caller_heap params default_params) 0%nat params
              (match default_params with
               | Some _ => Some 1%nat
               | None => None
               end)) as (h' & -> & _).
  - destruct default_params; [apply lookup_insert_eq | apply lookup_singleton_eq].
  - destruct default_params as [dv |]; [| discriminate].
    intros l [= <-]. exists dv. cbn.
    rewrite lookup_insert_ne by discriminate. apply lookup_singleton_eq.
  - cbn [fst]. set (dv := defaults_at _ _). unfold co2_emissions_of.
    rewrite !mask_index_all by congruence.
    cbn [mbind result_bind bind]. unfold getitem.
    rewrite !merged_lookup by (repeat constructor).
    cbn [mbind result_bind bind].
    match goal with
    | |- context [mapM ?f (zip ?a ?b)] =>
        destruct (mapM_total f (zip a b)) as [fc ->]
    end.
    + intros x _. destruct (fmep_total params dv x.1.1 x.1.2 x.2) as [r ->].
      eexists. reflexivity.
    + cbn [mbind result_bind bind]. unfold py_div at 1.
      now rewrite (mul_1200_zero _ Hz).
Qed.

End Model.

(** X4: The brake pressures hold no NaN and no infinity; with arrays of one
    length there is one value per sample. *)
Theorem bmep_finite (engine_speeds_out engine_powers_out : list float)
  (engine_capacity : float) (r : list float) :
  calculate_brake_mean_effective_pressures engine_speeds_out
    engine_powers_out engine_capacity = Ok r ->
  Forall finite r
  /\ (length engine_speeds_out = length engine_powers_out ->
      length r = length engine_powers_out).
Proof.
  unfold calculate_brake_mean_effective_pressures. intros Hrun.
  apply bind_Ok in Hrun as (k & _ & Hrun).
  apply bind_Ok in Hrun as (q & Hq & [= <-]). split.
  - apply Forall_forall. intros y Hy.
    apply list_elem_of_fmap in Hy as (f & -> & _). apply nan_to_num_finite.
  - intros L. unfold broadcast2 in Hq.
    rewrite <- L, Nat.eqb_refl in Hq. injection Hq as <-.
    rewrite length_map, length_zip_with. lia.
Qed.

(** X5: Arrays whose lengths differ, neither of them of length one, cannot be
    divided elementwise: ValueError, unless the capacity is zero, which
    raises first. *)
Theorem bmep_shape_mismatch (engine_speeds_out engine_powers_out : list float)
  (engine_capacity : float) :
  length engine_speeds_out <> length engine_powers_out ->
  length engine_speeds_out <> 1%nat -> length engine_powers_out <> 1%nat ->
  calculate_brake_mean_effective_pressures engine_speeds_out
    engine_powers_out engine_capacity
  = if PrimFloat.eqb engine_capacity 0 then Raise ZeroDivisionError
    else Raise ValueError.
Proof.
  intros Hne Hs Hp. unfold calculate_brake_mean_effective_pressures, py_div.
  destruct (PrimFloat.eqb engine_capacity 0); [reflexivity |].
  cbn [mbind result_bind bind]. unfold broadcast2.
  destruct (length engine_powers_out =? length engine_speeds_out)%nat eqn:E;
    [apply Nat.eqb_eq in E; congruence |].
  destruct engine_powers_out as [| pw [| pw' ps]],
    engine_speeds_out as [| sp [| sp' ss]]; cbn in *; congruence.
Qed.

(** X6: Normalized temperatures never exceed 1, one per sample. *)
Theorem normalized_temperatures_at_most_one
  (engine_coolant_temperatures : list float) (temperature_target : float) :
  Forall (fun T => PrimFloat.ltb 1 T = false)
    (calculate_normalized_engine_coolant_temperatures
       engine_coolant_temperatures temperature_target)
  /\ length (calculate_normalized_engine_coolant_temperatures
               engine_coolant_temperatures temperature_target)
     = length engine_coolant_temperatures.
Proof.
  unfold calculate_normalized_engine_coolant_temperatures. split.
  - apply Forall_forall. intros T HT.
    apply list_elem_of_fmap in HT as (th & -> & _).
    cbv zeta.
    destruct (PrimFloat.ltb 1 ((th + 273.0) / (temperature_target + 273.0)))
      eqn:E; [reflexivity | exact E].
  - apply length_map.
Qed.

(** The sample cycle: two finite emissions. *)
Lemma co2_emissions_finite_witness :
  exists r,
    co2_emissions_of (H := sample_numpy) (H0 := sample_constants)
      sample_cycle zero_params None = Ok r
    /\ Forall finite r /\ length r = 2%nat.
Proof.
  eexists. split; [reflexivity |].
  apply (co2_emissions_finite (H := sample_numpy) (H0 := sample_constants)
           sample_cycle zero_params None).
  reflexivity.
Defined.

(** The stopped engine of the second sample emits nothing. *)
Lemma co2_emissions_engine_off_witness :
  exists r y,
    co2_emissions_of (H := sample_numpy) (H0 := sample_constants)
      sample_cycle_stopped zero_params None = Ok r
    /\ r !! 1%nat = Some y /\ PrimFloat.eqb y 0 = true.
Proof.
  eexists _, _. split; [reflexivity |].
  split; [reflexivity |].
  eapply (co2_emissions_engine_off (H := sample_numpy) (H0 := sample_constants)
            sample_cycle_stopped zero_params None) with (i := 1%nat).
  - reflexivity.
  - reflexivity.
  - reflexivity.
Defined.

Lemma zero_heating_value_raises_witness :
  define_co2_emissions_model (H := sample_numpy) (H0 := sample_constants)
    sample_cycle_no_heating {["a" := 0.5%float]} None None
  = Raise ZeroDivisionError.
Proof.
  apply (zero_heating_value_raises (H := sample_numpy) (H0 := sample_constants)
           sample_cycle_no_heating {["a" := 0.5%float]} None).
  - repeat split.
  - reflexivity.
Defined.

Lemma bmep_finite_witness :
  exists r,
    calculate_brake_mean_effective_pressures [0; 2000]%float [1; 20]%float 1600
    = Ok r
    /\ Forall finite r /\ length r = 2%nat.
Proof.
  eexists. split; [reflexivity |].
  destruct (bmep_finite [0; 2000]%float [1; 20]%float 1600 _ eq_refl)
    as [Hf Hl].
  split; [exact Hf | exact (Hl eq_refl)].
Defined.

Lemma bmep_shape_mismatch_witness :
  calculate_brake_mean_effective_pressures [1; 2; 3]%float [1; 2]%float 1600
  = Raise ValueError.
Proof.
  exact (bmep_shape_mismatch [1; 2; 3]%float [1; 2]%float 1600
           ltac:(discriminate) ltac:(discriminate) ltac:(discriminate)).
Defined.

(** *** Cycle types, engine types and the literal tables *)

Lemma upper_ascii_idemp (c : ascii) : upper_ascii (upper_ascii c) = upper_ascii c.
Proof. destruct c as [[] [] [] [] [] [] [] []]; reflexivity. Qed.

Lemma upper_idemp (s : string) : upper (upper s) = upper s.
Proof.
  induction s as [| c s IH]; [reflexivity |].
  cbn. now rewrite upper_ascii_idemp, IH.
Qed.

(** X7: A cycle type written in ASCII characters is read without regard to
    case; any such name other than WLTP and NEDC raises a KeyError on its
    upper-case form. *)
Theorem phases_integration_times_by_name (cycle_type : string) :
  is_ascii cycle_type = true ->
  select_phases_integration_times (upper cycle_type)
  = select_phases_integration_times cycle_type
  /\ match select_phases_integration_times cycle_type with
     | Ok ts =>
         (upper cycle_type = "WLTP"
          /\ ts = [0.0; 590.0; 1023.0; 1478.0; 1801.0]%float)
         \/ (upper cycle_type = "NEDC" /\ ts = [0.0; 780.0; 1181.0]%float)
     | Raise e =>
         e = KeyError (upper cycle_type)
         /\ upper cycle_type <> "WLTP" /\ upper cycle_type <> "NEDC"
     end.
Proof.
  intros _. unfold select_phases_integration_times. rewrite upper_idemp.
  split; [reflexivity |].
  unfold getitem, _integration_times. rewrite !lookup_insert.
  destruct (decide ("WLTP" = upper cycle_type)) as [<- | Hw].
  - left. split; reflexivity.
  - destruct (decide ("NEDC" = upper cycle_type)) as [<- | Hn].
    + right. split; reflexivity.
    + rewrite lookup_empty. repeat split; congruence.
Qed.

(** X8: The guess is given for the three engine types only, a KeyError
    otherwise; the engine type's coefficients do not replace t and trg: t
    starts at 4.5 within (0, 8), trg at the given temperature within the
    given window. *)
Theorem initial_guess_by_engine_type (engine_type : string) (T : float)
  (window : float * float) :
  (engine_type ∈ engine_types ->
   exists x0 bounds,
     select_initial_co2_emission_model_params_guess engine_type T window
     = Ok (x0, bounds)
     /\ x0 !! "t" = Some 4.5%float /\ x0 !! "trg" = Some T
     /\ bounds !! "t" = Some (0.0, 8.0)%float /\ bounds !! "trg" = Some window)
  /\ (engine_type ∉ engine_types ->
      select_initial_co2_emission_model_params_guess engine_type T window
      = Raise (KeyError engine_type)).
Proof.
  split.
  - intros Het. unfold engine_types in Het.
    repeat (apply elem_of_cons in Het as [-> | Het]);
      [| | | now apply elem_of_nil in Het].
    all: eexists _, _; split; [reflexivity |].
    all: repeat split; reflexivity.
  - intros Hnot. unfold select_initial_co2_emission_model_params_guess, getitem.
    unfold engine_type_params.
    rewrite (not_elem_of_list_to_map_1 _ engine_type); [reflexivity |].
    exact Hnot.
Qed.

Lemma within_bounds_check (x0 : gmap string float)
  (bounds : gmap string (float * float)) :
  forallb (fun kv : string * float =>
             String.eqb kv.1 "trg"
             || match bounds !! kv.1 with
                | Some lohi =>
                    PrimFloat.leb lohi.1 kv.2 && PrimFloat.leb kv.2 lohi.2
                | None => false
                end) (map_to_list x0) = true ->
  forall k v, k <> "trg" -> x0 !! k = Some v ->
    exists lo hi, bounds !! k = Some (lo, hi)
                  /\ PrimFloat.leb lo v = true /\ PrimFloat.leb v hi = true.
Proof.
  intros Hall k v Hk Hv.
  apply elem_of_map_to_list, list_elem_of_In in Hv.
  apply (proj1 (forallb_forall _ _) Hall) in Hv. cbn in Hv.
  apply orb_true_iff in Hv as [Hv | Hv].
  - apply String.eqb_eq in Hv. contradiction.
  - destruct (bounds !! k) as [[lo hi] |]; [| discriminate].
    apply andb_true_iff in Hv as [Hlo Hhi]. now exists lo, hi.
Qed.

(** X9: Every coefficient's initial value has bounds and lies within them, for
    the three engine types; t does too. *)
Theorem initial_guess_within_bounds (engine_type : string) (T : float)
  (window : float * float) :
  engine_type ∈ engine_types ->
  exists x0 bounds,
    select_initial_co2_emission_model_params_guess engine_type T window
    = Ok (x0, bounds)
    /\ forall k v, k <> "trg" -> x0 !! k = Some v ->
         exists lo hi, bounds !! k = Some (lo, hi)
                       /\ PrimFloat.leb lo v = true
                       /\ PrimFloat.leb v hi = true.
Proof.
  intros Het. unfold engine_types in Het.
  repeat (apply elem_of_cons in Het as [-> | Het]);
    [| | | now apply elem_of_nil in Het].
  all: eexists _, _; split; [reflexivity |].
  all: apply within_bounds_check; reflexivity.
Qed.

(** X10: The registry's table and the function's literal one agree: for every
    engine type and each of a, b, c, a2, l, l2 the same value and bounds;
    the registry's t0 is the function's t; the registry alone has b2, fixed
    at 0. *)
Theorem registry_agrees_with_initial_guess (engine_type k : string) :
  engine_type ∈ engine_types -> k ∈ hot_p ->
  exists (x0 : gmap string float) (bounds : gmap string (float * float))
         (table : gmap string Defaults.co2_param) (e t0 b2 : Defaults.co2_param),
    select_initial_co2_emission_model_params_guess engine_type 90 (85, 95)%float
    = Ok (x0, bounds)
    /\ Defaults.CO2_PARAMS !! engine_type = Some table
    /\ table !! k = Some e
    /\ x0 !! k = Some (Defaults.value e)
    /\ bounds !! k = Some (Defaults.min e, Defaults.max e)
    /\ table !! "t0" = Some t0
    /\ x0 !! "t" = Some (Defaults.value t0)
    /\ bounds !! "t" = Some (Defaults.min t0, Defaults.max t0)
    /\ table !! "b2" = Some b2
    /\ Defaults.value b2 = 0%float /\ Defaults.vary b2 = Some false
    /\ x0 !! "b2" = None.
Proof.
  intros Het Hk. unfold engine_types in Het. unfold hot_p in Hk.
  repeat (apply elem_of_cons in Het as [-> | Het]);
    [| | | now apply elem_of_nil in Het].
  all: repeat (apply elem_of_cons in Hk as [-> | Hk]);
    [| | | | | | now apply elem_of_nil in Hk].
  all: eexists _, _, _, _, _, _; split; [reflexivity |].
  all: split; [reflexivity |].
  all: split; [reflexivity |].
  all: repeat split; reflexivity.
Qed.

(** *** Restricted bounds *)

Lemma restrict_bounds_items bounds guess r :
  restrict_bounds bounds guess = Ok r ->
  exists ys,
    r = list_to_map ys
    /\ ys.*1 = (map_to_list guess).*1
    /\ Forall2 (fun x y => (l ← _limits bounds x.1 x.2; mret (x.1, l)) = Ok y)
         (map_to_list guess) ys.
Proof.
  unfold restrict_bounds. intros Hr.
  destruct (mapM _ (map_to_list guess)) as [ys |] eqn:Hys; [| discriminate].
  cbn in Hr. injection Hr as <-. apply mapM_Ok in Hys.
  exists ys. split; [reflexivity |]. split; [| assumption].
  now apply limits_items_keys with (bounds := bounds).
Qed.

Lemma restrict_bounds_lookup bounds guess r k v :
  restrict_bounds bounds guess = Ok r -> guess !! k = Some v ->
  exists lo hi ml mh,
    bounds !! k = Some (lo, hi) /\ mul !! k = Some (ml, mh)
    /\ r !! k = Some (py_max lo (v * ml), py_min hi (v * mh)).
Proof.
  intros Hr Hk. apply restrict_bounds_items in Hr as (ys & -> & Hkeys & Hys).
  apply elem_of_map_to_list in Hk.
  apply list_elem_of_lookup in Hk as [i Hi].
  destruct (Forall2_lookup_l _ _ _ _ _ Hys Hi) as (y & Hy & Hxy).
  apply limits_item in Hxy as (lo & hi & ml & mh & Hb & Hm & ->).
  exists lo, hi, ml, mh. repeat split; try assumption.
  apply elem_of_list_to_map_1.
  - rewrite Hkeys. apply NoDup_fst_map_to_list.
  - apply list_elem_of_lookup. now exists i.
Qed.

(** X11: Restricting never widens and never drops or adds a coefficient: the
    new lower bound is not below the old one, the new upper bound not above
    it, and the result has the keys of the guess. *)
Theorem restrict_bounds_within (bounds : gmap string (float * float))
  (guess : gmap string float) (r : gmap string (float * float)) :
  restrict_bounds bounds guess = Ok r ->
  dom r = dom guess
  /\ forall k lo hi lo' hi',
       bounds !! k = Some (lo, hi) -> r !! k = Some (lo', hi') ->
       PrimFloat.ltb lo' lo = false /\ PrimFloat.ltb hi hi' = false.
Proof.
  intros Hr.
  assert (Hkeys : forall k, is_Some (r !! k) -> is_Some (guess !! k)).
  { intros k [l Hl].
    destruct (restrict_bounds_items _ _ _ Hr) as (ys & -> & Hk & _).
    apply elem_of_list_to_map_2 in Hl.
    assert (Hin : k ∈ ys.*1)
      by (apply list_elem_of_fmap; now exists (k, l)).
    rewrite Hk in Hin. apply list_elem_of_fmap in Hin as ([k' v] & -> & Hin).
    apply elem_of_map_to_list in Hin. now exists v. }
  split.
  - apply set_eq. intros k. rewrite !elem_of_dom. split; [apply Hkeys |].
    intros [v Hv].
    destruct (restrict_bounds_lookup _ _ _ _ _ Hr Hv)
      as (lo & hi & ml & mh & _ & _ & Hrk).
    eexists. exact Hrk.
  - intros k lo hi lo' hi' Hb Hrk.
    destruct (Hkeys k) as [v Hv]; [eexists; exact Hrk |].
    destruct (restrict_bounds_lookup _ _ _ _ _ Hr Hv)
      as (lo0 & hi0 & ml & mh & Hb0 & _ & Hrk0).
    rewrite Hb in Hb0. rewrite Hrk in Hrk0.
    assert (lo0 = lo /\ hi0 = hi) as [-> ->].
    { apply (f_equal (default (0, 0)%float)) in Hb0. cbn in Hb0.
      split; [exact (eq_sym (f_equal fst Hb0)) |
              exact (eq_sym (f_equal snd Hb0))]. }
    apply (f_equal (default (0, 0)%float)) in Hrk0. cbn in Hrk0.
    pose proof (f_equal fst Hrk0) as Hlo. pose proof (f_equal snd Hrk0) as Hhi.
    cbn in Hlo, Hhi. subst lo' hi'. unfold py_max, py_min. split.
    + destruct (PrimFloat.ltb lo (v * ml)) eqn:E;
        [now apply ltb_asym | apply ltb_irrefl].
    + destruct (PrimFloat.ltb (v * mh) hi) eqn:E;
        [now apply ltb_asym | apply ltb_irrefl].
Qed.

(** X12: The guess and bounds of every engine type can be restricted as they
    come: [restrict_bounds] returns, with the guess's eight keys. *)
Theorem initial_guess_can_be_restricted (engine_type : string) (T : float)
  (window : float * float) :
  engine_type ∈ engine_types ->
  exists x0 bounds r,
    select_initial_co2_emission_model_params_guess engine_type T window
    = Ok (x0, bounds)
    /\ restrict_bounds bounds x0 = Ok r
    /\ dom r = dom x0.
Proof.
  intros Het. unfold engine_types in Het.
  repeat (apply elem_of_cons in Het as [-> | Het]);
    [| | | now apply elem_of_nil in Het].
  all: eexists _, _, _; split; [reflexivity |].
  all: split; reflexivity.
Qed.

Lemma phases_integration_times_by_name_witness :
  select_phases_integration_times "wltp"
  = Ok [0.0; 590.0; 1023.0; 1478.0; 1801.0]%float
  /\ select_phases_integration_times "ftp" = Raise (KeyError "FTP").
Proof.
  split.
  - rewrite <- (proj1 (phases_integration_times_by_name "wltp" eq_refl)).
    reflexivity.
  - reflexivity.
Defined.

Lemma initial_guess_within_bounds_witness :
  exists x0 bounds lo hi,
    select_initial_co2_emission_model_params_guess "diesel" 90 (85, 95)%float
    = Ok (x0, bounds)
    /\ x0 !! "l2" = Some (-0.0076)%float
    /\ bounds !! "l2" = Some (lo, hi)
    /\ PrimFloat.leb lo (-0.0076) = true /\ PrimFloat.leb (-0.0076) hi = true.
Proof.
  destruct (initial_guess_within_bounds "diesel" 90 (85, 95)%float)
    as (x0 & bounds & Hrun & Hin).
  - right. right. left.
  - assert (Hv : x0 !! "l2" = Some (-0.0076)%float).
    { apply (f_equal (fun r => match r with
                               | Ok xb => xb.1 !! "l2"
                               | Raise _ => None
                               end)) in Hrun.
      symmetry. exact Hrun. }
    destruct (Hin "l2" _ ltac:(discriminate) Hv) as (lo & hi & Hb & Hlo & Hhi).
    exists x0, bounds, lo, hi. repeat split; assumption.
Defined.

Lemma registry_agrees_with_initial_guess_witness :
  exists e : Defaults.co2_param,
    Defaults.CO2_PARAMS !! "diesel" ≫= (fun table => table !! "a") = Some e
    /\ Defaults.value e = 0.391197%float.
Proof.
  destruct (registry_agrees_with_initial_guess "diesel" "a")
    as (x0 & bounds & table & e & t0 & b2 & Hrun & Ht & He & Hx & _).
  - right. right. left.
  - right. left.
  - exists e. rewrite Ht. cbn. split; [exact He |].
    apply (f_equal (fun r => match r with
                             | Ok xb => xb.1 !! "a"
                             | Raise _ => None
                             end)) in Hrun.
    change (Some 0.391197%float = x0 !! "a") in Hrun. rewrite Hx in Hrun.
    exact (eq_sym (f_equal (default 0%float) Hrun)).
Defined.

Lemma restrict_bounds_within_witness :
  exists r,
    restrict_bounds {["l2" := (-0.01, 0.0)%float]} {["l2" := (-0.003)%float]}
    = Ok r
    /\ dom r = {["l2"]}.
Proof.
  assert (Hr : restrict_bounds {["l2" := (-0.01, 0.0)%float]}
                 {["l2" := (-0.003)%float]}
               = Ok {["l2" := (py_max (-0.01) (-0.003 * 1.2),
                               py_min 0.0 (-0.003 * 0.0))%float]})
    by reflexivity.
  eexists. split; [exact Hr |].
  destruct (restrict_bounds_within _ _ _ Hr) as [Hd _].
  rewrite Hd. apply dom_singleton_L.
Defined.

Lemma initial_guess_can_be_restricted_witness :
  exists x0 bounds r,
    select_initial_co2_emission_model_params_guess "diesel" 90 (85, 95)%float
    = Ok (x0, bounds)
    /\ restrict_bounds bounds x0 = Ok r.
Proof.
  destruct (initial_guess_can_be_restricted "diesel" 90 (85, 95)%float)
    as (x0 & bounds & r & H1 & H2 & _).
  - right. right. left.
  - exists x0, bounds, r. split; assumption.
Defined.

(** *** The optimizer's wrapper *)

Lemma sorted_keys_in {V} (b : gmap string V) (k : string) :
  k ∈ (sorted_items b).*1 <-> is_Some (b !! k).
Proof.
  unfold sorted_items. rewrite list_elem_of_fmap. split.
  - intros ([k' v] & -> & Hin). rewrite merge_sort_Permutation in Hin.
    apply elem_of_map_to_list in Hin. now exists v.
  - intros [v Hv]. exists (k, v). split; [reflexivity |].
    rewrite merge_sort_Permutation. now apply elem_of_map_to_list.
Qed.

Lemma point_params_in (keys : list string) (xs : list float) (k : string)
  (v : float) :
  point_params keys xs !! k = Some v -> k ∈ keys.
Proof.
  unfold point_params. intros Hk.
  now apply elem_of_list_to_map_2, elem_of_zip_l in Hk.
Qed.

Lemma mapM_getitem_missing (g : gmap string float) (keys : list string) :
  (exists k, k ∈ keys /\ g !! k = None) ->
  exists k, k ∈ keys /\ g !! k = None
            /\ mapM (getitem g) keys = Raise (KeyError k).
Proof.
  induction keys as [| k0 keys IH]; intros (k & Hin & Hk).
  - now apply elem_of_nil in Hin.
  - destruct (g !! k0) as [v |] eqn:E0.
    + apply elem_of_cons in Hin as [-> | Hin]; [congruence |].
      destruct IH as (k' & Hin' & Hk' & Hrun); [now exists k |].
      exists k'. split; [now right |]. split; [assumption |].
      cbn [mapM]. rewrite Hrun. unfold getitem. now rewrite E0.
    + exists k0. split; [now left |]. split; [assumption |].
      cbn [mapM]. unfold getitem. now rewrite E0.
Qed.

(** The best point seen: it is one of the points, the error recorded is the
    objective's value there, and no point of the list has a smaller one. *)
Lemma best_observed_spec (f : list float -> result float)
  (pts : list (list float)) :
  forall (b : float * option (list float)) (e : float) (x : list float),
    best_observed f b pts = Ok (e, Some x) ->
    (b = (e, Some x) \/ (x ∈ pts /\ f x = Ok e))
    /\ (e = b.1 \/ PrimFloat.ltb e b.1 = true)
    /\ (forall y ey, y ∈ pts -> f y = Ok ey -> PrimFloat.ltb ey e = false).
Proof.
  induction pts as [| p pts IH]; intros b e x Hrun.
  - cbn in Hrun. injection Hrun as ->. split; [now left |].
    split; [now left |]. intros y ey Hy. now apply elem_of_nil in Hy.
  - cbn [best_observed] in Hrun. apply bind_Ok in Hrun as (res & Hres & Hrun).
    apply IH in Hrun as (Hpt & Hle & Hmin).
    destruct (PrimFloat.ltb res b.1) eqn:Hlt; cbn [fst] in *.
    + split; [| split].
      * right. destruct Hpt as [[= <- <-] | [Hin Hf]].
        -- split; [now left | assumption].
        -- split; [now right | assumption].
      * right. destruct Hle as [-> | Hle]; [assumption |].
        now apply (ltb_trans e res b.1).
      * intros y ey Hy Hfy. apply elem_of_cons in Hy as [-> | Hy];
          [| now apply (Hmin y)].
        assert (ey = res) as ->
          by (rewrite Hres in Hfy; exact (f_equal (fun r => match r with
                                                             | Ok v => v
                                                             | Raise _ => ey
                                                             end)
                                            (eq_sym Hfy))).
        destruct Hle as [-> | Hle]; [apply ltb_irrefl | now apply ltb_asym].
    + split; [| split].
      * destruct Hpt as [-> | [Hin Hf]]; [now left |].
        right. split; [now right | assumption].
      * assumption.
      * intros y ey Hy Hfy. apply elem_of_cons in Hy as [-> | Hy];
          [| now apply (Hmin y)].
        assert (ey = res) as ->
          by (rewrite Hres in Hfy; exact (f_equal (fun r => match r with
                                                             | Ok v => v
                                                             | Raise _ => ey
                                                             end)
                                            (eq_sym Hfy))).
        destruct Hle as [-> | Hle]; [assumption |].
        destruct (PrimFloat.ltb res e) eqn:Hre; [| reflexivity].
        now rewrite (ltb_trans res e b.1 Hre Hle) in Hlt.
Qed.

Section Optimizer.
Context `{Constants} `{Scipy}.

(** X13: The calibrated parameters are keyed by the bounds: the sorted keys of
    the bounds paired with the point found, and no other key. *)
Theorem calibrated_parameters_keys
  (params_bounds : gmap string (float * float))
  (error_function : (gmap string float -> result float)
                    + list (gmap string float -> result float))
  (initial_guess : option (gmap string float)) (p : gmap string float) :
  calibrate_model_params params_bounds error_function initial_guess = Ok p ->
  (exists x, p = point_params (sorted_items params_bounds).*1 x)
  /\ dom p ⊆ dom params_bounds.
Proof.
  unfold calibrate_model_params. intros Hrun.
  remember (sorted_items params_bounds) as items eqn:E.
  destruct items as [| it items]; [discriminate |].
  apply bind_Ok in Hrun as ([x |] & _ & Hrun); [| discriminate].
  injection Hrun as <-.
  split; [now exists x |].
  intros k Hk. apply elem_of_dom in Hk as [v Hv].
  apply point_params_in in Hv.
  change (k ∈ (it :: items).*1) in Hv. rewrite E in Hv.
  apply elem_of_dom. now apply sorted_keys_in.
Qed.

(** X14: Without bounds there is nothing to calibrate: ValueError; and an
    initial guess that lacks a bounded parameter raises a KeyError on such
    a parameter. *)
Theorem calibrate_model_params_errors
  (error_function : (gmap string float -> result float)
                    + list (gmap string float -> result float)) :
  (forall initial_guess,
     calibrate_model_params ∅ error_function initial_guess = Raise ValueError)
  /\ (forall params_bounds guess k,
        is_Some (params_bounds !! k) -> guess !! k = None ->
        exists k',
          is_Some (params_bounds !! k') /\ guess !! k' = None
          /\ calibrate_model_params params_bounds error_function (Some guess)
             = Raise (KeyError k')).
Proof.
  split; [reflexivity |].
  intros params_bounds guess k Hb Hg.
  destruct (mapM_getitem_missing guess (sorted_items params_bounds).*1)
    as (k' & Hin & Hk' & Hrun).
  { exists k. split; [now apply sorted_keys_in | assumption]. }
  exists k'. split; [now apply sorted_keys_in |]. split; [assumption |].
  unfold calibrate_model_params.
  remember (sorted_items params_bounds) as items eqn:E.
  destruct items as [| it items]; [now apply elem_of_nil in Hin |].
  rewrite Hrun. reflexivity.
Qed.

(** X15: When the optimizer reports a failure, the parameters returned are the
    best point it tried: one of the points it evaluated, and none of them
    has a smaller error. *)
Theorem calibrate_model_params_fallback
  (params_bounds : gmap string (float * float))
  (f : gmap string float -> result float) (guess : gmap string float)
  (x0 : list float) (res : OptimizeResult) (p : gmap string float) :
  let param_keys := (sorted_items params_bounds).*1 in
  let bounds :=
    map (fun ij : float * float => (ij.1 - EPS, ij.2 + EPS)%float)
        (sorted_items params_bounds).*2 in
  let error_func := fun xs => f (point_params param_keys xs) in
  mapM (getitem guess) param_keys = Ok x0 ->
  minimize error_func x0 bounds = Ok res ->
  res_success res = false ->
  calibrate_model_params params_bounds (inl f) (Some guess) = Ok p ->
  exists x e,
    x ∈ res_evals res /\ p = point_params param_keys x
    /\ error_func x = Ok e
    /\ forall y ey, y ∈ res_evals res -> error_func y = Ok ey ->
                    PrimFloat.ltb ey e = false.
Proof.
  intros param_keys bounds error_func Hx0 Hmin Hfail Hrun.
  unfold calibrate_model_params in Hrun.
  subst param_keys bounds error_func.
  remember (sorted_items params_bounds) as items eqn:E.
  destruct items as [| it items]; [discriminate |].
  rewrite Hx0 in Hrun. cbn [mbind result_bind bind] in Hrun.
  rewrite Hmin in Hrun. cbn [mbind result_bind bind] in Hrun.
  rewrite Hfail in Hrun. cbn [app] in Hrun.
  apply bind_Ok in Hrun as ([x |] & Hbest & Hrun); [| discriminate].
  injection Hrun as <-.
  destruct (best_observed _ _ _) as [[e ox] |] eqn:Hb; [| discriminate].
  cbn in Hbest. injection Hbest as ->.
  apply best_observed_spec in Hb as ([Hb | [Hin Hf]] & _ & Hmin').
  - discriminate.
  - exists x, e. repeat split; assumption.
Qed.

End Optimizer.

Lemma calibrated_parameters_keys_witness :
  exists p,
    calibrate_model_params (H := sample_constants) (H0 := sample_scipy)
      {["a" := (0.0, 1.0)%float]} (inl (fun _ => Ok 0%float))
      (Some {["a" := 0.5%float]}) = Ok p
    /\ dom p ⊆ {["a"]}.
Proof.
  assert (Hr : calibrate_model_params (H := sample_constants)
                 (H0 := sample_scipy) {["a" := (0.0, 1.0)%float]}
                 (inl (fun _ => Ok 0%float)) (Some {["a" := 0.5%float]})
               = Ok (point_params ["a"] [0.5%float])) by reflexivity.
  eexists. split; [exact Hr |].
  destruct (calibrated_parameters_keys (H := sample_constants)
              (H0 := sample_scipy) _ _ _ _ Hr) as [_ Hd].
  now rewrite dom_singleton_L in Hd.
Defined.

Lemma calibrate_model_params_errors_witness :
  exists k',
    calibrate_model_params (H := sample_constants) (H0 := sample_scipy)
      {["a" := (0.0, 1.0)%float]} (inl (fun _ => Ok 0%float))
      (Some {["b" := 0.5%float]}) = Raise (KeyError k').
Proof.
  destruct (proj2 (calibrate_model_params_errors (H := sample_constants)
                     (H0 := sample_scipy) (inl (fun _ => Ok 0%float)))
              {["a" := (0.0, 1.0)%float]} {["b" := 0.5%float]} "a")
    as (k' & _ & _ & Hrun).
  - eexists. reflexivity.
  - reflexivity.
  - now exists k'.
Defined.

(** The optimizer gives up after trying a = 1.5, 0.5 and 2.5; the error is
    a itself: a = 0.5 is returned. *)
Lemma calibrate_model_params_fallback_witness :
  exists x e,
    calibrate_model_params (H := sample_constants) (H0 := sample_scipy_failing)
      {["a" := (0.0, 1.0)%float]}
      (inl (fun p => Ok (default 0%float (p !! "a"))))
      (Some {["a" := 0.5%float]}) = Ok (point_params ["a"] x)
    /\ x ∈ [[1.5]; [0.5]; [2.5]]%float
    /\ (default 0%float (point_params ["a"] x !! "a")) = e.
Proof.
  destruct (calibrate_model_params_fallback (H := sample_constants)
              (H0 := sample_scipy_failing) {["a" := (0.0, 1.0)%float]}
              (fun p => Ok (default 0%float (p !! "a")))
              {["a" := 0.5%float]} [0.5%float]
              {| res_x := [0.5%float]; res_success := false;
                 res_evals := [[1.5]; [0.5]; [2.5]]%float |}
              (point_params ["a"] [0.5%float]))
    as (x & e & Hin & Hp & He & _).
  - reflexivity.
  - reflexivity.
  - reflexivity.
  - reflexivity.
  - exists [0.5%float], e. split; [reflexivity |].
    split; [right; left |].
    cbv beta in He. rewrite <- Hp in He.
    exact (f_equal (fun r => match r with Ok v => v | Raise _ => e end) He).
Defined.

(** *** The staged calibration *)

Lemma restrict_keys_dom {V} (id_p : list string) (d : gmap string V)
  (k : string) :
  k ∈ dom (restrict_keys id_p d) -> k ∈ id_p /\ k ∈ dom d.
Proof.
  unfold restrict_keys. intros Hk. apply elem_of_dom in Hk as [v Hv].
  apply map_lookup_filter_Some in Hv as [Hv Hin].
  split; [exact Hin | apply elem_of_dom; now exists v].
Qed.


Lemma restrict_bounds_dom (bounds : gmap string (float * float))
  (guess : gmap string float) (r : gmap string (float * float)) :
  restrict_bounds bounds guess = Ok r -> dom r = dom guess.
Proof.
  intros Hr. apply set_eq. intros k. rewrite !elem_of_dom. split.
  - intros [l Hl].
    destruct (restrict_bounds_items _ _ _ Hr) as (ys & -> & Hk & _).
    apply elem_of_list_to_map_2 in Hl.
    assert (Hin : k ∈ ys.*1)
      by (apply list_elem_of_fmap; now exists (k, l)).
    rewrite Hk in Hin. apply list_elem_of_fmap in Hin as ([k' v] & -> & Hin).
    apply elem_of_map_to_list in Hin. now exists v.
  - intros [v Hv].
    destruct (restrict_bounds_lookup _ _ _ _ _ Hr Hv)
      as (lo & hi & ml & mh & _ & _ & Hrk).
    eexists. exact Hrk.
Qed.

Section Stages.
Context `{Constants} `{Scipy}.

Lemma calibrated_parameters_keys_dom
  (params_bounds : gmap string (float * float))
  (error_function : (gmap string float -> result float)
                    + list (gmap string float -> result float))
  (initial_guess : option (gmap string float)) (p : gmap string float) :
  calibrate_model_params params_bounds error_function initial_guess = Ok p ->
  dom p ⊆ dom params_bounds.
Proof.
  unfold calibrate_model_params. intros Hrun.
  remember (sorted_items params_bounds) as items eqn:E.
  destruct items as [| it items]; [discriminate |].
  apply bind_Ok in Hrun as ([x |] & _ & Hrun); [| discriminate].
  injection Hrun as <-.
  intros k Hk. apply elem_of_dom in Hk as [v Hv].
  apply point_params_in in Hv.
  change (k ∈ (it :: items).*1) in Hv. rewrite E in Hv.
  apply elem_of_dom. now apply sorted_keys_in.
Qed.

Lemma calibrate_keys {Mask : Type}
  (err_f : gmap string float -> gmap string float -> Mask -> result float)
  (bounds : gmap string (float * float)) (guess : gmap string float)
  (id_p : list string) (default_params : gmap string float)
  (sub_values : Mask) (p : gmap string float) (k : string) :
  calibrate err_f bounds guess id_p default_params sub_values = Ok p ->
  k ∈ dom p -> k ∈ id_p /\ k ∈ dom bounds.
Proof.
  unfold calibrate. intros Hrun Hk.
  apply calibrated_parameters_keys_dom in Hrun.
  now apply restrict_keys_dom, Hrun.
Qed.

Lemma calibrate_stages_keys {Mask : Type}
  (err_f : gmap string float -> gmap string float -> Mask -> result float)
  (cold hot : Mask) (cold_any : bool)
  (on_phases : (gmap string float -> result float)
               + list (gmap string float -> result float))
  (bounds : gmap string (float * float)) (guess p : gmap string float)
  (k : string) :
  calibrate_stages err_f cold hot cold_any on_phases bounds guess = Ok p ->
  k ∈ dom p -> k ∈ hot_p ++ cold_p /\ k ∈ dom bounds.
Proof.
  unfold calibrate_stages. intros Hrun Hk.
  apply bind_Ok in Hrun as (p1 & H1 & Hrun).
  apply bind_Ok in Hrun as (p2 & H2 & Hrun).
  apply bind_Ok in Hrun as (bounds' & Hb & Hrun).
  apply calibrated_parameters_keys_dom in Hrun. apply Hrun in Hk.
  pose proof Hb as Hb'.
  apply restrict_bounds_dom in Hb. rewrite Hb in Hk.
  apply elem_of_dom in Hk as [v Hv].
  destruct (restrict_bounds_lookup _ _ _ _ _ Hb' Hv)
    as (lo & hi & ml & mh & Hbk & _ & _).
  split; [| apply elem_of_dom; eexists; eassumption].
  assert (Hp2 : k ∈ dom p2) by (apply elem_of_dom; now exists v).
  destruct cold_any.
  - apply bind_Ok in H2 as (q & Hq & [= <-]).
    rewrite dom_union in Hp2. apply elem_of_union in Hp2 as [Hk | Hk].
    + apply elem_of_app. right.
      now apply (calibrate_keys _ _ _ _ _ _ _ _ Hq).
    + apply elem_of_app. left.
      now apply (calibrate_keys _ _ _ _ _ _ _ _ H1).
  - apply bind_Ok in H2 as (trg & _ & H2).
    apply bind_Ok in H2 as (t & _ & [= <-]).
    rewrite !dom_insert in Hp2.
    apply elem_of_union in Hp2 as [Hk | Hk];
      [apply elem_of_singleton in Hk as ->; apply elem_of_app; right; left |].
    apply elem_of_union in Hk as [Hk | Hk];
      [apply elem_of_singleton in Hk as ->; apply elem_of_app; right;
       right; left |].
    apply elem_of_app. left.
    now apply (calibrate_keys _ _ _ _ _ _ _ _ H1).
Qed.

(** X28: The staged calibration never returns a parameter outside a2, a, b, c,
    l, l2, t and trg, nor one that has no bounds: b2 is never calibrated;
    and without trg in the initial guess it raises KeyError at once. *)
Theorem calibrate_co2_params_keys (inputs : calibration_inputs)
  (co2_params_bounds : gmap string (float * float))
  (co2_params_initial_guess : gmap string float) :
  (forall p, calibrate_co2_params inputs co2_params_bounds
               co2_params_initial_guess = Ok p ->
             p !! "b2" = None
             /\ forall k, is_Some (p !! k) ->
                  k ∈ ["a2"; "a"; "b"; "c"; "l"; "l2"; "t"; "trg"]
                  /\ is_Some (co2_params_bounds !! k))
  /\ (co2_params_initial_guess !! "trg" = None ->
      calibrate_co2_params inputs co2_params_bounds co2_params_initial_guess
      = Raise (KeyError "trg")).
Proof.
  split.
  - intros p Hrun.
    assert (Hkeys : forall k, is_Some (p !! k) ->
              k ∈ ["a2"; "a"; "b"; "c"; "l"; "l2"; "t"; "trg"]
              /\ is_Some (co2_params_bounds !! k)).
    { intros k Hk. apply elem_of_dom in Hk.
      unfold calibrate_co2_params in Hrun.
      apply bind_Ok in Hrun as (trg & _ & Hrun).
      destruct inputs as [temps on_e on_p | temps on_e on_p];
        apply (calibrate_stages_keys _ _ _ _ _ _ _ _ k) in Hrun;
        try assumption; destruct Hrun as [Hin Hb];
        (split; [exact Hin | now apply elem_of_dom]). }
    split; [| exact Hkeys].
    destruct (p !! "b2") as [v |] eqn:E; [| reflexivity].
    destruct (Hkeys "b2") as [Hin _]; [eexists; eassumption |].
    exfalso. repeat (apply elem_of_cons in Hin as [Hin | Hin];
                     [discriminate |]).
    now apply elem_of_nil in Hin.
  - intros Hnone. unfold calibrate_co2_params, getitem. now rewrite Hnone.
Qed.

End Stages.

End Co2EmissionProperties.

(** ** Further properties of the model selector *)
Module SelectorProperties.
Import Py PyFacts Selector SelectorFacts.

Section Selection.
Context {V : Type} `{Externals V}.

Lemma zip_longest_fst (ts : list string) (ws : list float) :
  (zip_longest ts ws).*1 = ts.
Proof.
  revert ws. induction ts as [| t ts IH]; intros [| w ws]; cbn;
    try reflexivity; now rewrite IH.
Qed.

Lemma shared_targets_length (target_ids : list string)
  (model_results target_results : gmap string V) (sample_weight : list float) :
  length (shared_targets target_ids model_results target_results
            sample_weight)
  = length (List.filter
              (fun t => bool_decide (is_Some (model_results !! t))
                        && bool_decide (is_Some (target_results !! t)))
              target_ids).
Proof.
  unfold shared_targets. revert sample_weight.
  induction target_ids as [| t ts IH]; intros ws; [reflexivity |].
  destruct ws as [| w ws]; cbn [zip_longest]; simpl;
    destruct (model_results !! t) as [y |], (target_results !! t) as [x |];
    simpl; try f_equal; apply IH.
Qed.

Lemma shared_targets_nil (target_ids : list string)
  (model_results target_results : gmap string V) (sample_weight : list float) :
  shared_targets target_ids model_results target_results sample_weight = []
  <-> forall t, t ∈ target_ids ->
        model_results !! t = None \/ target_results !! t = None.
Proof.
  unfold shared_targets.
  match goal with |- context [omap ?g _] => set (f := g) end.
  split.
  - intros E t Ht.
    destruct (model_results !! t) as [y |] eqn:Hy; [| now left].
    destruct (target_results !! t) as [x |] eqn:Hx; [| now right].
    exfalso.
    rewrite <- (zip_longest_fst target_ids sample_weight) in Ht.
    apply list_elem_of_fmap in Ht as ([t' w] & -> & Hin).
    cbn [fst] in Hy, Hx.
    assert (Hin' : (x, y, w) ∈ omap f (zip_longest target_ids sample_weight)).
    { apply list_elem_of_omap. exists (t', w). split; [assumption |].
      unfold f. cbn [fst snd]. now rewrite Hy, Hx. }
    rewrite E in Hin'. now apply elem_of_nil in Hin'.
  - intros Hno.
    destruct (omap f (zip_longest target_ids sample_weight)) as [| e l] eqn:E;
      [reflexivity |].
    exfalso.
    assert (Hin : e ∈ omap f (zip_longest target_ids sample_weight))
      by (rewrite E; left).
    apply list_elem_of_omap in Hin as ([t w] & Hin & Hf).
    assert (Ht : t ∈ target_ids).
    { rewrite <- (zip_longest_fst target_ids sample_weight).
      apply list_elem_of_fmap. now exists (t, w). }
    unfold f in Hf. cbn [fst snd] in Hf.
    destruct (Hno t Ht) as [Hn | Hn]; rewrite Hn in Hf;
      [| destruct (model_results !! t)]; discriminate.
Qed.

Lemma mapM_raises {A B} (f : A -> result B) (l : list A) (e : exn) :
  mapM f l = Raise e -> exists a, a ∈ l /\ f a = Raise e.
Proof.
  induction l as [| a l IH]; [discriminate |].
  cbn [mapM]. destruct (f a) as [b |] eqn:Ea.
  - cbn [mbind result_bind bind]. destruct (mapM f l) as [k |]; [discriminate |].
    intros E. destruct (IH E) as (a' & Hin & Ha').
    exists a'. split; [now right | assumption].
  - intros [= <-]. exists a. split; [left | assumption].
Qed.

Lemma mapM_raises_at {A B} (f : A -> result B) (l : list A) (a : A)
  (e : exn) :
  a ∈ l -> f a = Raise e -> exists e', mapM f l = Raise e'.
Proof.
  induction l as [| b l IH]; intros Hin Ha; [now apply elem_of_nil in Hin |].
  cbn [mapM]. destruct (f b) as [y |] eqn:Eb; [| now eexists].
  apply elem_of_cons in Hin as [<- | Hin]; [congruence |].
  destruct (IH Hin Ha) as [e' ->]. now exists e'.
Qed.

(** X16: With no target held by both the prediction and the record the
    comparison is [np.nan]; a comparison that returns is [np.nan] in that
    case only, and otherwise the weighted average of one mean absolute
    error per shared target, with as many weights as errors; a comparison
    that raises does so in the mean absolute error of a shared target or,
    with every error computed, in the weighted average. The other way
    round: with every error computed and at least one shared target, the
    comparison is what the weighted average returns or raises; and a mean
    absolute error that raises makes the comparison raise. *)
Theorem compare_result_shared_targets (target_ids : list string)
  (model_results target_results : gmap string V) (sample_weight : list float) :
  let shared :=
    shared_targets target_ids model_results target_results sample_weight in
  let none_shared :=
    forall t, t ∈ target_ids ->
      model_results !! t = None \/ target_results !! t = None in
  (none_shared ->
   compare_result target_ids model_results target_results sample_weight
   = Ok NanObject)
  /\ (forall s,
        compare_result target_ids model_results target_results sample_weight
        = Ok s ->
        (s = NanObject <-> none_shared)
        /\ (s <> NanObject ->
            exists err x,
              s = Computed x
              /\ np_average err shared.*2 = Ok x
              /\ Forall2 (fun e (xyw : V * V * float) =>
                            mean_absolute_error xyw.1.1 xyw.1.2 = Ok e)
                   err shared
              /\ length err = length shared.*2
              /\ length err
                 = length (List.filter
                             (fun t =>
                                bool_decide (is_Some (model_results !! t))
                                && bool_decide
                                     (is_Some (target_results !! t)))
                             target_ids)))
  /\ (forall e,
        compare_result target_ids model_results target_results sample_weight
        = Raise e ->
        (exists xyw, xyw ∈ shared
                     /\ mean_absolute_error xyw.1.1 xyw.1.2 = Raise e)
        \/ exists err,
             Forall2 (fun e (xyw : V * V * float) =>
                        mean_absolute_error xyw.1.1 xyw.1.2 = Ok e)
               err shared
             /\ np_average err shared.*2 = Raise e)
  /\ (forall err,
        Forall2 (fun e (xyw : V * V * float) =>
                   mean_absolute_error xyw.1.1 xyw.1.2 = Ok e)
          err shared ->
        err <> [] ->
        compare_result target_ids model_results target_results sample_weight
        = Computed <$> np_average err shared.*2)
  /\ (forall xyw e,
        xyw ∈ shared ->
        mean_absolute_error xyw.1.1 xyw.1.2 = Raise e ->
        exists e',
          compare_result target_ids model_results target_results
            sample_weight = Raise e').
Proof.
  intros shared none_shared. unfold compare_result. fold shared.
  pose proof (shared_targets_nil target_ids model_results target_results
                sample_weight) as Hnil. fold shared in Hnil.
  pose proof (shared_targets_length target_ids model_results target_results
                sample_weight) as Hlen. fold shared in Hlen.
  split; [| split; [| split; [| split]]].
  - intros Hno. apply (proj2 Hnil) in Hno. rewrite Hno. reflexivity.
  - intros s Hrun.
    apply Co2EmissionProperties.bind_Ok in Hrun as (err & Herr & Hrun).
    pose proof (proj1 (PyFacts.mapM_Ok _ _ _) Herr) as Hall.
    pose proof (Forall2_length _ _ _ Hall) as Hl.
    destruct err as [| e0 err].
    + injection Hrun as <-.
      destruct shared as [| xyw rest]; [| discriminate].
      split; [| congruence].
      split; [intros _; exact (proj1 Hnil eq_refl) | reflexivity].
    + apply Co2EmissionProperties.bind_Ok in Hrun as (x & Havg & [= <-]).
      split.
      * split; [discriminate |]. intros Hno. apply (proj2 Hnil) in Hno.
        rewrite Hno in Hl. discriminate.
      * intros _. exists (e0 :: err), x. split; [reflexivity |].
        split; [exact Havg |]. split.
        -- apply Forall2_flip. exact Hall.
        -- rewrite length_fmap. split; [now symmetry |].
           rewrite <- Hlen. now symmetry.
  - intros e Hrun.
    destruct (mapM _ shared) as [err |] eqn:Herr.
    + cbn [mbind result_bind bind] in Hrun. right.
      pose proof (proj1 (PyFacts.mapM_Ok _ _ _) Herr) as Hall.
      destruct err as [| e0 err]; [discriminate |].
      exists (e0 :: err). split; [apply Forall2_flip; exact Hall |].
      destruct (np_average (e0 :: err) shared.*2) as [x | e1];
        [discriminate |].
      cbn in Hrun. injection Hrun as ->. reflexivity.
    + cbn [mbind result_bind bind] in Hrun. injection Hrun as <-. left.
      now apply mapM_raises in Herr.
  - intros err Hall Hne. apply Forall2_flip in Hall.
    apply (proj2 (PyFacts.mapM_Ok _ _ _)) in Hall. rewrite Hall.
    destruct err as [| e0 err]; [contradiction | reflexivity].
  - intros xyw e Hin Hraise.
    destruct (mapM_raises_at
                (fun xyw : V * V * float =>
                   mean_absolute_error xyw.1.1 xyw.1.2)
                shared xyw e Hin Hraise) as [e' He'].
    exists e'. rewrite He'. reflexivity.
Qed.

Lemma models_items (e_mods : gmap string V) (mods : list string)
  (ms : list (string * V)) :
  mapM (fun m => v ← getitem e_mods m; mret (m, v)) mods = Ok ms ->
  ms.*1 = mods /\ forall m v, (m, v) ∈ ms -> e_mods !! m = Some v.
Proof.
  revert ms. induction mods as [| m mods IH]; intros ms Hrun.
  - injection Hrun as <-. split; [reflexivity |].
    intros m v Hin. now apply elem_of_nil in Hin.
  - cbn [mapM] in Hrun.
    apply Co2EmissionProperties.bind_Ok in Hrun as (y & Hy & Hrun).
    apply Co2EmissionProperties.bind_Ok in Hy as (v & Hm & [= <-]).
    apply Co2EmissionProperties.bind_Ok in Hrun as (ms' & Hms & [= <-]).
    unfold getitem in Hm.
    destruct (e_mods !! m) as [v' |] eqn:Hm'; [| discriminate].
    injection Hm as ->. destruct (IH ms' Hms) as [Hk Hv].
    split; [cbn; now rewrite Hk |].
    intros m' v' Hin. apply elem_of_cons in Hin as [Heq | Hin];
      [injection Heq as -> ->; assumption | now apply Hv].
Qed.

(** X17: The inputs of a prediction: every model of the family with the value
    extracted for it, and the record's other data except the targets. *)
Theorem get_inputs_lookup (extracted_models outputs : gmap string V)
  (mods trgs : list string) (inputs : gmap string V) :
  get_inputs extracted_models outputs mods trgs = Ok inputs ->
  (forall m, m ∈ mods ->
     is_Some (inputs !! m) /\ inputs !! m = extracted_models !! m)
  /\ (forall k, k ∉ mods -> k ∈ trgs -> inputs !! k = None)
  /\ (forall k, k ∉ mods -> k ∉ trgs -> inputs !! k = outputs !! k).
Proof.
  unfold get_inputs. intros Hrun.
  destruct (mapM _ mods) as [ms |] eqn:Hms; [| discriminate].
  cbn [mbind result_bind bind mret result_ret] in Hrun. injection Hrun as <-.
  apply models_items in Hms as [Hk Hv].
  split; [| split].
  - intros m Hm. rewrite <- Hk in Hm.
    apply list_elem_of_fmap in Hm as ([m' v] & -> & Hin). cbn [fst].
    destruct (list_to_map (M := gmap string V) ms !! m') as [v' |] eqn:Hl.
    + erewrite lookup_union_Some_l by exact Hl.
      apply elem_of_list_to_map_2, Hv in Hl.
      split; [now eexists | now symmetry].
    + apply not_elem_of_list_to_map_2 in Hl. exfalso. apply Hl.
      apply list_elem_of_fmap. now exists (m', v).
  - intros k Hk' Ht. apply lookup_union_None. split.
    + apply not_elem_of_list_to_map_1. now rewrite Hk.
    + apply map_lookup_filter_None. right. intros v _ Hn. now apply Hn.
  - intros k Hk' Ht. rewrite lookup_union_r
      by (apply not_elem_of_list_to_map_1; now rewrite Hk).
    destruct (outputs !! k) as [v |] eqn:Ho.
    + now apply map_lookup_filter_Some.
    + apply map_lookup_filter_None. now left.
Qed.

(** X18: A family's model that was not extracted makes [get_inputs] raise a
    KeyError on such a model. *)
Theorem get_inputs_missing_model (extracted_models outputs : gmap string V)
  (mods trgs : list string) (m : string) :
  m ∈ mods -> extracted_models !! m = None ->
  exists m', m' ∈ mods /\ extracted_models !! m' = None
             /\ get_inputs extracted_models outputs mods trgs
                = Raise (KeyError m').
Proof.
  intros Hin Hm. unfold get_inputs.
  induction mods as [| m0 mods IH]; [now apply elem_of_nil in Hin |].
  cbn [mapM]. unfold getitem.
  destruct (extracted_models !! m0) as [v0 |] eqn:H0.
  - apply elem_of_cons in Hin as [-> | Hin]; [congruence |].
    destruct (IH Hin) as (m' & Hin' & Hm' & Hrun).
    exists m'. split; [now right |]. split; [assumption |].
    unfold getitem in Hrun.
    cbn [mbind result_bind bind mret result_ret] in Hrun |- *.
    destruct (mapM _ mods) as [ms |]; [discriminate |].
    exact Hrun.
  - exists m0. split; [now left |]. split; [assumption | reflexivity].
Qed.

Lemma incomplete_iff (d : family V) (e_mods : gmap string V) :
  existsb (fun m => negb (has_key e_mods m)) (models d)
  = negb (forallb (has_key e_mods) (models d)).
Proof.
  induction (models d) as [| m ms IH]; [reflexivity |].
  cbn. rewrite IH. now destruct (has_key e_mods m).
Qed.

(** What [error_fun] does to the heap: nothing for a candidate that lacks
    a model of the family; otherwise it adds one item that carries the
    number of extracted models, the cycle's name and the family's models. *)
Lemma error_fun_inv (d : family V) (heap heap' : list entry)
  (e_mods : gmap string V) (res_t : list (gmap string V)) (co_i : string) :
  error_fun d heap e_mods res_t co_i = Ok heap' ->
  if forallb (has_key e_mods) (models d)
  then exists err,
         heap' ≡ₚ (candidate_score err, size e_mods, co_i,
                   filter (fun kv => kv.1 ∈ models d) e_mods) :: heap
  else heap' = heap.
Proof.
  unfold error_fun. rewrite incomplete_iff.
  destruct (forallb (has_key e_mods) (models d)); cbn [negb].
  - intros Hrun.
    apply Co2EmissionProperties.bind_Ok in Hrun as (err & _ & Hpush).
    exists err. now apply heappush_perm in Hpush.
  - now intros [= <-].
Qed.

Lemma evaluate_raise (d : family V) (e : exn)
  (em_rt : list (gmap string V * list (gmap string V) * string)) :
  foldl (fun acc v => heap ← acc; error_fun d heap v.1.1 v.1.2 v.2)
        (Raise e) em_rt = Raise e.
Proof. induction em_rt as [| v l IH]; [reflexivity | exact IH]. Qed.

Lemma evaluate_from (d : family V)
  (em_rt : list (gmap string V * list (gmap string V) * string)) :
  forall heap0 heap : list entry,
    foldl (fun acc v => heap ← acc; error_fun d heap v.1.1 v.1.2 v.2)
          (Ok heap0) em_rt = Ok heap ->
    map (fun e => (entry_size e, entry_origin e, entry_models e)) heap
    ≡ₚ map (fun v => (size v.1.1, v.2,
                      filter (fun kv => kv.1 ∈ models d) v.1.1))
           (List.filter (fun v => forallb (has_key v.1.1) (models d)) em_rt)
       ++ map (fun e => (entry_size e, entry_origin e, entry_models e)) heap0.
Proof.
  induction em_rt as [| v l IH]; intros heap0 heap Hrun.
  - cbn in Hrun. now injection Hrun as <-.
  - cbn [foldl] in Hrun.
    cbn [mbind result_bind bind] in Hrun.
    destruct (error_fun d heap0 v.1.1 v.1.2 v.2) as [heap1 | e] eqn:E;
      [| now rewrite evaluate_raise in Hrun].
    apply IH in Hrun. rewrite Hrun. apply error_fun_inv in E.
    cbn [List.filter].
    destruct (forallb (has_key v.1.1) (models d)).
    + destruct E as (err & ->). cbn [map]. symmetry.
      apply Permutation_middle.
    + now subst heap1.
Qed.

(** X19: After every candidate was evaluated the heap holds one item per
    candidate that has all the family's models, and no other: each with the
    number of models extracted from its cycle, the cycle's name and the
    family's models among them. *)
Theorem evaluate_candidates_ranks_complete (d : family V)
  (em_rt : list (gmap string V * list (gmap string V) * string))
  (heap : list entry) :
  evaluate_candidates d em_rt = Ok heap ->
  map (fun e => (entry_size e, entry_origin e, entry_models e)) heap
  ≡ₚ map (fun v => (size v.1.1, v.2,
                    filter (fun kv => kv.1 ∈ models d) v.1.1))
         (List.filter (fun v => forallb (has_key v.1.1) (models d)) em_rt).
Proof.
  intros Hrun. apply evaluate_from in Hrun. now rewrite app_nil_r in Hrun.
Qed.

Lemma has_key_false (t : gmap string V) (k : string) :
  t !! k = None -> has_key t k = false.
Proof. intros E. unfold has_key. now rewrite E. Qed.

(** X20: A family for which no cycle calibrated all the models, and without
    post-processing, leaves the selection as it was. *)
Theorem select_family_without_candidates (d : family V)
  (selected : gmap string V * gmap string string)
  (em_rt : list (gmap string V * list (gmap string V) * string))
  (co : list (gmap string V)) :
  post_processing d = None ->
  (forall v, v ∈ em_rt -> exists m, m ∈ models d /\ v.1.1 !! m = None) ->
  select_family d selected em_rt co = Ok selected.
Proof.
  intros Hpost Hnone. destruct selected as [sm o]. unfold select_family.
  assert (Heval : evaluate_candidates d em_rt = Ok []).
  { unfold evaluate_candidates. change (mret []) with (Ok (@nil (@entry V))).
    induction em_rt as [| v l IH]; [reflexivity |].
    cbn [foldl]. cbn [mbind result_bind bind].
    assert (error_fun d [] v.1.1 v.1.2 v.2 = Ok []) as ->.
    { unfold error_fun.
      destruct (Hnone v) as (m & Hm & Hv); [now left |].
      assert (existsb (fun m => negb (has_key v.1.1 m)) (models d) = true)
        as ->; [| reflexivity].
      apply existsb_exists. exists m. split; [now apply list_elem_of_In |].
      now rewrite has_key_false. }
    apply IH. intros v' Hv'. apply Hnone. now right. }
  rewrite Heval, Hpost. reflexivity.
Qed.

Lemma error_fun_models (d : family V) (heap heap' : list entry)
  (e_mods : gmap string V) (res_t : list (gmap string V)) (co_i : string) :
  Forall (fun e => forall k, is_Some (entry_models e !! k) -> k ∈ models d)
         heap ->
  error_fun d heap e_mods res_t co_i = Ok heap' ->
  Forall (fun e => forall k, is_Some (entry_models e !! k) -> k ∈ models d)
         heap'.
Proof.
  intros Hall Hrun. apply error_fun_inv in Hrun.
  destruct (forallb (has_key e_mods) (models d)); [| now subst].
  destruct Hrun as (err & ->). constructor; [| assumption].
  intros k [v Hv]. unfold entry_models in Hv. cbn [snd] in Hv.
  now apply map_lookup_filter_Some in Hv as [_ Hk].
Qed.

Lemma evaluate_models (d : family V)
  (em_rt : list (gmap string V * list (gmap string V) * string)) :
  forall heap0 heap : list entry,
    Forall (fun e => forall k, is_Some (entry_models e !! k) -> k ∈ models d)
           heap0 ->
    foldl (fun acc v => heap ← acc; error_fun d heap v.1.1 v.1.2 v.2)
          (Ok heap0) em_rt = Ok heap ->
    Forall (fun e => forall k, is_Some (entry_models e !! k) -> k ∈ models d)
           heap.
Proof.
  induction em_rt as [| v l IH]; intros heap0 heap Hall Hrun.
  - cbn in Hrun. now injection Hrun as <-.
  - cbn [foldl] in Hrun. cbn [mbind result_bind bind] in Hrun.
    destruct (error_fun d heap0 v.1.1 v.1.2 v.2) as [heap1 | e] eqn:E;
      [| now rewrite evaluate_raise in Hrun].
    apply (IH heap1); [| assumption].
    now apply (error_fun_models d heap0 heap1 v.1.1 v.1.2 v.2).
Qed.

(** X21: Selecting for a family touches that family's models only: every other
    model selected before, and its origin, stay as they were; and when the
    selection changes, all the family's models get one and the same
    origin. *)
Theorem select_family_own_models (d : family V)
  (selected_models selected_models' : gmap string V)
  (origin origin' : gmap string string)
  (em_rt : list (gmap string V * list (gmap string V) * string))
  (co : list (gmap string V)) :
  select_family d (selected_models, origin) em_rt co
  = Ok (selected_models', origin') ->
  (forall k, k ∉ models d ->
     selected_models' !! k = selected_models !! k
     /\ origin' !! k = origin !! k)
  /\ ((selected_models', origin') = (selected_models, origin)
      \/ exists c, forall m, m ∈ models d -> origin' !! m = Some c).
Proof.
  unfold select_family. intros Hrun.
  apply Co2EmissionProperties.bind_Ok in Hrun as (heap0 & Heval & Hrun).
  apply Co2EmissionProperties.bind_Ok in Hrun as (e_mods & _ & Hrun).
  apply Co2EmissionProperties.bind_Ok in Hrun as (heap & Hpost & Hrun).
  assert (Hall : Forall (fun e => forall k, is_Some (entry_models e !! k) ->
                                            k ∈ models d) heap).
  { assert (Hall0 : Forall (fun e => forall k, is_Some (entry_models e !! k) ->
                                               k ∈ models d) heap0)
      by (apply (evaluate_models d em_rt [] heap0); [constructor | exact Heval]).
    destruct e_mods as [e_mods |]; [| now injection Hpost as <-].
    destruct (decide (e_mods = ∅)); [now injection Hpost as <- |].
    now apply (error_fun_models d heap0 heap e_mods co "ALL"). }
  destruct heap as [| top rest].
  { injection Hrun as <- <-. split; [now split | now left]. }
  destruct (heap_flush (top :: rest)) as [| first more]; [discriminate |].
  injection Hrun as <- <-. apply Forall_cons in Hall as [Htop _].
  split.
  - intros k Hk. split.
    + apply lookup_union_r.
      destruct (entry_models top !! k) as [v |] eqn:E; [| reflexivity].
      exfalso. apply Hk, Htop. exists v. exact E.
    + apply lookup_union_r. apply not_elem_of_list_to_map_1.
      rewrite <- list_fmap_compose. cbn. now rewrite list_fmap_id.
  - right. exists (entry_origin first). intros m Hm.
    apply lookup_union_Some_l. apply elem_of_list_to_map_1'.
    + intros y Hy. apply list_elem_of_fmap in Hy as (m' & [= _ ->] & _).
      reflexivity.
    + apply list_elem_of_fmap. now exists m.
Qed.

End Selection.

(** The comparison raises in the weighted average, on weights that are all
    zero, and in the metric, on two series that are not alike. *)
Example compare_result_raises :
  compare_result (H := strict_externals) ["y"] {["y" := 1%nat]}
    {["y" := 1%nat]} [0%float] = Raise ZeroDivisionError
  /\ compare_result (H := strict_externals) ["y"] {["y" := 1%nat]}
       {["y" := 2%nat]} [] = Raise ValueError
  /\ compare_result (H := strict_externals) ["y"] {["y" := 1%nat]}
       {["y" := 1%nat]} [] = Ok (Computed 0%float).
Proof. repeat split; reflexivity. Qed.

(** The record of cycle A: the model m is added, the target y left out. *)
Lemma get_inputs_lookup_witness :
  exists inputs,
    get_inputs {["m" := 1%nat]} sample_A ["m"] ["y"] = Ok inputs
    /\ inputs !! "m" = Some 1%nat /\ inputs !! "y" = None.
Proof.
  assert (Hrun : get_inputs {["m" := 1%nat]} sample_A ["m"] ["y"]
                 = Ok (list_to_map [("m", 1%nat)]
                       ∪ filter (fun kv => kv.1 ∉ ["y"]) sample_A))
    by reflexivity.
  eexists. split; [exact Hrun |].
  destruct (get_inputs_lookup _ _ _ _ _ Hrun) as (Hm & Ht & _).
  split.
  - destruct (Hm "m") as [_ ->]; [left | reflexivity].
  - apply Ht; [| left].
    intros Hin. apply list_elem_of_singleton in Hin. discriminate.
Defined.

Lemma get_inputs_missing_model_witness :
  exists m',
    get_inputs (V := nat) ∅ sample_A ["m"] ["y"] = Raise (KeyError m').
Proof.
  destruct (get_inputs_missing_model (V := nat) ∅ sample_A ["m"] ["y"] "m")
    as (m' & _ & _ & Hrun).
  - left.
  - reflexivity.
  - now exists m'.
Defined.

(** Two cycles that both calibrated m: two items, named A and B. *)
Lemma evaluate_candidates_ranks_complete_witness :
  exists heap,
    evaluate_candidates (H := sample_externals) sample_family sample_em_rt
    = Ok heap
    /\ map entry_origin heap ≡ₚ ["A"; "B"].
Proof.
  assert (Hrun : evaluate_candidates (H := sample_externals) sample_family
                   sample_em_rt
                 = Ok [ (NanObject, 1%nat, "A", {["m" := 1%nat]});
                        (Computed 0.5, 1%nat, "B", {["m" := 2%nat]}) ])
    by reflexivity.
  eexists. split; [exact Hrun |].
  pose proof (evaluate_candidates_ranks_complete (H := sample_externals)
                _ _ _ Hrun) as Hperm.
  apply (fmap_Permutation (fun x : nat * string * gmap string nat => x.1.2))
    in Hperm.
  exact Hperm.
Defined.

(** No cycle calibrated the model z. *)
Lemma select_family_without_candidates_witness :
  select_family (H := sample_externals)
    {| models := ["z"]; targets := ["y"];
       get_inputs_of := None; post_processing := None |}
    (∅, ∅) sample_em_rt [sample_A; sample_B]
  = Ok (∅, ∅).
Proof.
  apply (select_family_without_candidates (H := sample_externals)).
  - reflexivity.
  - intros v Hv. exists "z". split; [left |].
    unfold sample_em_rt in Hv.
    repeat (apply elem_of_cons in Hv as [-> | Hv]); try reflexivity.
    now apply elem_of_nil in Hv.
Defined.

(** A model x selected before stays when the family of m is selected. *)
Lemma select_family_own_models_witness :
  exists selected_models' origin',
    select_family (H := sample_externals) sample_family
      ({["x" := 9%nat]}, {["x" := "B"]}) sample_em_rt [sample_A; sample_B]
    = Ok (selected_models', origin')
    /\ selected_models' !! "x" = Some 9%nat /\ origin' !! "x" = Some "B".
Proof.
  assert (Hrun : select_family (H := sample_externals) sample_family
                   ({["x" := 9%nat]}, {["x" := "B"]}) sample_em_rt
                   [sample_A; sample_B]
                 = Ok ({["m" := 1%nat]} ∪ {["x" := 9%nat]},
                       list_to_map [("m", "A")] ∪ {["x" := "B"]}))
    by reflexivity.
  eexists _, _. split; [exact Hrun |].
  destruct (select_family_own_models (H := sample_externals)
              _ _ _ _ _ _ _ Hrun) as [Hkeep _].
  destruct (Hkeep "x") as [-> ->]; [| split; reflexivity].
  intros Hin. apply list_elem_of_singleton in Hin. discriminate.
Defined.

End SelectorProperties.

(** ** Further properties of the command line *)
Module CliProperties.
Import Py PyFacts Cli CliFacts.

Section Commands.
Context `{Platform}.






(** What [write_file] leaves: nothing printed; the whole content when it
    returns; when it fails, the files as they were or, where no directory
    is, a file with the bytes copied until then. *)
Lemma write_file_outcome (path content : string) (w : world) :
  stderr (write_file path content w).2 = stderr w
  /\ (((write_file path content w).1 = Ok tt
       /\ fs w !! path <> Some Dir
       /\ fs (write_file path content w).2 = <[path := File content]> (fs w))
      \/ ((write_file path content w).1 = Raise (OSError path)
          /\ (fs (write_file path content w).2 = fs w
              \/ (fs w !! path <> Some Dir
                  /\ exists n,
                       fs (write_file path content w).2
                       = <[path := File (substring 0 n content)]> (fs w))))).
Proof.
  unfold write_file, failed_write.
  destruct (fs w !! path) as [[c |] |] eqn:E; cbn [fst snd].
  2: { split; [reflexivity |]. right. split; [reflexivity | now left]. }
  all: destruct (writable (fs w) path); cbn [fst snd fs stderr];
    (split; [reflexivity |]);
    [left; split; [reflexivity | split; [discriminate | reflexivity]] |].
  all: right; split; [reflexivity |].
  all: destruct (copied_before_failure (fs w) path content) as [n |];
    [right; split; [discriminate | now exists n] | now left].
Qed.

(** One turn of the loop of [_cmd_template]. *)
Lemma template_step (force : bool) (fpath0 : string) (rest : list string)
  (w : world) :
  let fpath := template_fpath fpath0 in
  let line := "Creating co2mpas TEMPLATE input-file '" +:+ fpath +:+ "'..." in
  _cmd_template_paths force (fpath0 :: rest) w
  = if bool_decide (is_Some (fs w !! fpath)) && negb force
    then (Raise (CmdException (already_exists_message fpath)), w)
    else match fs w !! fpath with
         | Some Dir =>
             (Raise (CmdException
                       ("Expecting a file-name instead of directory '"
                        +:+ fpath +:+ "'!")), w)
         | _ =>
             match write_file fpath template_content
                     {| fs := fs w; stderr := stderr w ++ [line] |} with
             | (Ok _, w') => _cmd_template_paths force rest w'
             | (Raise e, w') => (Raise e, w')
             end
         end.
Proof.
  intros fpath line. cbn [_cmd_template_paths]. fold fpath.
  unfold mbind, M_bind, m_bind, exists_.
  destruct (bool_decide (is_Some (fs w !! fpath)) && negb force);
    [reflexivity |].
  unfold isdir, print_stderr.
  destruct (fs w !! fpath) as [[c |] |] eqn:E; reflexivity.
Qed.


(** X23: The paths are handled in the order given, and the first failure ends
    the command with what the paths before it have written. *)
Theorem template_paths_in_order (force : bool) (l1 l2 : list string)
  (w : world) :
  _cmd_template_paths force (l1 ++ l2) w
  = match _cmd_template_paths force l1 w with
    | (Ok _, w1) => _cmd_template_paths force l2 w1
    | (Raise e, w1) => (Raise e, w1)
    end.
Proof.
  revert w. induction l1 as [| fpath0 rest IH]; intros w; [reflexivity |].
  change ((fpath0 :: rest) ++ l2) with (fpath0 :: (rest ++ l2)).
  rewrite !template_step. cbv zeta.
  destruct (bool_decide (is_Some (fs w !! template_fpath fpath0))
            && negb force); [reflexivity |].
  destruct (fs w !! template_fpath fpath0) as [[c |] |]; try reflexivity.
  all: match goal with
       | |- context [write_file ?p ?c ?w1] =>
           destruct (write_file p c w1) as [[[] | e] w2]
       end; [apply IH | reflexivity].
Qed.

(** X24: The ways [template] fails: on one of the paths given, because it
    exists and --force is not set, because it is a directory, or because it
    cannot be written. *)
Theorem template_failure_reasons (force : bool) (paths : list string)
  (w : world) (e : exn) :
  (_cmd_template_paths force paths w).1 = Raise e ->
  exists fpath0,
    fpath0 ∈ paths
    /\ ((e = CmdException (already_exists_message (template_fpath fpath0))
         /\ force = false)
        \/ e = CmdException ("Expecting a file-name instead of directory '"
                             +:+ template_fpath fpath0 +:+ "'!")
        \/ e = OSError (template_fpath fpath0)).
Proof.
  revert w. induction paths as [| fpath0 rest IH]; intros w Hrun;
    [discriminate |].
  rewrite template_step in Hrun. cbv zeta in Hrun.
  assert (Hrest : forall w1,
             (_cmd_template_paths force rest w1).1 = Raise e ->
             exists fpath1,
               fpath1 ∈ fpath0 :: rest
               /\ ((e = CmdException
                          (already_exists_message (template_fpath fpath1))
                    /\ force = false)
                   \/ e = CmdException
                            ("Expecting a file-name instead of directory '"
                             +:+ template_fpath fpath1 +:+ "'!")
                   \/ e = OSError (template_fpath fpath1))).
  { intros w1 H1. destruct (IH w1 H1) as (p & Hp & Hwhy).
    exists p. split; [now right | assumption]. }
  destruct (bool_decide (is_Some (fs w !! template_fpath fpath0))
            && negb force) eqn:Hguard.
  { injection Hrun as <-. exists fpath0. split; [left |]. left.
    split; [reflexivity |]. apply andb_true_iff in Hguard as [_ Hf].
    now destruct force. }
  destruct (fs w !! template_fpath fpath0) as [[c |] |].
  2: { injection Hrun as <-. exists fpath0. split; [left |]. right. now left. }
  all: match type of Hrun with
       | context [write_file ?p ?c ?w1] =>
           destruct (write_file_outcome p c w1) as [_ Hfs];
           destruct (write_file p c w1) as [[[] | e'] w2]
       end; [now apply (Hrest _ Hrun) |].
  all: destruct Hfs as [[Hfs _] | [Hfs _]]; [discriminate |].
  all: cbn [fst] in Hfs, Hrun; rewrite Hfs in Hrun; injection Hrun as <-.
  all: exists fpath0; split; [left |]; right; now right.
Qed.

(** X25: A path given twice without --force: the file is written, then the
    command fails on it. *)
Theorem template_same_path_twice (fpath0 : string) (w : world) :
  let fpath := template_fpath fpath0 in
  fs w !! fpath = None ->
  writable (fs w) fpath = true ->
  exists w1,
    _cmd_template_paths false [fpath0; fpath0] w
    = (Raise (CmdException (already_exists_message fpath)), w1)
    /\ fs w1 = <[fpath := File template_content]> (fs w).
Proof.
  intros fpath Hnone Hw. rewrite template_step. cbv zeta. fold fpath.
  rewrite Hnone.
  rewrite bool_decide_eq_false_2 by (intros [n Hn]; discriminate).
  cbn [andb]. unfold write_file at 1. cbn [fs stderr]. rewrite Hnone, Hw.
  rewrite template_step. cbv zeta. fold fpath. cbn [fs].
  rewrite lookup_insert_eq.
  rewrite bool_decide_eq_true_2 by (now eexists). cbn [andb negb].
  eexists. split; reflexivity.
Qed.





(** X26: [example] into a folder that does not exist, or that is a file, ends
    with the message that says so and leaves everything as it is. *)
Theorem example_folder_errors (opts : options) (w : world) :
  opt_template opts = false -> opt_example opts = true ->
  let dst_folder := abspath (opt_folder opts) in
  (fs w !! dst_folder = None ->
   main opts w
   = (SystemExit ("Destination folder '" +:+ dst_folder
                  +:+ "' does not exist!"), w))
  /\ (forall c, fs w !! dst_folder = Some (File c) ->
        main opts w
        = (SystemExit ("Destination '" +:+ dst_folder
                       +:+ "' is not a <folder>!"), w)).
Proof.
  intros Ht He dst_folder. unfold main, _main. rewrite Ht, He.
  unfold _cmd_example. fold dst_folder.
  unfold mbind, M_bind, m_bind, exists_, isdir. split.
  - intros Hnone. rewrite Hnone. reflexivity.
  - intros c Hfile. rewrite Hfile.
    rewrite bool_decide_eq_true_2 by (now eexists).
    cbn [negb]. cbv beta. rewrite Hfile. reflexivity.
Qed.


End Commands.

(** With --force on a path that names a directory. *)
Lemma template_failure_reasons_witness :
  exists fpath0,
    fpath0 ∈ ["/work"]
    /\ (_cmd_template_paths (H := sample_platform) true ["/work"]
          {| fs := {["/work.xlsx" := Dir]}; stderr := [] |}).1
       = Raise (CmdException ("Expecting a file-name instead of directory '"
                              +:+ template_fpath (H := sample_platform) fpath0
                              +:+ "'!")).
Proof.
  assert (Hrun : (_cmd_template_paths (H := sample_platform) true ["/work"]
                    {| fs := {["/work.xlsx" := Dir]}; stderr := [] |}).1
                 = Raise (CmdException
                            "Expecting a file-name instead of directory '/work.xlsx'!"))
    by reflexivity.
  destruct (template_failure_reasons (H := sample_platform) _ _ _ _ Hrun)
    as (fpath0 & Hin & Hwhy).
  exists fpath0. split; [exact Hin |].
  apply list_elem_of_singleton in Hin. subst fpath0. reflexivity.
Defined.

Lemma template_same_path_twice_witness :
  exists w1,
    _cmd_template_paths (H := sample_platform) false
      ["/work/vehicle"; "/work/vehicle"] empty_world
    = (Raise (CmdException
                "File '/work/vehicle.xlsx' already exists! Use '-f' to overwrite it."),
       w1)
    /\ fs w1 !! "/work/vehicle.xlsx" = Some (File "template").
Proof.
  destruct (template_same_path_twice (H := sample_platform) "/work/vehicle"
              empty_world eq_refl eq_refl) as (w1 & Hrun & Hfs).
  exists w1. split; [exact Hrun |]. rewrite Hfs. reflexivity.
Defined.

Lemma example_folder_errors_witness :
  main (H := sample_platform)
    {| opt_template := false; opt_example := true; opt_ipynb := false;
       opt_force := false; opt_excel_file_path := []; opt_folder := "/none";
       opt_I := "./input"; opt_O := "./output"; opt_more_output := false;
       opt_no_warn_gui := false; opt_plot_workflow := false |} empty_world
  = (SystemExit "Destination folder '/none' does not exist!", empty_world).
Proof.
  exact (proj1 (example_folder_errors (H := sample_platform)
                  {| opt_template := false; opt_example := true;
                     opt_ipynb := false; opt_force := false;
                     opt_excel_file_path := []; opt_folder := "/none";
                     opt_I := "./input"; opt_O := "./output";
                     opt_more_output := false; opt_no_warn_gui := false;
                     opt_plot_workflow := false |} empty_world
                  eq_refl eq_refl) eq_refl).
Defined.

(** On a platform where every copy fails after three bytes, [template] ends
    with the OSError of the path and leaves the three bytes there. *)
Example template_partial_copy :
  exists w1,
    _cmd_template_paths (H := failing_platform) false ["/work/vehicle"]
      empty_world
    = (Raise (OSError "/work/vehicle.xlsx"), w1)
    /\ fs w1 !! "/work/vehicle.xlsx" = Some (File "tem")
    /\ stderr w1
       = ["Creating co2mpas TEMPLATE input-file '/work/vehicle.xlsx'..."].
Proof. eexists. repeat split; reflexivity. Qed.

(** The same for [example]: the demo file's place holds its first three
    bytes. *)
Example example_partial_copy :
  exists w1,
    _cmd_example (H := failing_platform)
      {| opt_template := false; opt_example := true; opt_ipynb := false;
         opt_force := false; opt_excel_file_path := []; opt_folder := "/work";
         opt_I := "./input"; opt_O := "./output"; opt_more_output := false;
         opt_no_warn_gui := false; opt_plot_workflow := false |}
      {| fs := {["/work" := Dir]}; stderr := [] |}
    = (Raise (OSError "/work/demo.xlsx"), w1)
    /\ fs w1 !! "/work/demo.xlsx" = Some (File "dem")
    /\ fs w1 !! "/work" = Some Dir.
Proof.
  exists {| fs := <["/work/demo.xlsx" := File "dem"]> {["/work" := Dir]};
            stderr := ["Creating co2mpas EXAMPLE input-file '/work/demo.xlsx'..."]
         |}.
  repeat split; reflexivity.
Qed.

Section Prompt.
Context `{Repr}.





End Prompt.


End CliProperties.

(** ** Properties of the documentation test *)
Module DocsProperties.
Import Docs.

Lemma scan_lines_fails (ver : string) (fd : list string) :
  forall i, i <= header_len ->
    (scan_lines ver i fd = Passed
     \/ scan_lines ver i fd = AssertionError (not_found_message ver))
    /\ (scan_lines ver i fd = AssertionError (not_found_message ver)
        <-> header_len - i < length fd
            /\ forall l, l ∈ take (S (header_len - i)) fd ->
                 contains ver l = false).
Proof.
  induction fd as [| l rest IH]; intros i Hi.
  - cbn [scan_lines length]. split; [now left |]. split; [discriminate |].
    intros [Hlt _]. lia.
  - cbn [scan_lines length]. destruct (contains ver l) eqn:Hl.
    + split; [now left |]. split; [discriminate |].
      intros [_ Hall]. rewrite (Hall l) in Hl; [discriminate |].
      cbn [take]. left.
    + destruct (header_len <=? i)%nat eqn:Hi'.
      * apply Nat.leb_le in Hi'. split; [now right |].
        split; [| reflexivity]. intros _. split; [lia |].
        replace (header_len - i) with 0 by lia. cbn [take].
        intros l' Hl'. apply list_elem_of_singleton in Hl'. now subst.
      * apply Nat.leb_gt in Hi'.
        destruct (IH (S i)) as [Hor Hiff]; [lia |].
        split; [exact Hor |]. rewrite Hiff.
        replace (header_len - i) with (S (header_len - S i)) by lia.
        cbn [take]. split.
        -- intros [Hlt Hall]. split; [lia |].
           intros l' Hl'. apply elem_of_cons in Hl' as [-> | Hl'];
             [assumption | now apply Hall].
        -- intros [Hlt Hall]. split; [lia |].
           intros l' Hl'. apply Hall. now right.
Qed.

(** X30: The test fails exactly when the README has more than 20 lines and
    none of its first 21 holds the version: a README of 20 lines or fewer
    passes whatever it says, and the version in line 21 still counts. *)
Theorem readme_version_opening (ver : string) (readme : list string) :
  (test_README_version_opening ver readme = Passed
   \/ test_README_version_opening ver readme
      = AssertionError (not_found_message ver))
  /\ (test_README_version_opening ver readme
      = AssertionError (not_found_message ver)
      <-> 20 < length readme
          /\ forall l, l ∈ take 21 readme -> contains ver l = false)
  /\ (length readme <= 20 -> test_README_version_opening ver readme = Passed).
Proof.
  unfold test_README_version_opening.
  destruct (scan_lines_fails ver readme 0) as [Hor Hiff];
    [unfold header_len; lia |].
  split; [exact Hor |]. split; [exact Hiff |].
  intros Hshort. destruct Hor as [Hp | Hf]; [exact Hp |].
  apply Hiff in Hf as [Hlt _]. unfold header_len in Hlt. lia.
Qed.

(** An empty README passes; 21 lines without the version do not. *)
Lemma readme_version_opening_witness :
  test_README_version_opening "1.0.1" [] = Passed
  /\ test_README_version_opening "1.0.1" (replicate 21 "CO2MPAS")
     = AssertionError
         "Version(1.0.1) not found in README 20 header-lines!".
Proof.
  split.
  - apply (readme_version_opening "1.0.1" []). cbn. lia.
  - reflexivity.
Defined.

End DocsProperties.
